(** * Chart lab backend: a shallow embedding of [backend/server.py]

    The service has three layers that the handlers of [server.py] glue
    together: pandas (tabular data), matplotlib.pyplot (a process-wide
    registry of figures) and a MongoDB collection of chart documents.

    - Module [Pandas] models the [DataFrame] operations the handlers call.
      A missing cell (NaN) is [None]. Sums of an int64 column wrap around as
      pandas' do. A float64 value is held as an exact rational ([Qc]), and
      the arithmetic on floats is exact: float64 rounding, overflow and
      infinities are outside the model, so what is proved of float results
      is stated for data on which they play no part.
    - Module [Matplotlib] models a figure by the calls made on it.
    - Module [Py] holds what the handlers need from Python itself:
      exceptions, and a state-and-exception monad whose state is the
      process-wide [World] (pyplot's figures, the database, the sources
      of identifiers and of time), with the library calls that act on it.
    - Module [Server] is [server.py], handler by handler, statement by
      statement.
    - Module [Spec] words the properties of the specification, and
      Module [Sample] holds the data the examples run on.

    Encoded payloads are represented by what decoding them yields: a base64
    CSV string by the outcome of [base64.b64decode(..).decode('utf-8')]
    followed by [pd.read_csv], a base64 PNG string by the figure that
    [plt.savefig] wrote. *)

From Stdlib Require Import ZArith QArith Qcanon Reals Lra String List Permutation Sorted.
From stdpp Require Import base numbers strings pretty gmap option list.

Local Open Scope string_scope.
Local Open Scope list_scope.

(** ** pandas *)

Module Pandas.

(** A non-missing cell value: a number, a Python [bool] or a [str]. *)
Inductive scalar :=
| Num (q : Qc)
| Boolean (b : bool)
| Str (s : string).

#[global] Instance scalar_eq_dec : EqDecision scalar.
Proof. solve_decision. Defined.

(** A cell; [None] is NaN. *)
Abbreviation cell := (option scalar).

(** What an [object] column parsed by [read_csv] holds besides NaN. *)
Inductive pyobj :=
| OStr (s : string)
| OBool (b : bool).

Definition scalar_of_pyobj (o : pyobj) : scalar :=
  match o with
  | OStr s => Str s
  | OBool b => Boolean b
  end.

(** The column dtypes [read_csv] infers with its default arguments. An
    integer column has no missing value; a numeric column with a missing
    value or a decimal point is [float64]; a column of [True]/[False]
    literals is [bool]; anything else is [object]. *)
Inductive dtype := int64 | float64 | bool_ | object_.

#[global] Instance dtype_eq_dec : EqDecision dtype.
Proof. solve_decision. Defined.

Inductive Series :=
| Int64 (xs : list Z)
| Float64 (xs : list (option Qc))
| Bool (xs : list bool)
| Object (xs : list (option pyobj)).

Definition dtype_of (s : Series) : dtype :=
  match s with
  | Int64 _ => int64
  | Float64 _ => float64
  | Bool _ => bool_
  | Object _ => object_
  end.

(** An integer as a rational. *)
Abbreviation Z2Qc := Qc_of_Z.

(** [Series.values] as cells. *)
Definition values (s : Series) : list cell :=
  match s with
  | Int64 xs => (λ z : Z, Some (Num (Z2Qc z))) <$> xs
  | Float64 xs => (λ o : option Qc, Num <$> o) <$> xs
  | Bool xs => (λ b : bool, Some (Boolean b)) <$> xs
  | Object xs => (λ o : option pyobj, scalar_of_pyobj <$> o) <$> xs
  end.

(** A frame is its columns in file order. [read_csv] mangles repeated
    header names, so a parsed frame has pairwise distinct names. *)
Definition DataFrame := list (string * Series).

Definition columns (df : DataFrame) : list string := fst <$> df.

(** [len(df)] *)
Definition len (df : DataFrame) : nat :=
  match df with
  | [] => 0
  | (_, s) :: _ => length (values s)
  end.

(** [name in df.columns] *)
Definition has_column (name : string) (df : DataFrame) : bool :=
  bool_decide (name ∈ columns df).

(** [df[name]]; [None] stands for the [KeyError] pandas raises. *)
Fixpoint getitem (df : DataFrame) (name : string) : option Series :=
  match df with
  | [] => None
  | (n, s) :: df' => if decide (n = name) then Some s else getitem df' name
  end.

(** The selectors the handlers pass to [select_dtypes(include=...)]. No
    column parsed by [read_csv] with default arguments is categorical. *)
Inductive selector := number | object | category.

Definition selects (sel : selector) (d : dtype) : bool :=
  match sel, d with
  | number, (int64 | float64) => true
  | object, object_ => true
  | _, _ => false
  end.

Definition select_dtypes (include : list selector) (df : DataFrame) : DataFrame :=
  filter (λ c, existsb (λ sel, selects sel (dtype_of c.2)) include = true) df.

(** [df.head(n)] *)
Definition head_series (n : nat) (s : Series) : Series :=
  match s with
  | Int64 xs => Int64 (take n xs)
  | Float64 xs => Float64 (take n xs)
  | Bool xs => Bool (take n xs)
  | Object xs => Object (take n xs)
  end.

Definition head (n : nat) (df : DataFrame) : DataFrame :=
  (λ c, (c.1, head_series n c.2)) <$> df.

(** [df.to_dict('records')]: one dict per row; a dict is kept as the
    list of its items in column order. *)
Definition row (df : DataFrame) (i : nat) : list (string * cell) :=
  (λ c, (c.1, default None (values c.2 !! i))) <$> df.

Definition to_dict_records (df : DataFrame) : list (list (string * cell)) :=
  row df <$> seq 0 (len df).

(** [series.dropna()] *)
Definition dropna (xs : list cell) : list scalar := omap (λ c, c) xs.

(** [df.index] of a parsed frame: [RangeIndex(len(df))]. *)
Definition index (df : DataFrame) : list cell :=
  (λ i, Some (Num (Z2Qc (Z.of_nat i)))) <$> seq 0 (len df).

(** *** Ordering of results *)

Section isort.
Context {A : Type} (before : A → A → bool).

(** Stable insertion sort: [x] is placed ahead of the first element it
    may precede. *)
Fixpoint insert_sorted (x : A) (l : list A) : list A :=
  match l with
  | [] => [x]
  | y :: l' => if before x y then x :: l else y :: insert_sorted x l'
  end.

Definition isort (l : list A) : list A := foldr insert_sorted [] l.
End isort.

Definition scalar_rank (k : scalar) : nat :=
  match k with Boolean _ => 0 | Num _ => 1 | Str _ => 2 end.

(** Order of group keys: numbers by value, strings by code point, [False]
    before [True]. Keys of different Python types never share a column
    except in an [object] column mixing [bool] and [str], which the model
    orders by type. *)
Definition scalar_le (a b : scalar) : bool :=
  match a, b with
  | Num p, Num q => bool_decide (p ≤ q)%Qc
  | Boolean p, Boolean q => implb p q
  | Str p, Str q => String.leb p q
  | _, _ => (scalar_rank a <? scalar_rank b)%nat
  end.

(** *** Grouping *)

Section grouping.
Context {V : Type} (add : V → V → V).

(** The hash table step shared by [value_counts] and [groupby]: add [v] to
    the entry of key [k], or open an entry for it behind the others. *)
Fixpoint upsert (k : scalar) (v : V) (acc : list (scalar * V)) : list (scalar * V) :=
  match acc with
  | [] => [(k, v)]
  | (k', t) :: acc' =>
      if decide (k' = k) then (k', add t v) :: acc' else (k', t) :: upsert k v acc'
  end.

(** A row whose key is NaN belongs to no group ([dropna=True]). *)
Definition step (acc : list (scalar * V)) (r : cell * V) : list (scalar * V) :=
  match r.1 with Some k => upsert k r.2 acc | None => acc end.

(** One pass over the rows, in row order. *)
Definition aggregate (rows : list (cell * V)) : list (scalar * V) :=
  foldl step [] rows.

(** The entry recorded for a key, as a dictionary lookup. *)
Fixpoint assoc (k : scalar) (acc : list (scalar * V)) : option V :=
  match acc with
  | [] => None
  | (k', t) :: acc' => if decide (k' = k) then Some t else assoc k acc'
  end.

(** The values the rows keyed by [k] hold, oldest first. *)
Definition contributions (k : scalar) (rows : list (cell * V)) : list V :=
  snd <$> filter (λ r, r.1 = Some k) rows.
End grouping.

(** *** [Series.value_counts()] *)

(** One counter per distinct value, in first-seen order; NaN is not
    counted. *)
Definition tally (xs : list cell) : list (scalar * nat) :=
  aggregate Nat.add ((λ c : cell, (c, 1)) <$> xs).

(** Most frequent first. pandas leaves the order among equal counts open;
    here they stay in first-seen order. *)
Definition value_counts (s : Series) : list (scalar * nat) :=
  isort (λ a b, (b.2 <=? a.2)%nat) (tally (values s)).

(** *** [df.groupby(x)[y].sum()] *)

(** The numbers of a column as floats: what [corr] works on, and what
    [sum] adds up in a float64 or bool column. A [bool] counts as 0 or 1; an
    [object] column has no numeric view. *)
Definition numbers (s : Series) : option (list (option Qc)) :=
  match s with
  | Int64 xs => Some ((λ z : Z, Some (Z2Qc z)) <$> xs)
  | Float64 xs => Some xs
  | Bool xs => Some ((λ b : bool, Some (if b then 1%Qc else 0%Qc)) <$> xs)
  | Object _ => None
  end.

(** A NaN value adds nothing to its group ([skipna]); the groups come out
    sorted by key ([sort=True]). The additions are exact. *)
Definition groupby_sum (keys : list cell) (vals : list (option Qc)) : list (scalar * Qc) :=
  isort (λ a b, scalar_le a.1 b.1)
    (aggregate Qcplus (zip keys (default 0%Qc <$> vals))).

(** What an addition leaves in an int64: the sum modulo 2^64, in the range
    from -2^63 to 2^63 - 1. *)
Definition wrap64 (z : Z) : Z :=
  ((z + 9223372036854775808) mod 18446744073709551616 - 9223372036854775808)%Z.

(** The sums of an [int64] column, which has no NaN: pandas adds in int64,
    without an overflow check, so each group holds its sum wrapped around. *)
Definition groupby_sum_int64 (keys : list cell) (vals : list Z) : list (scalar * Z) :=
  (λ kt : scalar * Z, (kt.1, wrap64 kt.2)) <$>
    isort (λ a b : scalar * Z, scalar_le a.1 b.1) (aggregate Z.add (zip keys vals)).

(** [df.groupby(x)[y].sum()] by the dtype of [y], as the numbers that
    [.values] hands to matplotlib. The sums of an [object] column are no
    numbers ([None]): pandas adds strings by concatenating them. *)
Definition groupby_sum_of (keys : list cell) (ys : Series) : option (list (scalar * Qc)) :=
  match ys with
  | Int64 zs => Some ((λ kt : scalar * Z, (kt.1, Z2Qc kt.2)) <$> groupby_sum_int64 keys zs)
  | _ => groupby_sum keys <$> numbers ys
  end.

(** *** Direct recomputation

    What the specification compares the aggregations with: the frequency
    of a value is the number of cells holding it, and the sum of a group is
    the total, in unbounded integers, of the values on the rows keyed by
    it. *)

Definition frequency (k : scalar) (xs : list cell) : nat :=
  length (filter (λ c, c = Some k) xs).

Definition group_total_int (k : scalar) (keys : list cell) (vals : list Z) : Z :=
  foldr Z.add 0%Z (contributions k (zip keys vals)).

(** *** [df.corr()] *)

(** A float64 result: NaN, or a real number. *)
Inductive fval := NaN | Val (r : R).

(** Rows on which both columns hold a value (pairwise deletion). *)
Fixpoint complete_pairs (xs ys : list (option Qc)) : list (Qc * Qc) :=
  match xs, ys with
  | Some x :: xs', Some y :: ys' => (x, y) :: complete_pairs xs' ys'
  | _ :: xs', _ :: ys' => complete_pairs xs' ys'
  | _, _ => []
  end.

Definition total (l : list Qc) : Qc := foldr Qcplus 0%Qc l.

Definition mean (l : list Qc) : Qc := (total l / Z2Qc (Z.of_nat (length l)))%Qc.

(** Sum of products of deviations from the means. *)
Definition codeviation (ps : list (Qc * Qc)) (f g : Qc * Qc → Qc) : Qc :=
  let mf := mean (f <$> ps) in
  let mg := mean (g <$> ps) in
  total ((λ p, (f p - mf) * (g p - mg))%Qc <$> ps).

(** Pearson's coefficient with [min_periods=1]: NaN without a complete
    pair, and NaN when either column has no spread (zero divisor). The
    arithmetic is exact; pandas computes in float64, where a spread can round
    to zero or overflow. *)
Definition pearson (xs ys : list (option Qc)) : fval :=
  let ps := complete_pairs xs ys in
  if (length ps <? 1)%nat then NaN
  else
    let sxx := codeviation ps fst fst in
    let syy := codeviation ps snd snd in
    let sxy := codeviation ps fst snd in
    if decide ((sxx * syy)%Qc = 0%Qc) then NaN
    else Val (Q2R sxy / sqrt (Q2R (sxx * syy)%Qc))%R.

(** The sum of squared deviations of a column's values from their mean:
    zero when they are all equal, or fewer than two. *)
Definition spread (xs : list (option Qc)) : Qc :=
  codeviation (complete_pairs xs xs) fst fst.

(** The result of [corr()]: a frame labelled on both axes by the
    columns of its argument. *)
Record CorrMatrix := {
  labels : list string;
  entries : list (list fval)
}.

Definition corr (df : DataFrame) : CorrMatrix :=
  let cols := omap (λ c, pair c.1 <$> numbers c.2) df in
  {| labels := fst <$> cols;
     entries := (λ ci, (λ cj, pearson ci.2 cj.2) <$> cols) <$> cols |}.

(** [m.iloc[i, j]] of an in-range position. *)
Definition iloc (m : CorrMatrix) (i j : nat) : fval :=
  default NaN (default [] (entries m !! i) !! j).

End Pandas.

(** ** matplotlib *)

Module Matplotlib.
Import Pandas.

(** A colour drawn from a registered colormap: [get_cmap(name)(x)] for a
    float [x], [get_cmap(name)(range(n))[i]] for an index. *)
Inductive Color :=
| sampled (cmap : string) (x : Qc)
| indexed (cmap : string) (i : nat).

(** One plotting call, with the arguments the handlers pass. *)
Inductive Artist :=
| bar (x height : list cell) (color : Color)
| plot (x y : list cell) (color : Color) (marker : string)
| scatter (x y : list cell) (c : Color) (alpha : Qc)
| pie (x : list Qc) (labels : list scalar) (autopct : string) (colors : list Color)
| hist (x : list scalar) (bins : nat) (color : Color) (alpha : Qc)
| imshow (X : CorrMatrix) (cmap : string) (aspect : string)
| colorbar
| text (x y : nat) (s : fval) (ha va : string) (color : string).

(** [plt.xticks(locs, labels, rotation=.., ha=..)]; the positional pair is
    optional. *)
Record Ticks := {
  locs : option (list nat * list string);
  rotation : option Z;
  ha : option string
}.

Record Figure := {
  figsize : Qc * Qc;
  artists : list Artist;
  xlabel : option string;
  ylabel : option string;
  title : option string;
  xticks : option Ticks;
  yticks : option Ticks;
  tight : bool
}.

(** [Figure(figsize=..)]: nothing drawn yet. *)
Definition blank (size : Qc * Qc) : Figure :=
  {| figsize := size; artists := []; xlabel := None; ylabel := None;
     title := None; xticks := None; yticks := None; tight := false |}.

(** The default [rcParams['figure.figsize']], used when a plotting call
    finds no open figure. *)
Definition default_figsize : Qc * Qc := (Q2Qc (64 # 10), Q2Qc (48 # 10)).

Definition draw (a : Artist) (f : Figure) : Figure :=
  {| figsize := figsize f; artists := artists f ++ [a]; xlabel := xlabel f;
     ylabel := ylabel f; title := title f; xticks := xticks f;
     yticks := yticks f; tight := tight f |}.

Definition set_xlabel (s : string) (f : Figure) : Figure :=
  {| figsize := figsize f; artists := artists f; xlabel := Some s;
     ylabel := ylabel f; title := title f; xticks := xticks f;
     yticks := yticks f; tight := tight f |}.

Definition set_ylabel (s : string) (f : Figure) : Figure :=
  {| figsize := figsize f; artists := artists f; xlabel := xlabel f;
     ylabel := Some s; title := title f; xticks := xticks f;
     yticks := yticks f; tight := tight f |}.

Definition set_title (s : string) (f : Figure) : Figure :=
  {| figsize := figsize f; artists := artists f; xlabel := xlabel f;
     ylabel := ylabel f; title := Some s; xticks := xticks f;
     yticks := yticks f; tight := tight f |}.

Definition set_xticks (t : Ticks) (f : Figure) : Figure :=
  {| figsize := figsize f; artists := artists f; xlabel := xlabel f;
     ylabel := ylabel f; title := title f; xticks := Some t;
     yticks := yticks f; tight := tight f |}.

Definition set_yticks (t : Ticks) (f : Figure) : Figure :=
  {| figsize := figsize f; artists := artists f; xlabel := xlabel f;
     ylabel := ylabel f; title := title f; xticks := xticks f;
     yticks := Some t; tight := tight f |}.

Definition set_tight (f : Figure) : Figure :=
  {| figsize := figsize f; artists := artists f; xlabel := xlabel f;
     ylabel := ylabel f; title := title f; xticks := xticks f;
     yticks := yticks f; tight := true |}.

(** The canvas of a figure has [figsize] inches times [dpi] pixels. The
    Agg backend refuses a canvas of 2^16 pixels or more in either
    direction. *)
Definition too_large (dpi : Z) (f : Figure) : bool :=
  bool_decide (Z2Qc 65536 ≤ (figsize f).1 * Z2Qc dpi)%Qc
  || bool_decide (Z2Qc 65536 ≤ (figsize f).2 * Z2Qc dpi)%Qc.

(** The default [rcParams['figure.dpi']]. *)
Definition default_dpi : Z := 100.

(** What [savefig(buffer, format='png', dpi=.., bbox_inches='tight')]
    writes, base64-encoded: the picture of a figure. *)
Inductive Image := PNG (dpi : Z) (fig : Figure).

Definition image_figure (i : Image) : Figure :=
  match i with PNG _ fig => fig end.

End Matplotlib.

(** ** Python: exceptions, values, the process state *)

Module Py.
Import Pandas Matplotlib.

(** The exceptions that reach the handlers. [Formatted p e] is the
    f-string [f"{p}{str(e)}"]. *)
Inductive exn :=
| KeyError (key : string)
| ValueError (msg : string)
| TypeError (msg : string)
| DecodeError (msg : string)
| ValidationError (field : string)
| HTTPException (status_code : Z) (detail : Detail)
with Detail :=
| Literal (s : string)
| Formatted (prefix : string) (cause : exn).

(** The bytes of a CSV file, or their base64 text, by what decoding and
    [pd.read_csv] make of them. *)
Inductive Payload :=
| Unreadable (why : string)
| Table (df : DataFrame).

(** Values held by the documents of the database. [PyStrCsv] and
    [PyStrPng] are the [str] values that carry base64 text. *)
#[warnings="-register-all"] Inductive pyval :=
| PyNone
| PyStr (s : string)
| PyInt (z : Z)
| PyStrCsv (p : Payload)
| PyStrPng (i : Image)
| PyDatetime (t : Z)
| PyObjectId (n : nat)
| PyDict (d : gmap string pyval).

Abbreviation Document := (gmap string pyval).

(** The state the handlers share:
    - [figures]: pyplot's open figures, the current one first;
    - [colormaps]: the names matplotlib has registered;
    - [charts]: the collection [db.charts] in insertion order;
    - [next_oid]: the next [ObjectId] the driver assigns;
    - [uuid4], [utcnow], [reads]: the outcomes of the successive calls to
      [uuid.uuid4()] and [datetime.utcnow()], and how many were made. *)
Record World := {
  figures : list Figure;
  colormaps : list string;
  charts : list (gmap string pyval);
  next_oid : nat;
  uuid4 : nat → string;
  utcnow : nat → Z;
  reads : nat
}.

Definition with_figures (fs : list Figure) (w : World) : World :=
  {| figures := fs; colormaps := colormaps w; charts := charts w;
     next_oid := next_oid w; uuid4 := uuid4 w; utcnow := utcnow w;
     reads := reads w |}.

(** A computation: it ends in a value or in a raised exception, and
    leaves a state either way. *)
Definition M (A : Type) : Type := World → (exn + A) * World.

#[global] Instance M_ret : MRet M := λ A a w, (inr a, w).

#[global] Instance M_bind : MBind M := λ A B k m w,
  match m w with
  | (inr a, w') => k a w'
  | (inl e, w') => (inl e, w')
  end.

Definition raise {A} (e : exn) : M A := λ w, (inl e, w).

(** [try: body / except Exception as e: handler(e)]. What [body] did to
    the state before it raised stays done. *)
Definition try_except {A} (body : M A) (handler : exn → M A) : M A := λ w,
  match body w with
  | (inr a, w') => (inr a, w')
  | (inl e, w') => handler e w'
  end.

(** [d[key]] on a request dictionary whose entry may be absent. *)
Definition subscript {A} (key : string) (entry : option A) : M A :=
  match entry with
  | Some a => mret a
  | None => raise (KeyError key)
  end.

(** [bool(s)] of an optional string *)
Definition truthy (o : option string) : bool :=
  match o with
  | Some s => negb (String.eqb s "")
  | None => false
  end.

(** [s.endswith(suffix)] *)
Definition endswith (s suffix : string) : bool :=
  String.prefix (String.rev suffix) (String.rev s).

(** *** pandas calls that can raise *)

(** [pd.read_csv(io.StringIO(base64.b64decode(data).decode('utf-8')))] *)
Definition read_csv (data : Payload) : M DataFrame :=
  match data with
  | Table df => mret df
  | Unreadable why => raise (DecodeError why)
  end.

(** [df[name]] *)
Definition df_getitem (df : DataFrame) (name : string) : M Series :=
  match getitem df name with
  | Some s => mret s
  | None => raise (KeyError name)
  end.

(** *** pyplot

    A plotting call is modelled by what it adds to the current figure. Of
    the refusals of matplotlib, those of an unregistered colour scheme, of a
    pie that cannot be drawn and of a canvas that is too large are modelled;
    the others (a histogram of booleans, bars over a column with a missing
    name) are not, and what is proved of a branch is stated for the runs in
    which it has drawn. *)

(** [plt.figure(figsize=..)]: a new figure, which becomes current. *)
Definition plt_figure (size : Qc * Qc) : M unit := λ w,
  (inr (), with_figures (blank size :: figures w) w).

(** [plt.gcf()]: the current figure; a default one is opened when the
    registry is empty. *)
Definition gcf (fs : list Figure) : Figure :=
  match fs with
  | cur :: _ => cur
  | [] => blank default_figsize
  end.

Definition update_current (f : Figure → Figure) (fs : list Figure) : list Figure :=
  f (gcf fs) :: tail fs.

(** Every other pyplot call acts on the current figure. *)
Definition on_current (f : Figure → Figure) : M unit := λ w,
  (inr (), with_figures (update_current f (figures w)) w).

(** [plt.close()]: the current figure leaves the registry. *)
Definition plt_close : M unit := λ w,
  (inr (), with_figures (tail (figures w)) w).

(** [plt.cm.get_cmap(name)]: [ValueError] for an unregistered name. *)
Definition get_cmap (name : string) : M string := λ w,
  if bool_decide (name ∈ colormaps w) then (inr name, w)
  else (inl (ValueError "not a valid value for name"), w).

Definition plt_bar (x height : list cell) (color : Color) : M unit :=
  on_current (draw (bar x height color)).

Definition plt_plot (x y : list cell) (color : Color) (marker : string) : M unit :=
  on_current (draw (plot x y color marker)).

Definition plt_scatter (x y : list cell) (c : Color) (alpha : Qc) : M unit :=
  on_current (draw (scatter x y c alpha)).

(** [plt.pie] refuses a negative wedge, and wedges that are all zero,
    which it cannot scale to fractions of their total. *)
Definition plt_pie (x : list Qc) (labels : list scalar) (autopct : string)
    (colors : list Color) : M unit :=
  if bool_decide (Exists (λ v, v < 0)%Qc x)
  then raise (ValueError "Wedge sizes 'x' must be non negative values")
  else if bool_decide (x ≠ [] ∧ total x = 0%Qc)
  then raise (ValueError "cannot convert float NaN to integer")
  else on_current (draw (pie x labels autopct colors)).

Definition plt_hist (x : list scalar) (bins : nat) (color : Color) (alpha : Qc) : M unit :=
  on_current (draw (hist x bins color alpha)).

(** [plt.imshow(X, cmap=name, ..)] looks the colormap up by name. *)
Definition plt_imshow (X : CorrMatrix) (cmap : string) (aspect : string) : M unit :=
  name ← get_cmap cmap;
  on_current (draw (imshow X name aspect)).

Definition plt_colorbar : M unit := on_current (draw colorbar).

Definition plt_text (x y : nat) (s : fval) (ha va color : string) : M unit :=
  on_current (draw (text x y s ha va color)).

Definition plt_xlabel (s : string) : M unit := on_current (set_xlabel s).
Definition plt_ylabel (s : string) : M unit := on_current (set_ylabel s).
Definition plt_title (s : string) : M unit := on_current (set_title s).
Definition plt_xticks (t : Ticks) : M unit := on_current (set_xticks t).
Definition plt_yticks (t : Ticks) : M unit := on_current (set_yticks t).

(** What Agg raises for a canvas it refuses; the message names the size. *)
Definition canvas_error : exn :=
  ValueError "Image size in pixels is too large. It must be less than 2^16 in each direction.".

(** [plt.tight_layout()] lays the current figure out on its canvas, at
    the figure's own resolution; it fails when the canvas cannot be made. *)
Definition plt_tight_layout : M unit := λ w,
  if too_large default_dpi (gcf (figures w))
  then (inl canvas_error, with_figures (update_current (λ f, f) (figures w)) w)
  else on_current set_tight w.

(** [plt.savefig(buffer, format='png', dpi=dpi, bbox_inches='tight')]
    followed by reading the buffer back and base64-encoding it. The figure
    is drawn on a canvas at the resolution asked for. *)
Definition plt_savefig (dpi : Z) : M Image := λ w,
  if too_large dpi (gcf (figures w))
  then (inl canvas_error, with_figures (update_current (λ f, f) (figures w)) w)
  else (inr (PNG dpi (gcf (figures w))),
        with_figures (update_current (λ f, f) (figures w)) w).

(** [for x in xs: body(x)] *)
Fixpoint for_each {A} (xs : list A) (body : A → M unit) : M unit :=
  match xs with
  | [] => mret ()
  | x :: xs' => body x;; for_each xs' body
  end.

(** *** The identifier and time sources *)

(** One more draw was made from the sources. *)
Definition advance (w : World) : World :=
  {| figures := figures w; colormaps := colormaps w; charts := charts w;
     next_oid := next_oid w; uuid4 := uuid4 w; utcnow := utcnow w;
     reads := S (reads w) |}.

(** [str(uuid.uuid4())] *)
Definition new_uuid : M string := λ w,
  (inr (uuid4 w (reads w)), advance w).

(** [datetime.utcnow()] *)
Definition now : M Z := λ w,
  (inr (utcnow w (reads w)), advance w).

(** *** The database

    BSON keeps a date to the millisecond. A time is a number of
    microseconds; what is below the millisecond is dropped when the driver
    encodes a [datetime]. *)
Definition bson_datetime (t : Z) : Z := (1000 * (t / 1000))%Z.

(** A value once encoded and decoded: the dates in it are cut, those of
    nested dictionaries too. *)
Fixpoint bson_value (v : pyval) : pyval :=
  match v with
  | PyDatetime t => PyDatetime (bson_datetime t)
  | PyDict d => PyDict (bson_value <$> d)
  | _ => v
  end.

(** *** The collection [db.charts] *)

(** [await db.charts.insert_one(doc)]: the driver gives the document an
    [_id] unless it has one, encodes it and appends it. The driver's own
    failures are outside the model. *)
Definition insert_one (doc : Document) : M unit := λ w,
  let stored :=
    bson_value <$>
      match doc !! "_id" with
      | Some _ => doc
      | None => <["_id" := PyObjectId (next_oid w)]> doc
      end in
  (inr (),
   {| figures := figures w; colormaps := colormaps w;
      charts := charts w ++ [stored];
      next_oid := S (next_oid w); uuid4 := uuid4 w; utcnow := utcnow w;
      reads := reads w |}).

(** [await db.charts.find().to_list(length)]: at most [length] documents,
    oldest first; each call hands out fresh dictionaries. *)
Definition find_to_list (length : nat) : M (list Document) := λ w,
  (inr (take length (charts w)), w).

Definition field_is (key value : string) (doc : Document) : bool :=
  match doc !! key with
  | Some (PyStr s) => bool_decide (s = value)
  | _ => false
  end.

(** [await db.charts.find_one({key: value})]: the first match, or
    [None]. *)
Definition find_one (key value : string) : M (option Document) := λ w,
  (inr (List.find (field_is key value) (charts w)), w).

(** *** The collection [db.status_checks]

    The database holds a second collection, which only the status handlers
    use. [Service] is the process state together with it; what is written
    for the process state runs in it through [lift]. *)
Record Service := {
  process : World;
  status_checks : list Document
}.

Definition SM (A : Type) : Type := Service → (exn + A) * Service.

#[global] Instance SM_ret : MRet SM := λ A a s, (inr a, s).

#[global] Instance SM_bind : MBind SM := λ A B k m s,
  match m s with
  | (inr a, s') => k a s'
  | (inl e, s') => (inl e, s')
  end.

Definition lift {A} (m : M A) : SM A := λ s,
  match m (process s) with
  | (r, w') => (r, {| process := w'; status_checks := status_checks s |})
  end.

(** The driver assigned one more [ObjectId]. *)
Definition next_object_id (w : World) : World :=
  {| figures := figures w; colormaps := colormaps w; charts := charts w;
     next_oid := S (next_oid w); uuid4 := uuid4 w; utcnow := utcnow w;
     reads := reads w |}.

(** [await db.status_checks.insert_one(doc)]: the driver gives the
    document an [_id] unless it has one, encodes it and appends it. *)
Definition status_checks_insert_one (doc : Document) : SM unit := λ s,
  let stored :=
    bson_value <$>
      match doc !! "_id" with
      | Some _ => doc
      | None => <["_id" := PyObjectId (next_oid (process s))]> doc
      end in
  (inr (),
   {| process := next_object_id (process s);
      status_checks := status_checks s ++ [stored] |}).

(** [await db.status_checks.find().to_list(length)] *)
Definition status_checks_find_to_list (length : nat) : SM (list Document) := λ s,
  (inr (take length (status_checks s)), s).

End Py.

(** ** server.py *)

Module Server.
Import Pandas Matplotlib Py.

(** *** Models *)

(** [class ChartConfig(BaseModel)] *)
Record ChartConfig := {
  chart_type : string;
  x_column : string;
  y_column : option string;
  color_scheme : option string;
  title : option string;
  width : option positive;
  height : option positive
}.

(** [class ChartData(BaseModel)] *)
Record ChartData := {
  id : string;
  filename : string;
  data : Payload;
  config : ChartConfig;
  chart_image : option Image;
  timestamp : Z
}.

(** The [config] dictionary of a request. A key may be missing; a key
    that is there holds a value of the type [ChartConfig] declares for it
    and not null, and a width or a height is a positive number of pixels. *)
Record ConfigDict := {
  cfg_chart_type : option string;
  cfg_x_column : option string;
  cfg_y_column : option string;
  cfg_color_scheme : option string;
  cfg_title : option string;
  cfg_width : option positive;
  cfg_height : option positive
}.

(** The JSON body of [POST /api/generate-chart], a [Dict[str, Any]]. *)
Record ChartRequest := {
  req_filename : option string;
  req_data : option Payload;
  req_config : option ConfigDict
}.

(** [ChartConfig] built from the keys of [config]: the two fields without
    a default are required; the others take their defaults. *)
Definition ChartConfig_init (config : ConfigDict) : M ChartConfig :=
  match cfg_chart_type config, cfg_x_column config with
  | Some ct, Some xc =>
      mret {| chart_type := ct; x_column := xc;
              y_column := cfg_y_column config;
              color_scheme := Some (default "viridis" (cfg_color_scheme config));
              title := Some (default "Chart" (cfg_title config));
              width := Some (default 800%positive (cfg_width config));
              height := Some (default 600%positive (cfg_height config)) |}
  | None, _ => raise (ValidationError "chart_type")
  | _, None => raise (ValidationError "x_column")
  end.

(** [ChartData(filename=.., data=.., config=.., chart_image=..)]: [id] and
    [timestamp] come from their default factories, in field order. *)
Definition ChartData_init (filename : string) (data : Payload)
    (config : ChartConfig) (chart_image : Image) : M ChartData :=
  i ← new_uuid;
  t ← now;
  mret {| id := i; filename := filename; data := data; config := config;
          chart_image := Some chart_image; timestamp := t |}.

Definition opt_str (o : option string) : pyval :=
  match o with Some s => PyStr s | None => PyNone end.

Definition opt_int (o : option positive) : pyval :=
  match o with Some n => PyInt (Z.pos n) | None => PyNone end.

(** [ChartConfig.dict()] *)
Definition ChartConfig_dict (c : ChartConfig) : Document :=
  <["chart_type" := PyStr (chart_type c)]>
  (<["x_column" := PyStr (x_column c)]>
  (<["y_column" := opt_str (y_column c)]>
  (<["color_scheme" := opt_str (color_scheme c)]>
  (<["title" := opt_str (title c)]>
  (<["width" := opt_int (width c)]>
  (<["height" := opt_int (height c)]> ∅)))))).

(** [ChartData.dict()] *)
Definition ChartData_dict (c : ChartData) : Document :=
  <["id" := PyStr (id c)]>
  (<["filename" := PyStr (filename c)]>
  (<["data" := PyStrCsv (data c)]>
  (<["config" := PyDict (ChartConfig_dict (config c))]>
  (<["chart_image" := match chart_image c with
                      | Some i => PyStrPng i
                      | None => PyNone
                      end]>
  (<["timestamp" := PyDatetime (timestamp c)]> ∅))))).

(** *** [POST /api/upload-csv] *)

Record UploadFile := {
  upload_filename : string;
  upload_content : Payload
}.

Record UploadResponse := {
  up_filename : string;
  up_data : Payload;
  up_columns : list string;
  up_numeric_columns : list string;
  up_categorical_columns : list string;
  up_preview : list (list (string * cell));
  up_row_count : nat;
  up_column_count : nat
}.

Definition upload_csv (file : UploadFile) : M UploadResponse :=
  if negb (endswith (upload_filename file) ".csv") then
    raise (HTTPException 400 (Literal "Only CSV files are allowed"))
  else
    try_except
      (let content := upload_content file in
       df ← read_csv content;
       let columns := columns df in
       let numeric_columns := Pandas.columns (select_dtypes [number] df) in
       let categorical_columns := Pandas.columns (select_dtypes [object; category] df) in
       let preview_data := to_dict_records (head 10 df) in
       let data_base64 := content in
       mret {| up_filename := upload_filename file;
               up_data := data_base64;
               up_columns := columns;
               up_numeric_columns := numeric_columns;
               up_categorical_columns := categorical_columns;
               up_preview := preview_data;
               up_row_count := len df;
               up_column_count := length (Pandas.columns df) |})
      (λ e, raise (HTTPException 400 (Formatted "Error processing CSV: " e))).

(** *** [POST /api/generate-chart] *)

Record ChartResponse := {
  resp_id : string;
  resp_chart_image : Image;
  resp_message : string
}.

(** [if y_column and y_column in df.columns: then_ else: else_] *)
Definition if_y_column {A} (y_column : option string) (df : DataFrame)
    (then_ : string → A) (else_ : A) : A :=
  match y_column with
  | Some y => if truthy y_column && has_column y df then then_ y else else_
  | None => else_
  end.

Definition half : Qc := Q2Qc (1 # 2).

(** The colour of a cell's text: ['white' if abs(v) > 0.5 else 'black'];
    no comparison with NaN holds. *)
Definition text_color (v : fval) : string :=
  match v with
  | Val r => if Rgt_dec (Rabs r) (1 / 2) then "white" else "black"
  | NaN => "black"
  end.

(** The branch of each chart type; an unknown type draws nothing. In the
    pie branch, [pie_data] is [None] when the sums of [y_column] are no
    numbers: [plt.pie] is then called, after the colours were looked up, and
    refuses them. *)
Definition render (chart_type x_column : string) (y_column : option string)
    (color_scheme : string) (df : DataFrame) : M unit :=
  if decide (chart_type = "bar") then
    if_y_column y_column df
      (λ y,
        xs ← df_getitem df x_column;
        ys ← df_getitem df y;
        cmap ← get_cmap color_scheme;
        plt_bar (values xs) (values ys) (sampled cmap half);;
        plt_ylabel y)
      (xs ← df_getitem df x_column;
       let value_counts := value_counts xs in
       cmap ← get_cmap color_scheme;
       plt_bar (Some <$> value_counts.*1)
               ((λ n : nat, Some (Num (Z2Qc (Z.of_nat n)))) <$> value_counts.*2)
               (sampled cmap half);;
       plt_ylabel "Count");;
    plt_xlabel x_column;;
    plt_xticks {| locs := None; rotation := Some 45%Z; ha := Some "right" |}
  else if decide (chart_type = "line") then
    if_y_column y_column df
      (λ y,
        xs ← df_getitem df x_column;
        ys ← df_getitem df y;
        cmap ← get_cmap color_scheme;
        plt_plot (values xs) (values ys) (sampled cmap half) "o";;
        plt_ylabel y)
      (let idx := index df in
       xs ← df_getitem df x_column;
       cmap ← get_cmap color_scheme;
       plt_plot idx (values xs) (sampled cmap half) "o";;
       plt_ylabel x_column;;
       plt_xlabel "Index");;
    plt_xlabel (if truthy y_column then x_column else "Index")
  else if decide (chart_type = "scatter") then
    if_y_column y_column df
      (λ y,
        xs ← df_getitem df x_column;
        ys ← df_getitem df y;
        cmap ← get_cmap color_scheme;
        plt_scatter (values xs) (values ys) (sampled cmap half) (Q2Qc (7 # 10));;
        plt_ylabel y;;
        plt_xlabel x_column)
      (raise (HTTPException 400 (Literal "Scatter plot requires both X and Y columns")))
  else if decide (chart_type = "pie") then
    pie_data ← if_y_column y_column df
      (λ y,
        xs ← df_getitem df x_column;
        ys ← df_getitem df y;
        mret (groupby_sum_of (values xs) ys))
      (xs ← df_getitem df x_column;
       mret (Some ((λ kn : scalar * nat, (kn.1, Z2Qc (Z.of_nat kn.2))) <$> value_counts xs)));
    cmap ← get_cmap color_scheme;
    match pie_data with
    | Some pie_data =>
        let colors := indexed cmap <$> seq 0 (length pie_data) in
        plt_pie (pie_data.*2) (pie_data.*1) "%1.1f%%" colors
    | None => raise (ValueError "could not convert string to float")
    end
  else if decide (chart_type = "histogram") then
    xs ← df_getitem df x_column;
    cmap ← get_cmap color_scheme;
    plt_hist (dropna (values xs)) 30 (sampled cmap half) (Q2Qc (7 # 10));;
    plt_xlabel x_column;;
    plt_ylabel "Frequency"
  else if decide (chart_type = "heatmap") then
    let numeric_df := select_dtypes [number] df in
    if (length (columns numeric_df) <? 2)%nat then
      raise (HTTPException 400 (Literal "Heatmap requires at least 2 numeric columns"))
    else
      let correlation_matrix := corr numeric_df in
      let n := length (labels correlation_matrix) in
      plt_imshow correlation_matrix color_scheme "auto";;
      plt_colorbar;;
      plt_xticks {| locs := Some (seq 0 n, labels correlation_matrix);
                    rotation := Some 45%Z; ha := Some "right" |};;
      plt_yticks {| locs := Some (seq 0 n, labels correlation_matrix);
                    rotation := None; ha := None |};;
      for_each (seq 0 n) (λ i,
        for_each (seq 0 n) (λ j,
          plt_text j i (iloc correlation_matrix i j) "center" "center"
                   (text_color (iloc correlation_matrix i j))))
  else mret ().

Definition hundredth (n : positive) : Qc := Q2Qc (Z.pos n # 100).

Definition generate_chart (chart_request : ChartRequest) : M ChartResponse :=
  try_except
    (data ← subscript "data" (req_data chart_request);
     df ← read_csv data;
     config ← subscript "config" (req_config chart_request);
     chart_type ← subscript "chart_type" (cfg_chart_type config);
     x_column ← subscript "x_column" (cfg_x_column config);
     let y_column := cfg_y_column config in
     let color_scheme := default "viridis" (cfg_color_scheme config) in
     let title := default "Chart" (cfg_title config) in
     let width := default 800%positive (cfg_width config) in
     let height := default 600%positive (cfg_height config) in
     plt_figure (hundredth width, hundredth height);;
     render chart_type x_column y_column color_scheme df;;
     plt_title title;;
     plt_tight_layout;;
     image_base64 ← plt_savefig 100;
     plt_close;;
     filename ← subscript "filename" (req_filename chart_request);
     data' ← subscript "data" (req_data chart_request);
     config' ← ChartConfig_init config;
     chart_data ← ChartData_init filename data' config' image_base64;
     insert_one (ChartData_dict chart_data);;
     mret {| resp_id := id chart_data;
             resp_chart_image := image_base64;
             resp_message := "Chart generated successfully" |})
    (λ e, raise (HTTPException 500 (Formatted "Error generating chart: " e))).

(** *** [GET /api/charts] and [GET /api/chart/{chart_id}] *)

(** [if '_id' in chart: del chart['_id']] *)
Definition strip_id (chart : Document) : Document :=
  if bool_decide ("_id" ∈ dom chart) then delete "_id" chart else chart.

Definition get_charts : M (list Document) :=
  charts ← find_to_list 1000;
  mret (strip_id <$> charts).

Definition get_chart (chart_id : string) : M Document :=
  chart ← find_one "id" chart_id;
  match chart with
  | Some chart =>
      if bool_decide (chart = ∅) then
        raise (HTTPException 404 (Literal "Chart not found"))
      else mret (strip_id chart)
  | None => raise (HTTPException 404 (Literal "Chart not found"))
  end.

(** *** What the client sees *)

(** FastAPI answers a raised [HTTPException] with its status code, any
    other exception with 500, a returned value with 200 (the failure to
    encode a returned value that holds a NaN as JSON is outside the
    model). *)
Definition status {A} (r : exn + A) : Z :=
  match r with
  | inr _ => 200
  | inl (HTTPException code _) => code
  | inl _ => 500
  end.

(** *** [GET /api/] *)

Definition root : M Document := mret {["message" := PyStr "Hello World"]}.

(** *** [POST /api/status] and [GET /api/status] *)

(** [class StatusCheck(BaseModel)] *)
Record StatusCheck := {
  status_id : string;
  client_name : string;
  status_timestamp : Z
}.

(** [class StatusCheckCreate(BaseModel)] *)
Record StatusCheckCreate := {
  create_client_name : string
}.

(** [StatusCheckCreate.dict()] *)
Definition StatusCheckCreate_dict (input : StatusCheckCreate) : Document :=
  {["client_name" := PyStr (create_client_name input)]}.

(** [StatusCheck.dict()] *)
Definition StatusCheck_dict (c : StatusCheck) : Document :=
  <["id" := PyStr (status_id c)]>
  (<["client_name" := PyStr (client_name c)]>
  (<["timestamp" := PyDatetime (status_timestamp c)]> ∅)).

(** [StatusCheck] built from the keys of a dictionary, as [ChartConfig]
    above. The fields are read in the order of their declaration: an absent [id] or [timestamp] is drawn from its default
    factory, an absent [client_name] is an error, and a key that names no
    field ([_id]) is ignored. The errors are raised once every field has
    been read; the exception names the first field in error. A value that
    is not of the declared type is refused: the conversions pydantic
    attempts on such values are outside the model, and the documents this
    service writes never need them. *)
Definition StatusCheck_init (kwargs : Document) : M StatusCheck :=
  i ← match kwargs !! "id" with
      | None => s ← new_uuid; mret (Some s)
      | Some (PyStr s) => mret (Some s)
      | Some _ => mret None
      end;
  let c := match kwargs !! "client_name" with
           | Some (PyStr s) => Some s
           | _ => None
           end in
  t ← match kwargs !! "timestamp" with
      | None => t ← now; mret (Some t)
      | Some (PyDatetime t) => mret (Some t)
      | Some _ => mret None
      end;
  match i, c, t with
  | Some i, Some c, Some t =>
      mret {| status_id := i; client_name := c; status_timestamp := t |}
  | None, _, _ => raise (ValidationError "id")
  | _, None, _ => raise (ValidationError "client_name")
  | _, _, None => raise (ValidationError "timestamp")
  end.

Definition create_status_check (input : StatusCheckCreate) : SM StatusCheck :=
  let status_dict := StatusCheckCreate_dict input in
  status_obj ← lift (StatusCheck_init status_dict);
  status_checks_insert_one (StatusCheck_dict status_obj);;
  mret status_obj.

(** The list comprehension builds the objects from the oldest document
    on. *)
Definition get_status_checks : SM (list StatusCheck) :=
  status_checks ← status_checks_find_to_list 1000;
  lift (mapM StatusCheck_init status_checks).

End Server.

(** ** The specification's words, and the vocabulary of the proofs *)

Module Spec.
Import Pandas Matplotlib Py Server.

(** The chart types [generate_chart] has a branch for. *)
Definition supported : list string :=
  ["bar"; "line"; "scatter"; "pie"; "histogram"; "heatmap"].

(** "numericColumns ∪ categoricalColumns == columns with no overlap" *)
Definition classifies_every_column (r : UploadResponse) : Prop :=
  (∀ c, c ∈ up_numeric_columns r → c ∉ up_categorical_columns r) ∧
  (∀ c, c ∈ up_columns r ↔ c ∈ up_numeric_columns r ∨ c ∈ up_categorical_columns r).

(** "a square matrix of size len(numericColumns)" *)
Definition square (n : nat) (m : CorrMatrix) : Prop :=
  length (labels m) = n ∧ length (entries m) = n ∧
  Forall (λ row, length row = n) (entries m).

(** "with diagonal entries equal to 1.0" *)
Definition unit_diagonal (m : CorrMatrix) : Prop :=
  ∀ i, i < length (labels m) → iloc m i i = Val 1.

(** A column whose non-missing values are all the same (or that has
    none). *)
Definition constant (xs : list (option Qc)) : Prop :=
  ∃ c, ∀ x, Some x ∈ xs → x = c.

(** A column of whole numbers of at most 2^31 in absolute value. float64
    holds them exactly and their sums of squares far from its limits: on
    such a column the exact arithmetic of the model decides, as float64
    does, whether the column has a spread, and the quotient of a spread by
    itself is 1.0 in both. *)
Definition small_integers (xs : list (option Qc)) : Prop :=
  ∀ x, Some x ∈ xs → ∃ z : Z, x = Z2Qc z ∧ (Z.abs z ≤ 2147483648)%Z.

(** The numbers of the [i]-th column of a frame. *)
Definition column_numbers (df : DataFrame) (i : nat) : list (option Qc) :=
  default [] (df !! i ≫= λ c, numbers c.2).

(** "getAll returns every stored chart record, each with the
    document-store id stripped" *)
Definition returns_every_record (w : World) : Prop :=
  (get_charts w).1 = inr (delete "_id" <$> charts w).

(** What a chart shows for each value: the bars of a bar chart, the
    wedges of a pie. *)
Definition bars (a : Artist) : list (cell * cell) :=
  match a with
  | bar x height _ => zip x height
  | _ => []
  end.

Definition wedges (a : Artist) : list (scalar * Qc) :=
  match a with
  | pie x labels _ _ => zip labels x
  | _ => []
  end.

(** A count as [plt.bar] receives it. *)
Definition count_cell (n : nat) : cell := Some (Num (Z2Qc (Z.of_nat n))).

(** The values a chart has a bar or a wedge for. *)
Definition shown_values (a : Artist) : list cell :=
  match a with
  | bar x _ _ => x
  | pie _ labels _ _ => Some <$> labels
  | _ => []
  end.

(** "the aggregation keeps every distinct x-value present in the input
    (no value is silently dropped)": whatever a cell of the column holds,
    the chart has a bar or a wedge for it. *)
Definition keeps_every_value (xs : list cell) (a : Artist) : Prop :=
  ∀ c, c ∈ xs → c ∈ shown_values a.

(** "each plotted value equals the sum of y grouped by that distinct x
    value" *)
Definition plots_the_sums (keys : list cell) (vals : list Z) (a : Artist) : Prop :=
  ∀ k t, (k, t) ∈ wedges a → t = Z2Qc (group_total_int k keys vals).

(** The range of an int64. *)
Definition in_int64 (z : Z) : Prop :=
  (-9223372036854775808 ≤ z < 9223372036854775808)%Z.

(** The keys of a persisted record that a client can compare: the
    logical fields of [ChartData]. *)
Definition logical_fields : list string :=
  ["id"; "filename"; "data"; "config"; "chart_image"; "timestamp"].

(** *** Footprints

    [Respects R m]: whatever [m] does, and however it ends, the state it
    leaves is related by [R] to the state it started in. *)
Class Respects (R : relation World) {A} (m : M A) : Prop :=
  respects : ∀ w, R w (m w).2.

(** The database is untouched. *)
Definition same_db (w w' : World) : Prop :=
  charts w' = charts w ∧ next_oid w' = next_oid w.

(** An open current figure stays open, and the figures under it are
    untouched. *)
Definition same_stack (w w' : World) : Prop :=
  match figures w with
  | [] => True
  | _ :: rest => ∃ cur, figures w' = cur :: rest
  end.

(** Nothing but the figures changed. *)
Definition only_figures (w w' : World) : Prop :=
  w' = with_figures (figures w') w.

(** A change to a figure that removes nothing drawn on it. *)
Definition additive (f : Figure → Figure) : Prop :=
  ∀ fig, artists fig `prefix_of` artists (f fig).

(** The current figure kept what was drawn on it. *)
Definition keeps_artists (w w' : World) : Prop :=
  artists (gcf (figures w)) `prefix_of` artists (gcf (figures w')).

(** A computation that never raises. *)
Definition succeeds {A} (m : M A) : Prop :=
  ∀ w, ∃ a w', m w = (inr a, w').

(** "keeps every distinct x-value, and each count equals a direct
    recomputation": [shown] lists each value held by a cell of [xs] once,
    with its frequency, and nothing else. *)
Definition counted (xs : list cell) (shown : list (scalar * nat)) : Prop :=
  NoDup shown.*1 ∧
  ∀ k n, (k, n) ∈ shown ↔ Some k ∈ xs ∧ n = frequency k xs.

(** The sums of an integer column as a pie shows them: [shown] lists
    each key of a row once, with the total of the values on the rows it
    keys, wrapped around as an int64 addition leaves it, and nothing
    else. *)
Definition summed_int64 (keys : list cell) (vals : list Z)
    (shown : list (scalar * Qc)) : Prop :=
  NoDup shown.*1 ∧
  ∀ k t, (k, t) ∈ shown ↔
    contributions k (zip keys vals) ≠ [] ∧
    t = Z2Qc (wrap64 (group_total_int k keys vals)).

(** The test [y_column and y_column in df.columns]. *)
Definition usable_y (y_column : option string) (df : DataFrame) : bool :=
  if_y_column y_column df (λ _, true) false.

(** What the figure shows once a bar or a pie chart of the counts of
    column [x] was drawn on it: its last artist has a bar, or a wedge, for
    every cell of the column that holds a value and for nothing else; the
    bars, or the wedges, list each value once with the number of cells
    holding it. *)
Definition shows_counts (ct x : string) (df : DataFrame) (w' : World) : Prop :=
  ∃ (s : Series) (a : Artist) (shown : list (scalar * nat)),
    getitem df x = Some s ∧
    last (artists (gcf (figures w'))) = Some a ∧
    counted (values s) shown ∧
    (∀ c, c ∈ shown_values a ↔ c ∈ values s ∧ is_Some c) ∧
    (ct = "bar" → bars a = (λ kn, (Some kn.1, count_cell kn.2)) <$> shown) ∧
    (ct = "pie" → wedges a = (λ kn, (kn.1, Z2Qc (Z.of_nat kn.2))) <$> shown).

(** What the figure shows once a pie of the sums of the integers [zs]
    by the values of column [x] was drawn on it: the wedges of its last
    artist are the int64 sums, each of which is the sum itself when that is
    in the range of an int64. *)
Definition shows_sums (x : string) (zs : list Z) (df : DataFrame) (w' : World) : Prop :=
  ∃ (s : Series) (a : Artist),
    getitem df x = Some s ∧
    last (artists (gcf (figures w'))) = Some a ∧
    summed_int64 (values s) zs (wedges a) ∧
    ∀ k t, (k, t) ∈ wedges a → in_int64 (group_total_int k (values s) zs) →
           t = Z2Qc (group_total_int k (values s) zs).

(** A chart as the database keeps it: its time is cut to the
    millisecond. *)
Definition chart_as_stored (c : ChartData) : ChartData :=
  {| id := id c; filename := filename c; data := data c; config := config c;
     chart_image := chart_image c; timestamp := bson_datetime (timestamp c) |}.

(** The document [generate_chart] stores for a chart: its dictionary as
    encoded, under the [ObjectId] the driver gave it. *)
Definition chart_document (oid : nat) (c : ChartData) : Document :=
  <["_id" := PyObjectId oid]> (ChartData_dict (chart_as_stored c)).

(** "save followed immediately by getById(id) returns a record equal to
    the saved one in all logical fields": once the dictionary of [c] is
    inserted, [get_chart] on its id returns a record that holds, under every
    logical field, what the dictionary of [c] holds. *)
Definition reads_back (c : ChartData) (w : World) : Prop :=
  let saved := (insert_one (ChartData_dict c) w).2 in
  ∃ doc, get_chart (id c) saved = (inr doc, saved) ∧
         ∀ key, key ∈ logical_fields → doc !! key = ChartData_dict c !! key.

(** The canvas a configuration asks for is one Agg accepts: fewer than
    2^16 pixels each way. *)
Definition fits (config : ConfigDict) : Prop :=
  (Z.pos (default 800%positive (cfg_width config)) < 65536)%Z ∧
  (Z.pos (default 600%positive (cfg_height config)) < 65536)%Z.

(** The state [generate_chart] leaves when it succeeds: the figure it
    opened is gone, two draws were made from the identifier and time
    sources, and one document was appended. *)
Definition after_success (w : World) (stored : Document) : World :=
  {| figures := figures w; colormaps := colormaps w;
     charts := charts w ++ [stored];
     next_oid := S (next_oid w); uuid4 := uuid4 w; utcnow := utcnow w;
     reads := S (S (reads w)) |}.

(** *** Vocabulary of the further properties *)

(** The total of the integers [vals] over the rows that have a key. *)
Definition keyed_total_int (keys : list cell) (vals : list Z) : Z :=
  foldr Z.add 0%Z (filter (λ r : cell * Z, is_Some r.1) (zip keys vals)).*2.

(** A correlation coefficient lies between -1 and 1, unless it is NaN. *)
Definition in_unit_range (v : fval) : Prop :=
  match v with
  | NaN => True
  | Val r => (-1 <= r <= 1)%R
  end.

(** What [generate_chart] reads from a request before it draws: the
    frame its data decode to, the configuration, and the two keys of the
    configuration it requires. *)
Definition payload (req : ChartRequest) : option (DataFrame * ConfigDict * string * string) :=
  match req_data req, req_config req with
  | Some (Table df), Some config =>
      match cfg_chart_type config, cfg_x_column config with
      | Some ct, Some xc => Some (df, config, ct, xc)
      | _, _ => None
      end
  | _, _ => None
  end.

(** The figure [generate_chart] opens for a configuration, and the state
    once it is open. *)
Definition canvas (config : ConfigDict) : Figure :=
  blank (hundredth (default 800%positive (cfg_width config)),
         hundredth (default 600%positive (cfg_height config))).

Definition opened (config : ConfigDict) (w : World) : World :=
  with_figures (canvas config :: figures w) w.

(** The state once the title is set on a figure that no branch has drawn
    on, and what matplotlib is then asked for: [plt.tight_layout()] and
    [plt.savefig(..)]. *)
Definition titled (config : ConfigDict) (w : World) : World :=
  with_figures (set_title (default "Chart" (cfg_title config)) (canvas config) :: figures w) w.

Definition drawing : M Image := plt_tight_layout ≫= λ _, plt_savefig 100.

(** What the handler of [generate_chart] raises for a cause. *)
Definition error_500 (cause : exn) : exn :=
  HTTPException 500 (Formatted "Error generating chart: " cause).

(** The texts the heatmap branch overlays on a matrix: one per cell, row
    by row, at column [j] and row [i] for the entry [i, j]. *)
Definition cell_texts (m : CorrMatrix) : list Artist :=
  let n := length (labels m) in
  flat_map (λ i, (λ j, text j i (iloc m i j) "center" "center" (text_color (iloc m i j)))
                   <$> seq 0 n)
           (seq 0 n).

(** The document [create_status_check] stores for a status check: its
    dictionary under the [ObjectId] the driver gave it. *)
Definition status_document (oid : nat) (c : StatusCheck) : Document :=
  <["_id" := PyObjectId oid]> (StatusCheck_dict c).

(** A status check as the database keeps it: its time is cut to the
    millisecond. *)
Definition as_stored (c : StatusCheck) : StatusCheck :=
  {| status_id := status_id c; client_name := client_name c;
     status_timestamp := bson_datetime (status_timestamp c) |}.

(** A collection of status checks that holds documents of the kind that
    [create_status_check] stores, and nothing else. *)
Definition written_by_service (docs : list Document) : Prop :=
  Forall (λ d, ∃ oid c, d = status_document oid c) docs.

End Spec.

(** ** Sample data *)

Module Sample.
Import Pandas Matplotlib Py Server.

(** The parse of
<<
Department,Salary,Age,Remote
Eng,100,31.5,True
Ops,80,28.0,False
Eng,120,45.0,True
>> *)
Definition staff : DataFrame :=
  [("Department", Object [Some (OStr "Eng"); Some (OStr "Ops"); Some (OStr "Eng")]);
   ("Salary", Int64 [100; 80; 120]%Z);
   ("Age", Float64 [Some (Q2Qc (63 # 2)); Some (Z2Qc 28); Some (Z2Qc 45)]);
   ("Remote", Bool [true; false; true])].

(** A freshly started process with an empty collection. *)
Definition idle : World :=
  {| figures := []; colormaps := ["viridis"; "plasma"; "Blues"]; charts := [];
     next_oid := 0;
     uuid4 := λ n, nth n ["6f1c2d5e"; "0b7a9e41"; "c3d4e5f6"] "ffffffff";
     utcnow := λ n, nth n [1700000000; 1700000001; 1700000002]%Z 1700000003%Z;
     reads := 0 |}.

Definition chart_config (chart_type x : string) (y : option string) : ConfigDict :=
  {| cfg_chart_type := Some chart_type; cfg_x_column := Some x; cfg_y_column := y;
     cfg_color_scheme := None; cfg_title := None; cfg_width := None;
     cfg_height := None |}.

(** A request for a chart of a frame uploaded as [staff.csv]. *)
Definition chart_of (df : DataFrame) (chart_type x : string) (y : option string)
    : ChartRequest :=
  {| req_filename := Some "staff.csv"; req_data := Some (Table df);
     req_config := Some (chart_config chart_type x y) |}.

(** [staff] without its last two columns: one numeric column. *)
Definition roster : DataFrame := take 2 staff.

(** A frame with a column that is the same on every row. *)
Definition offices : DataFrame :=
  [("Floor", Int64 [3; 3; 3]%Z); ("Salary", Int64 [100; 80; 120]%Z)].

(** A stored chart document, and a collection of 1001 of them, with the
    ids 0 to 1000. *)
Definition stored_chart (n : nat) : Document :=
  <["_id" := PyObjectId n]> (<["id" := PyStr (pretty n)]> ∅).

Definition crowded : World :=
  {| figures := []; colormaps := colormaps idle;
     charts := stored_chart <$> seq 0 1001;
     next_oid := 1001; uuid4 := uuid4 idle; utcnow := utcnow idle; reads := 0 |}.

(** A process whose clock shows microseconds. *)
Definition midday : World :=
  {| figures := []; colormaps := colormaps idle; charts := []; next_oid := 0;
     uuid4 := uuid4 idle;
     utcnow := λ n, nth n [1700000000123456; 1700000000654321]%Z 1700000001000000%Z;
     reads := 0 |}.

(** The parse of a survey in which one answer names no department.
<<
Department,Salary
Eng,100
NA,80
Eng,120
>> *)
Definition survey : DataFrame :=
  [("Department", Object [Some (OStr "Eng"); None; Some (OStr "Eng")]);
   ("Salary", Int64 [100; 80; 120]%Z)].

(** The parse of three deposits of the largest int64.
<<
Account,Amount
Gold,9223372036854775807
Gold,9223372036854775807
Gold,9223372036854775807
>> *)
Definition vault : DataFrame :=
  [("Account", Object [Some (OStr "Gold"); Some (OStr "Gold"); Some (OStr "Gold")]);
   ("Amount", Int64 [9223372036854775807; 9223372036854775807; 9223372036854775807]%Z)].

(** A configuration with a chart type that has no branch, and the same
    on a canvas 65536 pixels wide. *)
Definition radar : ConfigDict := chart_config "radar" "Department" None.

Definition poster : ConfigDict :=
  {| cfg_chart_type := Some "radar"; cfg_x_column := Some "Department";
     cfg_y_column := None; cfg_color_scheme := None; cfg_title := None;
     cfg_width := Some 65536%positive; cfg_height := None |}.

(** A configuration that asks for a colour scheme matplotlib does not
    know. *)
Definition garish : ConfigDict :=
  {| cfg_chart_type := Some "bar"; cfg_x_column := Some "Department";
     cfg_y_column := Some "Salary"; cfg_color_scheme := Some "neon";
     cfg_title := None; cfg_width := None; cfg_height := None |}.

(** A service that has answered one status check. *)
Definition probed : Service :=
  {| process := idle;
     status_checks :=
       [<["_id" := PyObjectId 7]>
          (StatusCheck_dict {| status_id := "a1b2c3d4"; client_name := "monitor";
                               status_timestamp := 1699999999000 |})] |}.

(** The same with a document that some other program wrote, which has no
    [client_name]. *)
Definition tampered : Service :=
  {| process := idle;
     status_checks := status_checks probed ++ [{["id" := PyStr "e5f6a7b8"]}] |}.


(** The parse of a ledger in which one account is overdrawn.
<<
Account,Amount
Rent,-50
Sales,20
Rent,10
>> *)
Definition ledger : DataFrame :=
  [("Account", Object [Some (OStr "Rent"); Some (OStr "Sales"); Some (OStr "Rent")]);
   ("Amount", Int64 [-50; 20; 10]%Z)].

End Sample.

(** * Properties *)

Import Pandas Matplotlib Py Server Spec.

(** ** Sorting keeps the entries *)

Section sorting_facts.
Context {A : Type} (before : A → A → bool).

Lemma insert_sorted_perm (x : A) (l : list A) :
  insert_sorted before x l ≡ₚ x :: l.
Proof.
  induction l as [|y l IH]; simpl; [done|].
  destruct (before x y); [done|].
  rewrite IH. apply Permutation_swap.
Qed.

Lemma isort_perm (l : list A) : isort before l ≡ₚ l.
Proof.
  induction l as [|x l IH]; simpl; [done|].
  rewrite insert_sorted_perm. by rewrite IH.
Qed.

Lemma elem_of_isort (x : A) (l : list A) : x ∈ isort before l ↔ x ∈ l.
Proof. by rewrite isort_perm. Qed.

End sorting_facts.

(** ** One-pass grouping against direct recomputation *)

Section grouping_facts.
Context {V : Type} (add : V → V → V).

Lemma assoc_upsert (k k' : scalar) (v : V) (acc : list (scalar * V)) :
  assoc k (upsert add k' v acc) =
    if decide (k' = k)
    then Some (match assoc k acc with Some t => add t v | None => v end)
    else assoc k acc.
Proof.
  induction acc as [|[k0 t] acc IH]; simpl.
  - by repeat case_decide.
  - destruct (decide (k0 = k')) as [->|Hne]; simpl.
    + by repeat case_decide.
    + rewrite IH. repeat case_decide; congruence.
Qed.

Lemma upsert_keys (k : scalar) (v : V) (acc : list (scalar * V)) :
  (upsert add k v acc).*1 = if decide (k ∈ acc.*1) then acc.*1 else acc.*1 ++ [k].
Proof.
  induction acc as [|[k0 t] acc IH]; csimpl.
  - destruct (decide (k ∈ [])) as [H|H]; [by apply elem_of_nil in H|done].
  - destruct (decide (k0 = k)) as [->|Hne]; csimpl.
    + rewrite decide_True; [done|]. apply elem_of_cons; by left.
    + rewrite IH. destruct (decide (k ∈ acc.*1)) as [Hin|Hnin].
      * rewrite decide_True; [done|]. apply elem_of_cons; by right.
      * rewrite decide_False; [done|].
        intros [?|?]%elem_of_cons; congruence.
Qed.

Lemma upsert_NoDup (k : scalar) (v : V) (acc : list (scalar * V)) :
  NoDup acc.*1 → NoDup (upsert add k v acc).*1.
Proof.
  intros Hnd. rewrite upsert_keys. case_decide; [done|].
  apply NoDup_app. split_and!; [done| |apply NoDup_singleton].
  intros x Hx Hk%list_elem_of_singleton. by subst.
Qed.

Lemma assoc_foldl_step (k : scalar) (rows : list (cell * V)) (acc : list (scalar * V)) :
  assoc k (foldl (step add) acc rows) =
    match assoc k acc, contributions k rows with
    | o, [] => o
    | Some t, vs => Some (foldl add t vs)
    | None, v :: vs => Some (foldl add v vs)
    end.
Proof.
  revert acc. induction rows as [|[c v] rows IH]; intros acc; simpl.
  - by destruct (assoc k acc).
  - rewrite IH. unfold contributions. rewrite filter_cons. simpl.
    destruct c as [k'|]; unfold step; simpl.
    + rewrite assoc_upsert.
      destruct (decide (k' = k)) as [->|Hne].
      * rewrite decide_True by done. csimpl.
        by destruct (assoc k acc), ((filter _ rows).*2).
      * rewrite decide_False by congruence. done.
    + done.
Qed.

Lemma foldl_step_NoDup (rows : list (cell * V)) (acc : list (scalar * V)) :
  NoDup acc.*1 → NoDup (foldl (step add) acc rows).*1.
Proof.
  revert acc. induction rows as [|[c v] rows IH]; intros acc Hnd; simpl; [done|].
  apply IH. unfold step; simpl. destruct c; [by apply upsert_NoDup|done].
Qed.

Lemma aggregate_NoDup (rows : list (cell * V)) : NoDup (aggregate add rows).*1.
Proof. apply (foldl_step_NoDup rows []). constructor. Qed.

Lemma assoc_aggregate (k : scalar) (rows : list (cell * V)) :
  assoc k (aggregate add rows) =
    match contributions k rows with
    | [] => None
    | v :: vs => Some (foldl add v vs)
    end.
Proof.
  unfold aggregate. rewrite (assoc_foldl_step k rows []). simpl.
  by destruct (contributions k rows).
Qed.

End grouping_facts.

Lemma assoc_elem_of {V : Type} (k : scalar) (t : V) (acc : list (scalar * V)) :
  NoDup acc.*1 → (k, t) ∈ acc ↔ assoc k acc = Some t.
Proof.
  induction acc as [|[k0 t0] acc IH]; simpl; intros Hnd.
  - split; [by intros ?%elem_of_nil|done].
  - apply NoDup_cons in Hnd as [Hk0 Hnd].
    rewrite elem_of_cons, (IH Hnd).
    destruct (decide (k0 = k)) as [->|Hne].
    + split; [intros [[= ->]|Hin]; [done|]|intros [= ->]; by left].
      exfalso. apply Hk0. apply (IH Hnd) in Hin.
      apply (list_elem_of_fmap_2 fst) in Hin. done.
    + split; [intros [[= -> ->]|?]; [done|done]|by right].
Qed.

(** ** [value_counts] counts every value once *)

Lemma contributions_ones (k : scalar) (xs : list cell) :
  contributions k ((λ c : cell, (c, 1)) <$> xs) = replicate (frequency k xs) 1.
Proof.
  unfold contributions, frequency.
  induction xs as [|c xs IH]; csimpl; [done|].
  rewrite !filter_cons. simpl.
  destruct (decide (c = Some k)); csimpl; by rewrite IH.
Qed.

Lemma foldl_add_ones (n m : nat) : foldl Nat.add n (replicate m 1) = n + m.
Proof.
  revert n. induction m as [|m IH]; intros n; simpl; [lia|].
  rewrite IH. lia.
Qed.

Lemma frequency_pos (k : scalar) (xs : list cell) :
  0 < frequency k xs ↔ Some k ∈ xs.
Proof.
  unfold frequency. induction xs as [|c xs IH]; simpl.
  - split; [lia|by intros ?%elem_of_nil].
  - rewrite filter_cons, elem_of_cons.
    destruct (decide (c = Some k)) as [->|Hne]; simpl.
    + split; [by left|lia].
    + rewrite IH. split; [by right|]. intros [?|?]; [congruence|done].
Qed.

Lemma tally_spec (k : scalar) (n : nat) (xs : list cell) :
  (k, n) ∈ tally xs ↔ Some k ∈ xs ∧ n = frequency k xs.
Proof.
  unfold tally. rewrite assoc_elem_of by apply aggregate_NoDup.
  rewrite assoc_aggregate, contributions_ones, <- frequency_pos.
  destruct (frequency k xs) as [|m]; simpl.
  - split; [done|lia].
  - rewrite foldl_add_ones. split; [intros [= <-]; lia|intros [_ ->]; f_equal; lia].
Qed.

Lemma value_counts_spec (k : scalar) (n : nat) (s : Series) :
  (k, n) ∈ value_counts s ↔ Some k ∈ values s ∧ n = frequency k (values s).
Proof. unfold value_counts. by rewrite elem_of_isort, tally_spec. Qed.

Lemma value_counts_NoDup (s : Series) : NoDup (value_counts s).*1.
Proof.
  unfold value_counts. rewrite isort_perm. apply aggregate_NoDup.
Qed.

(** ** The correlation matrix *)

Lemma numbers_of_number (c : string * Series) :
  selects number (dtype_of c.2) = true → is_Some (numbers c.2).
Proof. destruct c as [n []]; simpl; by eauto. Qed.

Lemma omap_numbers_selected (df : DataFrame) :
  (omap (λ c : string * Series, pair c.1 <$> numbers c.2) (select_dtypes [number] df)).*1
    = columns (select_dtypes [number] df).
Proof.
  unfold select_dtypes, columns.
  induction df as [|c df IH]; [done|].
  cbn [filter list_filter].
  destruct (decide _) as [Hsel|]; [|done].
  simpl in Hsel. rewrite orb_false_r in Hsel.
  destruct (numbers_of_number c Hsel) as [vs Hvs].
  simpl. rewrite Hvs. simpl. f_equal. exact IH.
Qed.

Lemma corr_labels (df : DataFrame) :
  labels (corr (select_dtypes [number] df)) = columns (select_dtypes [number] df).
Proof. unfold corr; simpl. apply omap_numbers_selected. Qed.

Lemma corr_rows (df : DataFrame) :
  length (entries (corr df)) = length (labels (corr df)).
Proof. unfold corr; simpl. by rewrite !length_fmap. Qed.

Lemma corr_row_length (df : DataFrame) (row : list fval) :
  row ∈ entries (corr df) → length row = length (labels (corr df)).
Proof.
  unfold corr; simpl. intros (c & -> & _)%list_elem_of_fmap.
  by rewrite !length_fmap.
Qed.

Lemma corr_diagonal (df : DataFrame) (i : nat) (name : string) (vs : list (option Qc)) :
  omap (λ c : string * Series, pair c.1 <$> numbers c.2) df !! i = Some (name, vs) →
  iloc (corr df) i i = pearson vs vs.
Proof.
  intros Hi. unfold iloc, corr; simpl.
  rewrite list_lookup_fmap, Hi. simpl.
  by rewrite list_lookup_fmap, Hi.
Qed.

Lemma square_nonneg (x : Qc) : (0 ≤ x * x)%Qc.
Proof.
  destruct (Qclt_le_dec x 0) as [Hneg|Hpos].
  - replace (x * x)%Qc with ((- x) * (- x))%Qc by ring.
    assert (0 ≤ - x)%Qc.
    { apply Qclt_le_weak in Hneg. apply Qcopp_le_compat in Hneg.
      by replace (- 0)%Qc with 0%Qc in Hneg by ring. }
    by apply Qcmult_nonneg_nonneg.
  - by apply Qcmult_nonneg_nonneg.
Qed.

Lemma total_nonneg (l : list Qc) : Forall (λ x, 0 ≤ x)%Qc l → (0 ≤ total l)%Qc.
Proof.
  induction 1 as [|x l Hx _ IH]; simpl; [done|].
  by apply Qcplus_nonneg_nonneg.
Qed.

Lemma codeviation_same (ps : list (Qc * Qc)) (f g : Qc * Qc → Qc) :
  Forall (λ p, f p = g p) ps →
  codeviation ps f f = codeviation ps f g ∧ codeviation ps f f = codeviation ps g g.
Proof.
  intros Hfg. unfold codeviation.
  assert (Heq : f <$> ps = g <$> ps).
  { induction Hfg as [|p ps Hp _ IH]; csimpl; [done|]. by rewrite Hp, IH. }
  rewrite <- !Heq.
  split; f_equal; apply list_eq_Forall2, Forall2_fmap, Forall_Forall2_diag;
    (eapply Forall_impl; [exact Hfg|]); simpl; intros p ->; done.
Qed.

Lemma complete_pairs_diag (xs : list (option Qc)) :
  Forall (λ p, p.1 = p.2) (complete_pairs xs xs).
Proof.
  induction xs as [|[x|] xs IH]; simpl; [constructor| |done].
  by constructor.
Qed.

Lemma spread_nonneg (xs : list (option Qc)) : (0 ≤ spread xs)%Qc.
Proof.
  unfold spread, codeviation. apply total_nonneg.
  apply Forall_fmap, Forall_true. intros p; simpl. apply square_nonneg.
Qed.

Lemma complete_pairs_self (xs : list (option Qc)) :
  complete_pairs xs xs = (λ x, (x, x)) <$> omap (λ o, o) xs.
Proof.
  induction xs as [|[x|] xs IH]; simpl; [done| |done].
  by rewrite IH.
Qed.

Lemma total_zero (l : list Qc) :
  Forall (λ x, 0 ≤ x)%Qc l → total l = 0%Qc → Forall (λ x, x = 0%Qc) l.
Proof.
  induction 1 as [|x l Hx Hl IH]; simpl; intros Hsum; [constructor|].
  pose proof (total_nonneg l Hl) as Ht.
  assert (x = 0%Qc) as ->.
  { apply Qcle_antisym; [|done].
    assert (x = - total l)%Qc as ->
      by (rewrite <- (Qcplus_0_l (- total l)), <- Hsum; ring).
    apply Qcopp_le_compat in Ht. by replace (- 0)%Qc with 0%Qc in Ht by ring. }
  constructor; [done|]. apply IH. by rewrite Qcplus_0_l in Hsum.
Qed.

Lemma total_constant (c : Qc) (l : list Qc) :
  Forall (λ x, x = c) l → total l = (Z2Qc (Z.of_nat (length l)) * c)%Qc.
Proof.
  induction 1 as [|x l -> _ IH].
  - change (0 = Z2Qc 0 * c)%Qc. rewrite Z2Qc_inj_0. ring.
  - change (c + total l = Z2Qc (Z.of_nat (S (length l))) * c)%Qc.
    rewrite IH, Nat2Z.inj_succ, <- Z.add_1_r, Z2Qc_inj_add, Z2Qc_inj_1. ring.
Qed.

Lemma mean_constant (c : Qc) (l : list Qc) :
  l ≠ [] → Forall (λ x, x = c) l → mean l = c.
Proof.
  intros Hne Hl. unfold mean. rewrite (total_constant c l Hl).
  rewrite (Qcmult_comm _ c). apply Qcdiv_mult_l.
  rewrite <- Z2Qc_inj_0. intros Hz%Z2Qc_inj. destruct l; [done|simpl in Hz; lia].
Qed.

(** A column has no spread exactly when it is constant. *)
Lemma spread_zero_iff (xs : list (option Qc)) : spread xs = 0%Qc ↔ constant xs.
Proof.
  unfold spread, codeviation, constant. rewrite complete_pairs_self.
  rewrite <- !list_fmap_compose.
  set (vs := omap (λ o, o) xs).
  assert (Hvs : ∀ x, Some x ∈ xs ↔ x ∈ vs).
  { intros x. unfold vs. rewrite list_elem_of_omap. split; [eauto|].
    by intros (o & Ho & ->). }
  change (fst ∘ (λ x : Qc, (x, x))) with (λ x : Qc, x).
  rewrite list_fmap_id. split.
  - intros Hsum. exists (mean vs). intros x Hx%Hvs.
    apply total_zero in Hsum.
    + rewrite Forall_fmap, Forall_forall in Hsum. specialize (Hsum x Hx).
      simpl in Hsum. apply Qcmult_integral in Hsum.
      assert (x - mean vs = 0)%Qc as Hd by (by destruct Hsum).
      replace x with ((x - mean vs) + mean vs)%Qc by ring. rewrite Hd. ring.
    + apply Forall_fmap, Forall_true. intros y. simpl. apply square_nonneg.
  - intros [c Hc]. destruct (decide (vs = [])) as [->|Hne]; [done|].
    assert (Hall : Forall (λ x, x = c) vs).
    { apply Forall_forall. intros x Hx. by apply Hc, Hvs. }
    rewrite (mean_constant c vs Hne Hall).
    clearbody vs. clear Hne Hvs Hc.
    induction Hall as [|x l -> _ IH]; csimpl; [done|].
    rewrite IH. ring.
Qed.

(** A column correlates perfectly with itself when it has any spread, and
    not at all (NaN) when it has none. *)
Lemma pearson_self (xs : list (option Qc)) :
  pearson xs xs = if decide (spread xs = 0%Qc) then NaN else Val 1.
Proof.
  unfold pearson.
  destruct (codeviation_same _ fst snd (complete_pairs_diag xs)) as [Hxy Hyy].
  change (codeviation (complete_pairs xs xs) fst fst) with (spread xs) in *.
  rewrite <- Hxy, <- Hyy. clear Hxy Hyy.
  destruct (Nat.ltb_spec (length (complete_pairs xs xs)) 1) as [Hlen|_].
  - assert (spread xs = 0%Qc) as ->; [|by rewrite decide_True].
    unfold spread. destruct (complete_pairs xs xs); [done|simpl in Hlen; lia].
  - generalize (spread_nonneg xs). generalize (spread xs). intros s Hs.
    destruct (decide (s = 0%Qc)) as [->|Hnz].
    + rewrite decide_True; [done|]. ring.
    + rewrite decide_False.
      2:{ intros [?|?]%Qcmult_integral; done. }
      f_equal.
      assert (Hpos : (0 < Q2R s)%R).
      { assert (0 < s)%Qc as Hlt.
        { apply Qcle_lt_or_eq in Hs as [?|Heq]; [done|by symmetry in Heq]. }
        apply Qreals.Qlt_Rlt in Hlt.
        change (Q2R (Q2Qc 0)) with (Q2R 0) in Hlt.
        by rewrite RMicromega.Q2R_0 in Hlt. }
      replace (Q2R (s * s)%Qc) with (Q2R s * Q2R s)%R.
      2:{ rewrite <- Qreals.Q2R_mult. apply Qreals.Qeq_eqR. simpl.
          symmetry. apply Qred_correct. }
      rewrite sqrt_square by lra. field. lra.
Qed.

(** ** Running a handler *)

Lemma bind_run {A B} (m : M A) (k : A → M B) (w : World) :
  (m ≫= k) w =
    match m w with
    | (inr a, w') => k a w'
    | (inl e, w') => (inl e, w')
    end.
Proof. reflexivity. Qed.

Lemma bind_inr_inv {A B} (m : M A) (k : A → M B) (w w' : World) (b : B) :
  (m ≫= k) w = (inr b, w') →
  ∃ a w1, m w = (inr a, w1) ∧ k a w1 = (inr b, w').
Proof.
  rewrite bind_run. destruct (m w) as [[e|a] w1]; [done|]. eauto.
Qed.

Lemma bind_inl_inv {A B} (m : M A) (k : A → M B) (w w' : World) (e : exn) :
  (m ≫= k) w = (inl e, w') →
  m w = (inl e, w') ∨ ∃ a w1, m w = (inr a, w1) ∧ k a w1 = (inl e, w').
Proof.
  rewrite bind_run. destruct (m w) as [[e'|a] w1]; [intros [= -> ->]; by left|].
  right. eauto.
Qed.

Lemma try_except_inv {A} (body : M A) (handler : exn → M A) (w w' : World) (r : exn + A) :
  try_except body handler w = (r, w') →
  (∃ a, body w = (inr a, w') ∧ r = inr a) ∨
  (∃ e w1, body w = (inl e, w1) ∧ handler e w1 = (r, w')).
Proof.
  unfold try_except. destruct (body w) as [[e|a] w1].
  - right. eauto.
  - intros [= <- <-]. left. eauto.
Qed.

(** ** Footprints compose *)

Section respects.
Context (R : relation World) `{!PreOrder R}.

Lemma respects_run {A} (m : M A) `{!Respects R m} (w w' : World) (r : exn + A) :
  m w = (r, w') → R w w'.
Proof. intros H. pose proof (respects (m:=m) w) as Hm. by rewrite H in Hm. Qed.

#[export] Instance respects_ret {A} (a : A) : Respects R (mret a).
Proof. intros w. simpl. reflexivity. Qed.

#[export] Instance respects_raise {A} (e : exn) : Respects R (raise (A:=A) e).
Proof. intros w. simpl. reflexivity. Qed.

#[export] Instance respects_bind {A B} (m : M A) (k : A → M B) :
  Respects R m → (∀ a, Respects R (k a)) → Respects R (m ≫= k).
Proof.
  intros Hm Hk w. rewrite bind_run.
  pose proof (Hm w) as H1. destruct (m w) as [[e|a] w1]; simpl in *; [done|].
  etrans; [exact H1|apply Hk].
Qed.

#[export] Instance respects_try {A} (body : M A) (handler : exn → M A) :
  Respects R body → (∀ e, Respects R (handler e)) → Respects R (try_except body handler).
Proof.
  intros Hb Hh w. unfold try_except.
  pose proof (Hb w) as H1. destruct (body w) as [[e|a] w1]; simpl in *; [|done].
  etrans; [exact H1|apply Hh].
Qed.

#[export] Instance respects_for_each {A} (xs : list A) (body : A → M unit) :
  (∀ x, Respects R (body x)) → Respects R (for_each xs body).
Proof. intros Hb. induction xs as [|x xs IH]; simpl; apply _. Qed.

#[export] Instance respects_subscript {A} (key : string) (entry : option A) :
  Respects R (subscript key entry).
Proof. destruct entry; apply _. Qed.

#[export] Instance respects_read_csv (data : Payload) : Respects R (read_csv data).
Proof. destruct data; apply _. Qed.

#[export] Instance respects_df_getitem (df : DataFrame) (name : string) :
  Respects R (df_getitem df name).
Proof. unfold df_getitem. destruct (getitem df name); apply _. Qed.

#[export] Instance respects_get_cmap (name : string) : Respects R (get_cmap name).
Proof. intros w. unfold get_cmap. case_bool_decide; simpl; reflexivity. Qed.

#[export] Instance respects_ChartConfig_init (config : ConfigDict) :
  Respects R (ChartConfig_init config).
Proof.
  unfold ChartConfig_init.
  destruct (cfg_chart_type config), (cfg_x_column config); apply _.
Qed.

#[export] Instance respects_if_y_column {A} (y : option string) (df : DataFrame)
    (then_ : string → M A) (else_ : M A) :
  (∀ s, Respects R (then_ s)) → Respects R else_ →
  Respects R (if_y_column y df then_ else_).
Proof.
  intros Ht He. unfold if_y_column. destruct y; [|done].
  destruct (_ && _); [apply Ht|done].
Qed.

End respects.

(** ** The footprint of drawing *)

(** Split a goal on a [bind] or on the [y_column] test without asking
    instance search for the parts. *)
Ltac respects_bind R :=
  notypeclasses refine (@respects_bind R _ _ _ _ _ _ _); [apply _| |intros].

Ltac respects_if_y R :=
  notypeclasses refine (@respects_if_y_column R _ _ _ _ _ _ _); [intros|].

Lemma additive_draw (a : Artist) : additive (draw a).
Proof. intros fig. simpl. by apply prefix_app_r. Qed.

Lemma additive_set_xlabel (s : string) : additive (set_xlabel s).
Proof. by intros fig. Qed.

Lemma additive_set_ylabel (s : string) : additive (set_ylabel s).
Proof. by intros fig. Qed.

Lemma additive_set_title (s : string) : additive (set_title s).
Proof. by intros fig. Qed.

Lemma additive_set_xticks (t : Ticks) : additive (set_xticks t).
Proof. by intros fig. Qed.

Lemma additive_set_yticks (t : Ticks) : additive (set_yticks t).
Proof. by intros fig. Qed.

Lemma additive_set_tight : additive set_tight.
Proof. by intros fig. Qed.

#[export] Hint Resolve additive_draw additive_set_xlabel additive_set_ylabel
  additive_set_title additive_set_xticks additive_set_yticks additive_set_tight : core.

Section drawing.
Context (R : relation World) `{!PreOrder R}.
Context (Hdraw : ∀ f, additive f → Respects R (on_current f)).

#[local] Instance respects_plt_bar x height color : Respects R (plt_bar x height color).
Proof. apply Hdraw; auto. Qed.

#[local] Instance respects_plt_plot x y color marker : Respects R (plt_plot x y color marker).
Proof. apply Hdraw; auto. Qed.

#[local] Instance respects_plt_scatter x y c alpha : Respects R (plt_scatter x y c alpha).
Proof. apply Hdraw; auto. Qed.

#[local] Instance respects_plt_pie x labels autopct colors :
  Respects R (plt_pie x labels autopct colors).
Proof. unfold plt_pie. repeat case_bool_decide; [apply _..|apply Hdraw; auto]. Qed.

#[local] Instance respects_plt_hist x bins color alpha : Respects R (plt_hist x bins color alpha).
Proof. apply Hdraw; auto. Qed.

#[local] Instance respects_plt_imshow X cmap aspect : Respects R (plt_imshow X cmap aspect).
Proof.
  unfold plt_imshow. respects_bind R; [apply _|].
  apply Hdraw; auto.
Qed.

#[local] Instance respects_plt_colorbar : Respects R plt_colorbar.
Proof. apply Hdraw; auto. Qed.

#[local] Instance respects_plt_text x y s ha va color : Respects R (plt_text x y s ha va color).
Proof. apply Hdraw; auto. Qed.

#[local] Instance respects_plt_xlabel s : Respects R (plt_xlabel s).
Proof. apply Hdraw; auto. Qed.

#[local] Instance respects_plt_ylabel s : Respects R (plt_ylabel s).
Proof. apply Hdraw; auto. Qed.

#[local] Instance respects_plt_title s : Respects R (plt_title s).
Proof. apply Hdraw; auto. Qed.

#[local] Instance respects_plt_xticks t : Respects R (plt_xticks t).
Proof. apply Hdraw; auto. Qed.

#[local] Instance respects_plt_yticks t : Respects R (plt_yticks t).
Proof. apply Hdraw; auto. Qed.

#[local] Instance respects_plt_tight_layout : Respects R plt_tight_layout.
Proof.
  intros w. unfold plt_tight_layout. destruct (too_large _ _).
  - apply (Hdraw (λ f, f)). by intros fig.
  - apply Hdraw; auto.
Qed.

#[local] Instance respects_plt_savefig dpi : Respects R (plt_savefig dpi).
Proof.
  intros w. unfold plt_savefig.
  destruct (too_large _ _); apply (Hdraw (λ f, f)); by intros fig.
Qed.

(** Whatever branch is taken, [render] only draws on the current
    figure. *)
Lemma respects_render chart_type x_column y_column color_scheme df :
  Respects R (render chart_type x_column y_column color_scheme df).
Proof.
  unfold render.
  repeat (case_decide; [try apply _|]); [| |apply _].
  - respects_bind R; [respects_if_y R; apply _|].
    respects_bind R; [apply _|]. case_match; apply _.
  - case_match; apply _.
Qed.

End drawing.

(** ** The four footprints *)

#[export] Instance same_db_preorder : PreOrder same_db.
Proof.
  split; [by intros w|]. intros w1 w2 w3 [H1 H2] [H3 H4].
  split; congruence.
Qed.

#[export] Instance same_stack_preorder : PreOrder same_stack.
Proof.
  split; unfold same_stack.
  - intros w. destruct (figures w); eauto.
  - intros w1 w2 w3 H1 H2. destruct (figures w1) as [|c rest]; [done|].
    destruct H1 as [cur Hcur]. by rewrite Hcur in H2.
Qed.

#[export] Instance only_figures_preorder : PreOrder only_figures.
Proof.
  split; [intros []; reflexivity|]. unfold only_figures.
  intros w1 w2 w3 H1 H2. rewrite H2, H1. reflexivity.
Qed.

#[export] Instance keeps_artists_preorder : PreOrder keeps_artists.
Proof.
  split; [intros w; unfold keeps_artists; reflexivity|].
  unfold keeps_artists. intros w1 w2 w3 H1 H2. by etrans.
Qed.

Lemma on_current_same_db (f : Figure → Figure) : additive f → Respects same_db (on_current f).
Proof. by intros _ w. Qed.

Lemma on_current_same_stack (f : Figure → Figure) : additive f → Respects same_stack (on_current f).
Proof. intros _ w. unfold same_stack. simpl. destruct (figures w); simpl; eauto. Qed.

Lemma on_current_only_figures (f : Figure → Figure) : additive f → Respects only_figures (on_current f).
Proof. by intros _ w. Qed.

Lemma on_current_keeps_artists (f : Figure → Figure) :
  additive f → Respects keeps_artists (on_current f).
Proof. intros Hf w. unfold keeps_artists. simpl. apply Hf. Qed.

#[export] Instance render_same_db ct x y cs df : Respects same_db (render ct x y cs df).
Proof. apply respects_render; [apply _|apply on_current_same_db]. Qed.

#[export] Instance render_same_stack ct x y cs df : Respects same_stack (render ct x y cs df).
Proof. apply respects_render; [apply _|apply on_current_same_stack]. Qed.

#[export] Instance render_only_figures ct x y cs df : Respects only_figures (render ct x y cs df).
Proof. apply respects_render; [apply _|apply on_current_only_figures]. Qed.

#[export] Instance render_keeps_artists ct x y cs df : Respects keeps_artists (render ct x y cs df).
Proof. apply respects_render; [apply _|apply on_current_keeps_artists]. Qed.

(** ** What the steps of [generate_chart] yield *)

Lemma subscript_inr {A} (key : string) (entry : option A) (a : A) (w w' : World) :
  subscript key entry w = (inr a, w') → entry = Some a ∧ w' = w.
Proof. destruct entry; simpl; [by intros [= -> ->]|done]. Qed.

Lemma subscript_inl {A} (key : string) (entry : option A) (e : exn) (w w' : World) :
  subscript key entry w = (inl e, w') → entry = None ∧ e = KeyError key ∧ w' = w.
Proof. destruct entry; simpl; [done|by intros [= <- <-]]. Qed.

Lemma read_csv_inr (data : Payload) (df : DataFrame) (w w' : World) :
  read_csv data w = (inr df, w') → data = Table df ∧ w' = w.
Proof. destruct data; simpl; [done|by intros [= -> ->]]. Qed.

Lemma ChartConfig_init_inr (config : ConfigDict) (c : ChartConfig) (w w' : World) :
  ChartConfig_init config w = (inr c, w') →
  w' = w ∧ ∃ ct xc, cfg_chart_type config = Some ct ∧ cfg_x_column config = Some xc ∧
    c = {| chart_type := ct; x_column := xc;
           y_column := cfg_y_column config;
           color_scheme := Some (default "viridis" (cfg_color_scheme config));
           title := Some (default "Chart" (cfg_title config));
           width := Some (default 800%positive (cfg_width config));
           height := Some (default 600%positive (cfg_height config)) |}.
Proof.
  unfold ChartConfig_init.
  destruct (cfg_chart_type config), (cfg_x_column config); simpl; try done.
  intros [= <- <-]. split; [done|]. eauto.
Qed.

Lemma ChartData_dict_no_oid (c : ChartData) : ChartData_dict c !! "_id" = None.
Proof. unfold ChartData_dict. by simplify_map_eq. Qed.

Lemma ChartConfig_init_pure (config : ConfigDict) (c : ChartConfig) (w0 w0' w : World) :
  ChartConfig_init config w0 = (inr c, w0') → ChartConfig_init config w = (inr c, w).
Proof.
  unfold ChartConfig_init.
  destruct (cfg_chart_type config), (cfg_x_column config); simpl; try done.
  by intros [= <- _].
Qed.

Lemma only_figures_fields (w w' : World) :
  only_figures w w' →
  colormaps w' = colormaps w ∧ charts w' = charts w ∧ next_oid w' = next_oid w ∧
  uuid4 w' = uuid4 w ∧ utcnow w' = utcnow w ∧ reads w' = reads w.
Proof. unfold only_figures. by intros ->. Qed.

Lemma plt_tight_layout_inr (w w' : World) :
  plt_tight_layout w = (inr (), w') →
  too_large default_dpi (gcf (figures w)) = false ∧
  w' = with_figures (update_current set_tight (figures w)) w.
Proof. unfold plt_tight_layout. destruct (too_large _ _); [done|]. by intros [= <-]. Qed.

Lemma plt_savefig_inr (dpi : Z) (image : Image) (w w' : World) :
  plt_savefig dpi w = (inr image, w') →
  too_large dpi (gcf (figures w)) = false ∧
  image = PNG dpi (gcf (figures w)) ∧
  w' = with_figures (update_current (λ f, f) (figures w)) w.
Proof. unfold plt_savefig. destruct (too_large _ _); [done|]. by intros [= <- <-]. Qed.

(** A configuration holds no date: encoding leaves it as it is. *)
Lemma bson_ChartConfig_dict (c : ChartConfig) :
  bson_value <$> ChartConfig_dict c = ChartConfig_dict c.
Proof.
  unfold ChartConfig_dict. rewrite !fmap_insert, fmap_empty.
  by destruct (y_column c), (color_scheme c), (title c), (width c), (height c).
Qed.

(** What the driver stores for the dictionary of a chart. *)
Lemma bson_chart_document (oid : nat) (c : ChartData) :
  bson_value <$> (<["_id" := PyObjectId oid]> (ChartData_dict c)) = chart_document oid c.
Proof.
  unfold chart_document, ChartData_dict, chart_as_stored.
  rewrite !fmap_insert, fmap_empty. cbn [bson_value id filename data config chart_image timestamp].
  rewrite bson_ChartConfig_dict. by destruct (chart_image c).
Qed.

Lemma insert_one_chart (c : ChartData) (w : World) :
  insert_one (ChartData_dict c) w
    = (inr (), {| figures := figures w; colormaps := colormaps w;
                  charts := charts w ++ [chart_document (next_oid w) c];
                  next_oid := S (next_oid w); uuid4 := uuid4 w; utcnow := utcnow w;
                  reads := reads w |}).
Proof.
  unfold insert_one. rewrite ChartData_dict_no_oid. by rewrite bson_chart_document.
Qed.

Lemma generate_chart_inr (req : ChartRequest) (w w' : World) (resp : ChartResponse) :
  generate_chart req w = (inr resp, w') →
  ∃ df config ct xc fn config' w1,
    req_data req = Some (Table df) ∧ req_config req = Some config ∧
    cfg_chart_type config = Some ct ∧ cfg_x_column config = Some xc ∧
    req_filename req = Some fn ∧
    ChartConfig_init config w = (inr config', w) ∧
    render ct xc (cfg_y_column config) (default "viridis" (cfg_color_scheme config)) df
      (with_figures
         (blank (hundredth (default 800%positive (cfg_width config)),
                 hundredth (default 600%positive (cfg_height config))) :: figures w) w)
      = (inr (), w1) ∧
    too_large 100 (gcf (figures w1)) = false ∧
    let image :=
      PNG 100 (set_tight (set_title (default "Chart" (cfg_title config)) (gcf (figures w1)))) in
    let chart_data :=
      {| id := uuid4 w (reads w); filename := fn; data := Table df; config := config';
         chart_image := Some image; timestamp := utcnow w (S (reads w)) |} in
    resp = {| resp_id := id chart_data; resp_chart_image := image;
              resp_message := "Chart generated successfully" |} ∧
    w' = after_success w (chart_document (next_oid w) chart_data).
Proof.
  unfold generate_chart. intros H.
  apply try_except_inv in H as [(resp' & H & [= <-])|(e & w1 & _ & H)]; [|done].
  apply bind_inr_inv in H as (data & w1 & [Hdata ->]%subscript_inr & H).
  apply bind_inr_inv in H as (df & w1 & [-> ->]%read_csv_inr & H).
  apply bind_inr_inv in H as (config & w1 & [Hconfig ->]%subscript_inr & H).
  apply bind_inr_inv in H as (ct & w1 & [Hct ->]%subscript_inr & H).
  apply bind_inr_inv in H as (xc & w1 & [Hxc ->]%subscript_inr & H).
  cbv zeta in H.
  apply bind_inr_inv in H as ([] & w0 & [= <-] & H).
  apply bind_inr_inv in H as ([] & w1 & Hrender & H).
  pose proof (respects_run only_figures _ _ _ _ Hrender) as Hw1.
  pose proof (respects_run same_stack _ _ _ _ Hrender) as Htail.
  unfold same_stack in Htail. simpl in Htail. destruct Htail as [cur Htail].
  apply bind_inr_inv in H as ([] & w2 & [= <-] & H).
  apply bind_inr_inv in H as ([] & w3 & [Hfit ->]%plt_tight_layout_inr & H).
  apply bind_inr_inv in H as (image & w4 & (_ & -> & ->)%plt_savefig_inr & H).
  apply bind_inr_inv in H as ([] & w5 & [= <-] & H).
  apply bind_inr_inv in H as (fn & w6 & [Hfn ->]%subscript_inr & H).
  apply bind_inr_inv in H as (data' & w6 & [Hdata' ->]%subscript_inr & H).
  apply bind_inr_inv in H as (config' & w6 & Hinit & H).
  apply ChartConfig_init_inr in Hinit as Hinit'. destruct Hinit' as [-> _].
  apply bind_inr_inv in H as (chart_data & w7 & [= <- <-] & H).
  apply bind_inr_inv in H as ([] & w8 & Hins & [= <- <-]).
  rewrite insert_one_chart in Hins. injection Hins as <-.
  rewrite Hdata in Hdata'. injection Hdata' as <-.
  exists df, config, ct, xc, fn, config', w1.
  apply only_figures_fields in Hw1 as (Hc & Hch & Ho & Hu & Ht & Hr). simpl in *.
  split_and!; try done.
  - by eapply ChartConfig_init_pure.
  - by rewrite Hu, Hr.
  - unfold after_success.
    by rewrite Htail, Hc, Hch, Ho, Hu, Ht, Hr.
Qed.

#[export] Instance on_current_db (f : Figure → Figure) : Respects same_db (on_current f).
Proof. by intros w. Qed.

#[export] Instance plt_figure_db (size : Qc * Qc) : Respects same_db (plt_figure size).
Proof. by intros w. Qed.

#[export] Instance plt_close_db : Respects same_db plt_close.
Proof. by intros w. Qed.

#[export] Instance plt_tight_layout_db : Respects same_db plt_tight_layout.
Proof. intros w. unfold plt_tight_layout. by destruct (too_large _ _). Qed.

#[export] Instance plt_savefig_db (dpi : Z) : Respects same_db (plt_savefig dpi).
Proof. intros w. unfold plt_savefig. by destruct (too_large _ _). Qed.

#[export] Instance new_uuid_db : Respects same_db new_uuid.
Proof. by intros w. Qed.

#[export] Instance now_db : Respects same_db now.
Proof. by intros w. Qed.

#[export] Instance ChartData_init_db fn data config image :
  Respects same_db (ChartData_init fn data config image).
Proof. unfold ChartData_init. apply _. Qed.

(** Record what a finished step did to the database. *)
Ltac note_db H :=
  lazymatch type of H with
  | ?m ?w = (_, ?w') =>
      let Hdb := fresh "Hdb" in
      pose proof (respects_run same_db m w w' _ H) as Hdb
  end.

(** Follow a failing run of [generate_chart] one statement further: either
    the statement raised, or it returned and a later one raised. *)
Ltac failing_step H :=
  let Hstep := fresh "Hstep" in
  apply bind_inl_inv in H as [H|(? & ? & Hstep & H)];
  [note_db H|note_db Hstep; cbv zeta in H].

(** However [generate_chart] fails, it answers 500 and the database is as
    it was. *)
Lemma generate_chart_inl (req : ChartRequest) (w w' : World) (e : exn) :
  generate_chart req w = (inl e, w') →
  same_db w w' ∧ ∃ cause, e = HTTPException 500 (Formatted "Error generating chart: " cause).
Proof.
  unfold generate_chart. intros H.
  apply try_except_inv in H as [(resp' & _ & [=])|(e0 & w1 & H & [= <- <-])].
  split; [|eauto].
  do 15 (failing_step H; [by repeat (etrans; [eassumption|])|]).
  apply bind_inl_inv in H as [H|(? & ? & _ & H)]; done.
Qed.

Lemma if_y_column_usable {A} (y : option string) (df : DataFrame)
    (then_ : string → A) (else_ : A) :
  if_y_column y df then_ else_ =
    if usable_y y df then then_ (default "" y) else else_.
Proof. unfold usable_y, if_y_column. destruct y; [|done]. by destruct (_ && _). Qed.

Lemma payload_Some (req : ChartRequest) (df : DataFrame) (config : ConfigDict)
    (ct xc : string) :
  payload req = Some (df, config, ct, xc) ↔
  req_data req = Some (Table df) ∧ req_config req = Some config ∧
  cfg_chart_type config = Some ct ∧ cfg_x_column config = Some xc.
Proof.
  unfold payload. split.
  - destruct (req_data req) as [[why|df']|]; [done| |done].
    destruct (req_config req) as [config'|]; [|done].
    destruct (cfg_chart_type config') as [ct'|] eqn:Hct; [|done].
    destruct (cfg_x_column config') as [xc'|] eqn:Hxc; [|done].
    by intros [= <- <- <- <-].
  - intros (-> & -> & -> & ->). done.
Qed.

Lemma render_leaves (ct xc : string) (y : option string) (cs : string) (df : DataFrame)
    (config : ConfigDict) (w w1 : World) (r : exn + ()) :
  render ct xc y cs df (opened config w) = (r, w1) →
  ∃ cur, w1 = with_figures (cur :: figures w) w.
Proof.
  intros Hrender.
  pose proof (respects_run only_figures _ _ _ _ Hrender) as Hw1.
  pose proof (respects_run same_stack _ _ _ _ Hrender) as [cur Hcur].
  exists cur. rewrite Hw1, Hcur. done.
Qed.

(** Once the branch has drawn, the call fails in [plt.tight_layout] with
    the figure left open when the canvas is too large; otherwise it goes
    through if the request names a file, and fails on that key with the
    figure closed if it does not. *)
Lemma generate_chart_after_render (req : ChartRequest) (w w1 : World)
    (df : DataFrame) (config : ConfigDict) (ct xc : string) :
  payload req = Some (df, config, ct, xc) →
  render ct xc (cfg_y_column config) (default "viridis" (cfg_color_scheme config)) df
    (opened config w) = (inr (), w1) →
  let titled := set_title (default "Chart" (cfg_title config)) (gcf (figures w1)) in
  let image := PNG 100 (set_tight titled) in
  generate_chart req w =
    if too_large 100 (gcf (figures w1)) then
      (inl (error_500 canvas_error), with_figures (titled :: figures w) w)
    else
      match req_filename req with
      | None => (inl (error_500 (KeyError "filename")), w)
      | Some fn =>
          let chart_data :=
            {| id := uuid4 w (reads w); filename := fn; data := Table df;
               config := {| chart_type := ct; x_column := xc;
                            y_column := cfg_y_column config;
                            color_scheme := Some (default "viridis" (cfg_color_scheme config));
                            title := Some (default "Chart" (cfg_title config));
                            width := Some (default 800%positive (cfg_width config));
                            height := Some (default 600%positive (cfg_height config)) |};
               chart_image := Some image; timestamp := utcnow w (S (reads w)) |} in
          (inr {| resp_id := id chart_data; resp_chart_image := image;
                  resp_message := "Chart generated successfully" |},
           after_success w (chart_document (next_oid w) chart_data))
      end.
Proof.
  intros Hp Hrender titled image. subst titled image.
  destruct (render_leaves _ _ _ _ _ _ _ _ _ Hrender) as [cur ->].
  apply payload_Some in Hp as (Hdata & Hconfig & Hct & Hxc).
  unfold opened, canvas in Hrender.
  unfold generate_chart, try_except.
  rewrite !bind_run. rewrite Hdata. cbn [subscript mret M_ret]. rewrite !bind_run. cbn [read_csv mret M_ret].
  rewrite !bind_run, Hconfig. cbn [subscript mret M_ret].
  rewrite !bind_run, Hct. cbn [subscript mret M_ret].
  rewrite !bind_run, Hxc. cbn [subscript mret M_ret]. cbv zeta.
  rewrite !bind_run. cbn [plt_figure]. rewrite !bind_run, Hrender.
  rewrite !bind_run. unfold plt_title at 1, on_current at 1.
  cbn [figures with_figures update_current gcf tail].
  rewrite !bind_run. unfold plt_tight_layout at 1.
  cbn [figures with_figures update_current gcf tail].
  change (too_large default_dpi (set_title (default "Chart" (cfg_title config)) cur))
    with (too_large 100 cur).
  destruct (too_large 100 cur) eqn:Hfit.
  - unfold error_500. by destruct w.
  - unfold on_current. cbn [figures with_figures update_current gcf tail].
    rewrite !bind_run. unfold plt_savefig at 1.
    cbn [figures with_figures update_current gcf tail].
    change (too_large 100 (set_tight (set_title (default "Chart" (cfg_title config)) cur)))
      with (too_large 100 cur).
    rewrite Hfit. rewrite !bind_run. unfold plt_close at 1.
    cbn [figures with_figures update_current gcf tail].
    rewrite !bind_run.
    destruct (req_filename req) as [fn|]; cbn [subscript mret M_ret raise].
    + unfold ChartConfig_init. rewrite Hct, Hxc.
      unfold ChartData_init, new_uuid, now, mbind, M_bind, mret, M_ret.
      cbn -[ChartData_dict insert_one chart_document].
      rewrite insert_one_chart. unfold after_success. cbn -[chart_document]. done.
    + unfold error_500. by destruct w.
Qed.

Lemma ChartConfig_dict_lookup (c : ChartConfig) :
  ChartConfig_dict c !! "chart_type" = Some (PyStr (chart_type c)) ∧
  ChartConfig_dict c !! "x_column" = Some (PyStr (x_column c)) ∧
  ChartConfig_dict c !! "y_column" = Some (opt_str (y_column c)) ∧
  ChartConfig_dict c !! "color_scheme" = Some (opt_str (color_scheme c)) ∧
  ChartConfig_dict c !! "title" = Some (opt_str (title c)) ∧
  ChartConfig_dict c !! "width" = Some (opt_int (width c)) ∧
  ChartConfig_dict c !! "height" = Some (opt_int (height c)).
Proof. unfold ChartConfig_dict. split_and!; by simplify_map_eq. Qed.

Lemma ChartData_dict_timestamp (c : ChartData) :
  ChartData_dict c !! "timestamp" = Some (PyDatetime (timestamp c)).
Proof. unfold ChartData_dict. by simplify_map_eq. Qed.

(** The keys of a stored chart. *)
Lemma chart_document_lookup (oid : nat) (c : ChartData) :
  chart_document oid c !! "_id" = Some (PyObjectId oid) ∧
  chart_document oid c !! "id" = Some (PyStr (id c)) ∧
  chart_document oid c !! "filename" = Some (PyStr (filename c)) ∧
  chart_document oid c !! "data" = Some (PyStrCsv (data c)) ∧
  chart_document oid c !! "config" = Some (PyDict (ChartConfig_dict (config c))) ∧
  chart_document oid c !! "chart_image"
    = Some (match chart_image c with Some i => PyStrPng i | None => PyNone end) ∧
  chart_document oid c !! "timestamp" = Some (PyDatetime (bson_datetime (timestamp c))).
Proof.
  unfold chart_document, ChartData_dict, chart_as_stored.
  cbn [id filename data config chart_image timestamp].
  split_and!; by simplify_map_eq.
Qed.

Lemma chart_document_other_keys (oid : nat) (c : ChartData) (key : string) :
  key ∉ logical_fields → key ≠ "_id" → chart_document oid c !! key = None.
Proof.
  unfold logical_fields. rewrite !not_elem_of_cons.
  intros (? & ? & ? & ? & ? & ? & _) ?.
  unfold chart_document, ChartData_dict. by rewrite !lookup_insert_ne, lookup_empty by done.
Qed.

Lemma bson_datetime_bounds (t : Z) : (bson_datetime t ≤ t < bson_datetime t + 1000)%Z.
Proof.
  unfold bson_datetime. pose proof (Z.mod_pos_bound t 1000 eq_refl).
  pose proof (Z.div_mod t 1000 ltac:(done)). lia.
Qed.

(** The canvas of a configuration in pixels, at 100 dots per inch. *)
Lemma hundredth_pixels (n : positive) : (hundredth n * Z2Qc 100)%Qc = Z2Qc (Z.pos n).
Proof.
  apply Qc_is_canon. unfold hundredth. simpl.
  rewrite !Qred_correct. unfold Qeq. simpl. lia.
Qed.

Lemma too_large_canvas (config : ConfigDict) (f : Figure) :
  figsize f = figsize (canvas config) → too_large 100 f = false ↔ fits config.
Proof.
  intros Hsize. unfold too_large, fits. rewrite Hsize. unfold canvas. cbn [figsize blank fst snd].
  rewrite !hundredth_pixels, orb_false_iff, !bool_decide_eq_false, <- !Z2Qc_inj_le. lia.
Qed.

(** * The claims *)

(** ** No partial success *)


(** ** Save, then get by id *)

Lemma find_app_fresh {A} (f : A → bool) (l : list A) (x : A) :
  (∀ y, y ∈ l → f y = false) → f x = true → List.find f (l ++ [x]) = Some x.
Proof.
  intros Hl Hx. induction l as [|y l IH]; simpl.
  - by rewrite Hx.
  - rewrite (Hl y) by (by left). apply IH. intros z Hz. apply Hl. by right.
Qed.

Lemma strip_id_stored (doc : Document) (oid : pyval) :
  doc !! "_id" = None → strip_id (<["_id" := oid]> doc) = doc.
Proof.
  intros Hnone. unfold strip_id. rewrite bool_decide_true.
  - by apply delete_insert_id.
  - apply elem_of_dom. rewrite lookup_insert_eq. eauto.
Qed.

(** A chart that was just stored under an id no older chart has is what
    [get_chart] finds for that id; it comes without its [_id]. *)
Lemma get_chart_stored (oid : nat) (c : ChartData) (w : World) :
  (∀ doc, doc ∈ charts w → field_is "id" (id c) doc = false) →
  get_chart (id c) (after_success w (chart_document oid c))
    = (inr (ChartData_dict (chart_as_stored c)), after_success w (chart_document oid c)).
Proof.
  intros Hfresh. unfold get_chart, find_one. rewrite bind_run.
  cbn [charts after_success].
  rewrite find_app_fresh; [|done|].
  - rewrite bool_decide_false.
    + unfold chart_document. by rewrite strip_id_stored by apply ChartData_dict_no_oid.
    + intros Hempty. apply (f_equal (λ m : Document, m !! "_id")) in Hempty.
      unfold chart_document in Hempty. by rewrite lookup_insert_eq in Hempty.
  - unfold field_is. destruct (chart_document_lookup oid c) as (_ & -> & _).
    by rewrite bool_decide_true.
Qed.

(** C7 as the claim states it fails whenever the clock shows a time that
    is not a whole number of milliseconds. The record that [generate_chart]
    saves at [midday] carries the time 1700000000654321; the database keeps
    dates to the millisecond, so the record read back by its id carries
    1700000000654000: it differs from the saved one in its time. *)
Lemma get_chart_counterexample :
  let req := Sample.chart_of Sample.staff "bar" "Department" (Some "Salary") in
  ∃ (resp : ChartResponse) (w0 : World) (c : ChartData),
    generate_chart req Sample.midday
      = (inr resp, (insert_one (ChartData_dict c) w0).2) ∧
    id c = resp_id resp ∧
    timestamp c = 1700000000654321%Z ∧
    (∃ doc, get_chart (id c) (insert_one (ChartData_dict c) w0).2
              = (inr doc, (insert_one (ChartData_dict c) w0).2) ∧
            doc !! "timestamp" = Some (PyDatetime 1700000000654000)) ∧
    ¬ reads_back c w0.
Proof.
  intros req.
  destruct (generate_chart req Sample.midday) as [[e|resp] w'] eqn:H;
    [by vm_compute in H|].
  pose proof H as Hrun.
  apply generate_chart_inr in H
    as (df & config & ct & xc & fn & config' & w1 & _ & _ & _ & _ & _ & _ & _ & _ & H).
  cbv zeta in H. destruct H as [-> ->].
  match goal with
  | |- context [after_success ?w (chart_document ?oid ?c)] =>
      assert (Hsaved : (insert_one (ChartData_dict c) (advance (advance w))).2
                         = after_success w (chart_document oid c))
        by (by rewrite insert_one_chart);
      assert (Hget := get_chart_stored oid c w);
      eexists _, (advance (advance w)), c
  end.
  rewrite Hsaved. split; [reflexivity|].
  cbn [id timestamp] in *.
  assert (Hread : ∀ doc, doc ∈ charts Sample.midday →
                    field_is "id" (uuid4 Sample.midday (reads Sample.midday)) doc = false)
    by (intros doc Hdoc; inversion Hdoc).
  specialize (Hget Hread).
  split_and!; [done|done| |].
  - eexists. split; [exact Hget|]. by rewrite ChartData_dict_timestamp.
  - intros (doc & Hdoc & Hsame). cbv zeta in Hdoc. cbn [id] in Hdoc.
    rewrite Hsaved, Hget in Hdoc. injection Hdoc as <-.
    specialize (Hsame "timestamp"). unfold logical_fields in Hsame.
    rewrite !elem_of_cons in Hsame.
    assert (Heq := Hsame ltac:(tauto)).
    rewrite !ChartData_dict_timestamp in Heq. by injection Heq.
Qed.

(** C7, amended: when [generate_chart] succeeds and the identifier it
    drew is not the id of an older record, [get_chart] on the returned id
    yields the stored record without its [_id], and changes nothing. Key by
    key, the record read back holds the id and the image of the response,
    the file name and the data of the request, the configuration of the
    request with its defaults filled in, and the time at which the record
    was created cut to the millisecond, which is less than a millisecond
    before that time; it holds no other key. *)
Theorem get_chart_after_generate_chart (req : ChartRequest) (w w' : World)
    (resp : ChartResponse) :
  generate_chart req w = (inr resp, w') →
  (∀ doc, doc ∈ charts w → field_is "id" (resp_id resp) doc = false) →
  let created := utcnow w (S (reads w)) in
  ∃ (doc stored stored_config : Document) (config : ConfigDict),
    get_chart (resp_id resp) w' = (inr doc, w') ∧
    last (charts w') = Some stored ∧
    doc = delete "_id" stored ∧
    doc !! "id" = Some (PyStr (resp_id resp)) ∧
    is_Some (req_filename req) ∧
    doc !! "filename" = PyStr <$> req_filename req ∧
    is_Some (req_data req) ∧
    doc !! "data" = PyStrCsv <$> req_data req ∧
    doc !! "chart_image" = Some (PyStrPng (resp_chart_image resp)) ∧
    doc !! "timestamp" = Some (PyDatetime (bson_datetime created)) ∧
    (bson_datetime created ≤ created < bson_datetime created + 1000)%Z ∧
    req_config req = Some config ∧
    doc !! "config" = Some (PyDict stored_config) ∧
    stored_config !! "chart_type" = PyStr <$> cfg_chart_type config ∧
    stored_config !! "x_column" = PyStr <$> cfg_x_column config ∧
    stored_config !! "y_column" = Some (opt_str (cfg_y_column config)) ∧
    stored_config !! "color_scheme"
      = Some (PyStr (default "viridis" (cfg_color_scheme config))) ∧
    stored_config !! "title" = Some (PyStr (default "Chart" (cfg_title config))) ∧
    stored_config !! "width" = Some (PyInt (Z.pos (default 800%positive (cfg_width config)))) ∧
    stored_config !! "height" = Some (PyInt (Z.pos (default 600%positive (cfg_height config)))) ∧
    (∀ key, key ∉ logical_fields → doc !! key = None).
Proof.
  intros H Hfresh created.
  apply generate_chart_inr in H
    as (df & config & ct & xc & fn & config' & w1 & Hdata & Hconfig & Hct & Hxc & Hfn
        & Hinit & _ & _ & H).
  cbv zeta in H. destruct H as [-> ->]. cbn [resp_id resp_chart_image id] in *.
  apply ChartConfig_init_inr in Hinit as [_ (ct' & xc' & Hct' & Hxc' & ->)].
  rewrite Hct in Hct'. rewrite Hxc in Hxc'. simplify_eq.
  match goal with
  | |- context [after_success w (chart_document ?oid ?c)] =>
      pose proof (get_chart_stored oid c w Hfresh) as Hget;
      destruct (chart_document_lookup oid c) as (_ & Hid & Hname & Hcsv & Hcfg & Himg & Htime);
      pose proof (chart_document_other_keys oid c) as Hother;
      destruct (ChartConfig_dict_lookup (Server.config c))
        as (Hk1 & Hk2 & Hk3 & Hk4 & Hk5 & Hk6 & Hk7);
      assert (Hdoc : ChartData_dict (chart_as_stored c) = delete "_id" (chart_document oid c))
        by (unfold chart_document; by rewrite delete_insert_id by apply ChartData_dict_no_oid)
  end.
  cbn [id filename data Server.config chart_image timestamp] in *.
  rewrite Hdoc in Hget.
  eexists _, _, _, config. split; [exact Hget|].
  split; [apply last_snoc|]. split; [reflexivity|].
  rewrite Hdata, Hfn, Hct, Hxc.
  rewrite !lookup_delete_ne by done.
  split_and!; try done; try apply bson_datetime_bounds.
  intros key Hkey. destruct (decide (key = "_id")) as [->|Hne].
  - apply lookup_delete_eq.
  - rewrite lookup_delete_ne by done. by apply Hother.
Qed.

Lemma get_chart_after_generate_chart_witness :
  let req := Sample.chart_of Sample.staff "bar" "Department" (Some "Salary") in
  let created := utcnow Sample.midday (S (reads Sample.midday)) in
  ∃ (resp : ChartResponse) (w' : World),
    generate_chart req Sample.midday = (inr resp, w') ∧
    (∀ doc, doc ∈ charts Sample.midday → field_is "id" (resp_id resp) doc = false) ∧
    ∃ (doc stored stored_config : Document) (config : ConfigDict),
      get_chart (resp_id resp) w' = (inr doc, w') ∧
      last (charts w') = Some stored ∧
      doc = delete "_id" stored ∧
      doc !! "id" = Some (PyStr (resp_id resp)) ∧
      is_Some (req_filename req) ∧
      doc !! "filename" = PyStr <$> req_filename req ∧
      is_Some (req_data req) ∧
      doc !! "data" = PyStrCsv <$> req_data req ∧
      doc !! "chart_image" = Some (PyStrPng (resp_chart_image resp)) ∧
      doc !! "timestamp" = Some (PyDatetime (bson_datetime created)) ∧
      (bson_datetime created ≤ created < bson_datetime created + 1000)%Z ∧
      req_config req = Some config ∧
      doc !! "config" = Some (PyDict stored_config) ∧
      stored_config !! "chart_type" = PyStr <$> cfg_chart_type config ∧
      stored_config !! "x_column" = PyStr <$> cfg_x_column config ∧
      stored_config !! "y_column" = Some (opt_str (cfg_y_column config)) ∧
      stored_config !! "color_scheme"
        = Some (PyStr (default "viridis" (cfg_color_scheme config))) ∧
      stored_config !! "title" = Some (PyStr (default "Chart" (cfg_title config))) ∧
      stored_config !! "width"
        = Some (PyInt (Z.pos (default 800%positive (cfg_width config)))) ∧
      stored_config !! "height"
        = Some (PyInt (Z.pos (default 600%positive (cfg_height config)))) ∧
      (∀ key, key ∉ logical_fields → doc !! key = None).
Proof.
  intros req created.
  eexists _, _. split; [vm_compute; reflexivity|].
  split; [intros doc Hdoc; inversion Hdoc|].
  apply (get_chart_after_generate_chart req Sample.midday); [vm_compute; reflexivity|].
  intros doc Hdoc; inversion Hdoc.
Defined.

(** ** An unknown chart type *)

Lemma render_unsupported (ct x : string) (y : option string) (cs : string)
    (df : DataFrame) (w : World) :
  ct ∉ supported → render ct x y cs df w = (inr (), w).
Proof.
  intros Hct. unfold render.
  repeat (destruct (decide (ct = _)) as [->|?];
          [exfalso; apply Hct; unfold supported; rewrite !elem_of_cons; tauto|]).
  done.
Qed.

(** The run of [generate_chart] on a chart type that has no branch is
    decided by what matplotlib makes of the titled blank figure, and then by
    the filename. *)
Lemma generate_chart_unsupported (req : ChartRequest) (w : World)
    (df : DataFrame) (config : ConfigDict) (ct xc : string) :
  payload req = Some (df, config, ct, xc) →
  ct ∉ supported →
  generate_chart req w =
    match drawing (titled config w) with
    | (inl e, w2) => (inl (error_500 e), w2)
    | (inr image, _) =>
        match req_filename req with
        | None => (inl (error_500 (KeyError "filename")), w)
        | Some fn =>
            let chart_data :=
              {| id := uuid4 w (reads w); filename := fn; data := Table df;
                 config := {| chart_type := ct; x_column := xc;
                              y_column := cfg_y_column config;
                              color_scheme := Some (default "viridis" (cfg_color_scheme config));
                              title := Some (default "Chart" (cfg_title config));
                              width := Some (default 800%positive (cfg_width config));
                              height := Some (default 600%positive (cfg_height config)) |};
                 chart_image := Some image; timestamp := utcnow w (S (reads w)) |} in
            (inr {| resp_id := id chart_data; resp_chart_image := image;
                    resp_message := "Chart generated successfully" |},
             after_success w (chart_document (next_oid w) chart_data))
        end
    end.
Proof.
  intros Hp Hct.
  rewrite (generate_chart_after_render req w (opened config w) df config ct xc Hp
             (render_unsupported _ _ _ _ _ _ Hct)).
  cbv zeta. cbn [opened figures with_figures gcf].
  unfold drawing, titled, plt_tight_layout, plt_savefig. rewrite bind_run.
  cbn [figures with_figures gcf update_current tail].
  change (too_large default_dpi (set_title (default "Chart" (cfg_title config)) (canvas config)))
    with (too_large 100 (canvas config)).
  destruct (too_large 100 (canvas config)) eqn:Hfit; [done|].
  unfold on_current. cbn [figures with_figures gcf update_current tail].
  change (too_large 100 (set_tight (set_title (default "Chart" (cfg_title config))
                                      (canvas config))))
    with (too_large 100 (canvas config)).
  by rewrite Hfit.
Qed.

(** In the model matplotlib draws the titled blank figure unless its
    canvas is too large. *)
Lemma drawing_titled (config : ConfigDict) (w : World) :
  (fits config →
     ∃ w2, drawing (titled config w)
             = (inr (PNG 100 (set_tight (set_title (default "Chart" (cfg_title config))
                                           (canvas config)))), w2)) ∧
  (¬ fits config → drawing (titled config w) = (inl canvas_error, titled config w)).
Proof.
  pose proof (too_large_canvas config (canvas config) eq_refl) as Hfits.
  unfold drawing, titled, plt_tight_layout, plt_savefig. rewrite bind_run.
  cbn [figures with_figures gcf update_current tail].
  change (too_large default_dpi (set_title (default "Chart" (cfg_title config)) (canvas config)))
    with (too_large 100 (canvas config)).
  destruct (too_large 100 (canvas config)) eqn:Hfit.
  - split; [intros Hyes; by apply Hfits in Hyes|done].
  - split; [|intros Hno; exfalso; apply Hno; by apply Hfits].
    intros _. unfold on_current. cbn [figures with_figures gcf update_current tail].
    change (too_large 100 (set_tight (set_title (default "Chart" (cfg_title config))
                                        (canvas config))))
      with (too_large 100 (canvas config)).
    rewrite Hfit. by eexists.
Qed.

Lemma drawing_titled_inv (config : ConfigDict) (w w2 : World) (r : exn + Image) :
  drawing (titled config w) = (r, w2) →
  (r = inr (PNG 100 (set_tight (set_title (default "Chart" (cfg_title config))
                                  (canvas config)))) ∧ fits config) ∨
  (r = inl canvas_error ∧ w2 = titled config w ∧ ¬ fits config).
Proof.
  intros Hrun. destruct (drawing_titled config w) as [Hyes Hno].
  destruct (decide ((Z.pos (default 800%positive (cfg_width config)) < 65536)%Z ∧
                    (Z.pos (default 600%positive (cfg_height config)) < 65536)%Z))
    as [Hfits|Hbig].
  - destruct (Hyes Hfits) as [w3 Hrun']. rewrite Hrun' in Hrun.
    injection Hrun as <- _. by left.
  - rewrite (Hno Hbig) in Hrun. injection Hrun as <- <-. by right.
Qed.

(** C9 as the claim states it fails on a canvas that matplotlib cannot
    make. The request parses and asks for a chart type that has no branch,
    on a canvas 65536 pixels wide: [plt.tight_layout] raises, the call is
    answered 500, no record is stored, and the figure stays open. *)
Lemma unsupported_chart_type_counterexample :
  let req := {| req_filename := Some "staff.csv"; req_data := Some (Table Sample.staff);
                req_config := Some Sample.poster |} in
  payload req = Some (Sample.staff, Sample.poster, "radar", "Department") ∧
  ("radar" ∉ supported) ∧
  (generate_chart req Sample.idle).1 = inl (error_500 canvas_error) ∧
  status (generate_chart req Sample.idle).1 = 500%Z ∧
  charts (generate_chart req Sample.idle).2 = charts Sample.idle ∧
  figures (generate_chart req Sample.idle).2 = [set_title "Chart" (canvas Sample.poster)].
Proof.
  intros req.
  assert (Hradar : "radar" ∉ supported).
  { unfold supported. rewrite !elem_of_cons, elem_of_nil.
    intros [?|[?|[?|[?|[?|[?|[]]]]]]]; discriminate. }
  assert (Hbig : ¬ fits Sample.poster) by (unfold fits; simpl; lia).
  rewrite (generate_chart_unsupported req Sample.idle Sample.staff Sample.poster
             "radar" "Department" eq_refl Hradar).
  destruct (drawing_titled Sample.poster Sample.idle) as [_ Hno].
  rewrite (Hno Hbig). by split_and!.
Qed.

(** C9, amended: a request whose payload parses (data, config with
    [chart_type] and [x_column], filename) and whose [chart_type] is none of
    the six supported values goes through no branch, and its outcome is
    that of drawing the blank figure with the title alone.
    - When matplotlib lays that figure out and saves it, the call does not
      fail: the image is that of the blank figure with the title, one
      document is appended that holds that image, the id of the response,
      the file name and the data of the request, and the response carries
      the image and the message of success.
    - When matplotlib refuses, the call is answered 500 around its error,
      nothing is stored, and the figure stays open.
    - matplotlib refuses a canvas of 65536 pixels or more in width or
      height. *)
Theorem unsupported_chart_type_succeeds (req : ChartRequest) (w : World)
    (df : DataFrame) (config : ConfigDict) (ct xc fn : string) :
  req_data req = Some (Table df) →
  req_config req = Some config →
  cfg_chart_type config = Some ct →
  cfg_x_column config = Some xc →
  req_filename req = Some fn →
  ct ∉ supported →
  let size := (hundredth (default 800%positive (cfg_width config)),
               hundredth (default 600%positive (cfg_height config))) in
  let figure := set_title (default "Chart" (cfg_title config)) (blank size) in
  (∀ image w2, drawing (titled config w) = (inr image, w2) →
     ∃ (resp : ChartResponse) (stored stored_config : Document) (t : Z),
       generate_chart req w = (inr resp, after_success w stored) ∧
       resp_chart_image resp = image ∧
       image = PNG 100 (set_tight figure) ∧
       artists (image_figure image) = [] ∧
       Matplotlib.title (image_figure image) = Some (default "Chart" (cfg_title config)) ∧
       resp_message resp = "Chart generated successfully" ∧
       stored !! "chart_image" = Some (PyStrPng image) ∧
       stored !! "id" = Some (PyStr (resp_id resp)) ∧
       stored !! "filename" = Some (PyStr fn) ∧
       stored !! "data" = Some (PyStrCsv (Table df)) ∧
       stored !! "config" = Some (PyDict stored_config) ∧
       stored_config !! "chart_type" = Some (PyStr ct) ∧
       stored !! "timestamp" = Some (PyDatetime t)) ∧
  (∀ e w2, drawing (titled config w) = (inl e, w2) →
     generate_chart req w = (inl (error_500 e), w2) ∧
     charts w2 = charts w ∧
     figures w2 = figure :: figures w) ∧
  (¬ fits config → ∃ e w2, drawing (titled config w) = (inl e, w2)).
Proof.
  intros Hdata Hconfig Hct Hxc Hfn Hunsupported size figure.
  assert (Hp : payload req = Some (df, config, ct, xc)) by (apply payload_Some; by split_and!).
  pose proof (generate_chart_unsupported req w df config ct xc Hp Hunsupported) as Hgen.
  split_and!.
  - intros image w2 Hdraw. rewrite Hdraw, Hfn in Hgen. cbv zeta in Hgen.
    apply drawing_titled_inv in Hdraw as [[[= ->] _]|[[=] _]].
    match type of Hgen with
    | context [chart_document ?oid ?c] =>
        destruct (chart_document_lookup oid c)
          as (_ & Kid & Kname & Kcsv & Kcfg & Kimg & Ktime);
        destruct (ChartConfig_dict_lookup (Server.config c)) as (Kct & _)
    end.
    eexists _, _, _, _. split; [exact Hgen|].
    cbn [resp_chart_image resp_message resp_id]. by split_and!.
  - intros e w2 Hdraw. rewrite Hdraw in Hgen. split; [exact Hgen|].
    by apply drawing_titled_inv in Hdraw as [[[=] _]|(_ & -> & _)].
  - intros Hbig. destruct (drawing_titled config w) as [_ Hno]. rewrite (Hno Hbig). eauto.
Qed.

Lemma unsupported_chart_type_succeeds_witness :
  let req := Sample.chart_of Sample.staff "radar" "Department" None in
  let figure := set_title "Chart" (blank (hundredth 800, hundredth 600)) in
  req_data req = Some (Table Sample.staff) ∧
  req_config req = Some Sample.radar ∧
  cfg_chart_type Sample.radar = Some "radar" ∧
  cfg_x_column Sample.radar = Some "Department" ∧
  req_filename req = Some "staff.csv" ∧
  ("radar" ∉ supported) ∧
  ∃ (image : Image) (w2 : World),
    drawing (titled Sample.radar Sample.idle) = (inr image, w2) ∧
    ∃ (resp : ChartResponse) (stored stored_config : Document) (t : Z),
      generate_chart req Sample.idle = (inr resp, after_success Sample.idle stored) ∧
      resp_chart_image resp = image ∧
      image = PNG 100 (set_tight figure) ∧
      artists (image_figure image) = [] ∧
      Matplotlib.title (image_figure image) = Some "Chart" ∧
      resp_message resp = "Chart generated successfully" ∧
      stored !! "chart_image" = Some (PyStrPng image) ∧
      stored !! "id" = Some (PyStr (resp_id resp)) ∧
      stored !! "filename" = Some (PyStr "staff.csv") ∧
      stored !! "data" = Some (PyStrCsv (Table Sample.staff)) ∧
      stored !! "config" = Some (PyDict stored_config) ∧
      stored_config !! "chart_type" = Some (PyStr "radar") ∧
      stored !! "timestamp" = Some (PyDatetime t).
Proof.
  assert (Hradar : "radar" ∉ supported).
  { unfold supported. rewrite !elem_of_cons, elem_of_nil.
    intros [?|[?|[?|[?|[?|[?|[]]]]]]]; discriminate. }
  do 5 (split; [reflexivity|]). split; [exact Hradar|].
  eexists _, _. split; [vm_compute; reflexivity|].
  refine (proj1 (unsupported_chart_type_succeeds
                   (Sample.chart_of Sample.staff "radar" "Department" None) Sample.idle
                   Sample.staff Sample.radar "radar" "Department" "staff.csv"
                   eq_refl eq_refl eq_refl eq_refl eq_refl Hradar) _ _ _).
  vm_compute; reflexivity.
Defined.

(** ** User errors *)

(** Whatever the request, the client sees 200 or 500: an [HTTPException]
    raised inside the [try] is caught by [except Exception] and wrapped. *)
Lemma generate_chart_status (req : ChartRequest) (w : World) :
  status (generate_chart req w).1 = 200%Z ∨ status (generate_chart req w).1 = 500%Z.
Proof.
  destruct (generate_chart req w) as [[e|resp] w'] eqn:H; simpl; [|by left].
  apply generate_chart_inl in H as [_ [cause ->]]. by right.
Qed.

(** C1: the three user errors of the claim, run on the sample data. A
    scatter chart without [y_column] and a heatmap of a frame with one
    numeric column raise the 400 the claim names, but inside the [try]: the
    handler's own [except Exception] turns it into a 500 whose detail wraps
    the 400. A missing [x_column] is a [KeyError], wrapped alike. In all
    three no record is persisted. *)
Theorem user_errors_answer_500 :
  let scatter := generate_chart (Sample.chart_of Sample.staff "scatter" "Age" None) Sample.idle in
  let heatmap := generate_chart (Sample.chart_of Sample.roster "heatmap" "Salary" None) Sample.idle in
  let missing := generate_chart (Sample.chart_of Sample.staff "bar" "Wage" None) Sample.idle in
  scatter.1 = inl (HTTPException 500 (Formatted "Error generating chart: "
                (HTTPException 400 (Literal "Scatter plot requires both X and Y columns")))) ∧
  heatmap.1 = inl (HTTPException 500 (Formatted "Error generating chart: "
                (HTTPException 400 (Literal "Heatmap requires at least 2 numeric columns")))) ∧
  missing.1 = inl (HTTPException 500 (Formatted "Error generating chart: " (KeyError "Wage"))) ∧
  status scatter.1 = 500%Z ∧ status heatmap.1 = 500%Z ∧ status missing.1 = 500%Z ∧
  charts scatter.2 = [] ∧ charts heatmap.2 = [] ∧ charts missing.2 = [].
Proof. vm_compute. by split_and!. Qed.

(** ** The figure of a failed call *)

(** On the success path the figure opened at the start is closed: the
    registry is as it was. *)
Lemma generate_chart_closes_on_success (req : ChartRequest) (w w' : World)
    (resp : ChartResponse) :
  generate_chart req w = (inr resp, w') → figures w' = figures w.
Proof.
  intros H. apply generate_chart_inr in H
    as (df & config & ct & xc & fn & config' & w1 & _ & _ & _ & _ & _ & _ & _ & _ & H).
  cbv zeta in H. by destruct H as [_ ->].
Qed.

(** On the error paths through [render] it is not: whenever a branch
    raises, the handler answers with the wrapped exception and the figure
    it opened is still the current one, on top of those open before. *)
Lemma generate_chart_leaves_figure_on_error (req : ChartRequest) (w w1 : World)
    (df : DataFrame) (config : ConfigDict) (ct xc : string) (e : exn) :
  req_data req = Some (Table df) →
  req_config req = Some config →
  cfg_chart_type config = Some ct →
  cfg_x_column config = Some xc →
  render ct xc (cfg_y_column config) (default "viridis" (cfg_color_scheme config)) df
    (with_figures
       (blank (hundredth (default 800%positive (cfg_width config)),
               hundredth (default 600%positive (cfg_height config))) :: figures w) w)
    = (inl e, w1) →
  generate_chart req w
    = (inl (HTTPException 500 (Formatted "Error generating chart: " e)), w1) ∧
  ∃ cur, figures w1 = cur :: figures w.
Proof.
  intros Hdata Hconfig Hct Hxc Hrender. split.
  - unfold generate_chart, try_except, mbind, M_bind.
    rewrite Hdata, Hconfig. cbn -[render]. rewrite Hct, Hxc. cbn -[render].
    by rewrite Hrender.
  - apply (respects_run same_stack _) in Hrender. exact Hrender.
Qed.

(** C5: an error path that leaves the figure open. With no figure open,
    the scatter request without [y_column] raises after [plt.figure]; the
    handler returns with that figure still registered, and a second failing
    call finds it and leaves two. *)
Theorem failed_call_leaves_figure_open :
  let req := Sample.chart_of Sample.staff "scatter" "Age" None in
  let after_first := (generate_chart req Sample.idle).2 in
  let after_second := (generate_chart req after_first).2 in
  figures Sample.idle = [] ∧
  figures after_first = [blank (hundredth 800, hundredth 600)] ∧
  figures after_second =
    [blank (hundredth 800, hundredth 600); blank (hundredth 800, hundredth 600)].
Proof. vm_compute. by split_and!. Qed.

(** ** A [y_column] that names no column *)

(** [bar] tests [y_column in df.columns] once, so a name that is not a
    column takes the branch of a missing [y_column]. *)
Lemma render_bar_fallback (x y cs : string) (df : DataFrame) :
  has_column y df = false →
  render "bar" x (Some y) cs df = render "bar" x None cs df.
Proof.
  intros Hy. unfold render. simpl. unfold if_y_column.
  by rewrite Hy, andb_false_r.
Qed.

(** The last [plt.xlabel] wins. *)
Lemma xlabel_overwrites (m : M unit) (a b : string) (w : World) :
  ((m ≫= λ _, plt_xlabel a) ≫= λ _, plt_xlabel b) w = (m ≫= λ _, plt_xlabel b) w.
Proof. rewrite !bind_run. by destruct (m w) as [[e|[]] w1]. Qed.

(** [line] takes the same branch, but then labels the x axis by the
    truthiness of [y_column] alone: with a non-empty name that is not a
    column, the run is that of a missing [y_column] followed by
    [plt.xlabel(x_column)]. *)
Lemma render_line_fallback (x y cs : string) (df : DataFrame) (w : World) :
  has_column y df = false → y ≠ "" →
  render "line" x (Some y) cs df w
    = (render "line" x None cs df ≫= λ _, plt_xlabel x) w.
Proof.
  intros Hy Hne. unfold render.
  destruct (decide ("line" = "bar")) as [?|_]; [done|].
  destruct (decide ("line" = "line")) as [_|?]; [|done].
  unfold if_y_column, truthy. rewrite Hy, andb_false_r.
  destruct (String.eqb_spec y "") as [?|_]; [done|]. cbn [negb].
  symmetry. apply xlabel_overwrites.
Qed.

(** C10: the line chart of [Salary] with [y_column = "Bonus"], which is
    not a column of the sample, against the same request without [y_column].
    Both succeed and plot the row index against [Salary], but the first
    labels the x axis [Salary]: the last [plt.xlabel] tests only whether
    [y_column] is truthy. The images differ. *)
Theorem line_fallback_mislabels_x_axis :
  let named := generate_chart (Sample.chart_of Sample.staff "line" "Salary" (Some "Bonus")) Sample.idle in
  let absent := generate_chart (Sample.chart_of Sample.staff "line" "Salary" None) Sample.idle in
  ∃ r1 r2 : ChartResponse,
    named.1 = inr r1 ∧ absent.1 = inr r2 ∧
    artists (image_figure (resp_chart_image r1)) = artists (image_figure (resp_chart_image r2)) ∧
    ylabel (image_figure (resp_chart_image r1)) = ylabel (image_figure (resp_chart_image r2)) ∧
    xlabel (image_figure (resp_chart_image r1)) = Some "Salary" ∧
    xlabel (image_figure (resp_chart_image r2)) = Some "Index" ∧
    resp_chart_image r1 ≠ resp_chart_image r2.
Proof.
  eexists _, _. split; [vm_compute; reflexivity|]. split; [vm_compute; reflexivity|].
  split_and!; try (vm_compute; reflexivity).
  intros Heq. apply (f_equal (λ i, xlabel (image_figure i))) in Heq.
  vm_compute in Heq. discriminate.
Qed.

(** ** Listing the charts *)

Lemma strip_id_delete (doc : Document) : strip_id doc = delete "_id" doc.
Proof.
  unfold strip_id. case_bool_decide as Hin; [done|].
  symmetry. apply delete_id. by apply not_elem_of_dom.
Qed.

Lemma get_charts_run (w : World) :
  get_charts w = (inr (delete "_id" <$> take 1000 (charts w)), w).
Proof.
  unfold get_charts, find_to_list. rewrite bind_run.
  unfold mret, M_ret. do 2 f_equal.
  apply list_fmap_ext. intros _ doc _. apply strip_id_delete.
Qed.

(** [get_charts] returns every stored record exactly when there are at
    most 1000 of them. *)
Lemma returns_every_record_iff (w : World) :
  returns_every_record w ↔ (length (charts w) ≤ 1000)%nat.
Proof.
  unfold returns_every_record. rewrite get_charts_run. cbn [fst]. split.
  - intros Heq%(inj inr)%(f_equal length).
    rewrite !length_fmap, length_take in Heq. lia.
  - intros Hlen. by rewrite take_ge.
Qed.

Lemma crowded_charts :
  charts Sample.crowded = (Sample.stored_chart <$> seq 0 1000) ++ [Sample.stored_chart 1000].
Proof.
  change (charts Sample.crowded) with (Sample.stored_chart <$> seq 0 (S 1000)).
  by rewrite seq_S, fmap_app.
Qed.

Lemma stored_chart_id (n : nat) (i : string) :
  field_is "id" i (Sample.stored_chart n) = bool_decide (pretty n = i).
Proof. unfold field_is, Sample.stored_chart. by simplify_map_eq. Qed.

Lemma crowded_older (doc : Document) :
  doc ∈ Sample.stored_chart <$> seq 0 1000 → field_is "id" "1000" doc = false.
Proof.
  intros (n & -> & Hn%elem_of_seq)%list_elem_of_fmap.
  rewrite stored_chart_id. apply bool_decide_eq_false.
  change "1000" with (pretty 1000%nat). intros Heq%(inj pretty). lia.
Qed.

(** C6: [get_charts] reads the collection with [to_list(1000)], so it
    returns every stored record only as long as there are at most 1000. In a
    collection of 1001 charts, the newest, whose id is 1000, is stored and
    [get_chart] finds it by its id, but [get_charts] returns 1000 records and
    none of them has that id. *)
Theorem get_charts_leaves_out_the_newest :
  (∀ w, returns_every_record w ↔ (length (charts w) ≤ 1000)%nat) ∧
  length (charts Sample.crowded) = 1001%nat ∧
  (∃ stored : Document,
     last (charts Sample.crowded) = Some stored ∧
     stored !! "id" = Some (PyStr "1000") ∧
     get_chart "1000" Sample.crowded = (inr (delete "_id" stored), Sample.crowded)) ∧
  (∃ listed : list Document,
     get_charts Sample.crowded = (inr listed, Sample.crowded) ∧
     length listed = 1000%nat ∧
     ∀ doc, doc ∈ listed → doc !! "id" ≠ Some (PyStr "1000")) ∧
  ¬ returns_every_record Sample.crowded.
Proof.
  assert (Hlen : length (charts Sample.crowded) = 1001%nat).
  { rewrite crowded_charts, length_app, length_fmap, length_seq. done. }
  split_and!.
  - apply returns_every_record_iff.
  - exact Hlen.
  - exists (Sample.stored_chart 1000). split_and!.
    + by rewrite crowded_charts, last_snoc.
    + unfold Sample.stored_chart. by simplify_map_eq.
    + unfold get_chart, find_one. rewrite bind_run, crowded_charts.
      rewrite find_app_fresh.
      * rewrite bool_decide_false; [by rewrite strip_id_delete|].
        intros Hempty. apply (f_equal (λ m : Document, m !! "_id")) in Hempty.
        unfold Sample.stored_chart in Hempty. by rewrite lookup_insert_eq in Hempty.
      * apply crowded_older.
      * rewrite stored_chart_id. by apply bool_decide_eq_true.
  - eexists. split; [apply get_charts_run|]. split.
    + rewrite length_fmap, length_take. lia.
    + rewrite crowded_charts, take_app_length' by (by rewrite length_fmap, length_seq).
      intros doc (stored & -> & Hin)%list_elem_of_fmap.
      rewrite lookup_delete_ne by done. intros Hid.
      apply crowded_older in Hin. unfold field_is in Hin. rewrite Hid in Hin.
      by rewrite bool_decide_true in Hin.
  - rewrite returns_every_record_iff. lia.
Qed.

(** ** Schema inference *)

Lemma elem_of_columns_select (include : list selector) (df : DataFrame) (c : string) :
  c ∈ columns (select_dtypes include df) ↔
  ∃ s, (c, s) ∈ df ∧ existsb (λ sel, selects sel (dtype_of s)) include = true.
Proof.
  unfold columns, select_dtypes. rewrite list_elem_of_fmap. split.
  - intros ([c' s] & -> & [Hsel Hin]%list_elem_of_filter). eauto.
  - intros (s & Hin & Hsel). exists (c, s). split; [done|].
    by apply list_elem_of_filter.
Qed.

Lemma NoDup_columns_unique (df : DataFrame) (c : string) (s1 s2 : Series) :
  NoDup (columns df) → (c, s1) ∈ df → (c, s2) ∈ df → s1 = s2.
Proof.
  unfold columns. induction df as [|[c' s'] df IH]; csimpl; intros Hnd H1 H2.
  - by apply elem_of_nil in H1.
  - apply NoDup_cons in Hnd as [Hc' Hnd].
    apply elem_of_cons in H1 as [[= -> ->]|H1], H2 as [[= ->]|H2]; try done.
    + exfalso. apply Hc'. by apply (list_elem_of_fmap_2 fst) in H2.
    + simplify_eq. exfalso. apply Hc'. by apply (list_elem_of_fmap_2 fst) in H1.
    + by apply IH.
Qed.

(** C3 as the claim states it fails on the sample: [Remote] parses as a
    [bool] column, which neither [select_dtypes] call includes, so it is a
    column that is neither numeric nor categorical. *)
Lemma upload_csv_counterexample :
  ∃ resp : UploadResponse,
    (upload_csv {| upload_filename := "staff.csv"; upload_content := Table Sample.staff |}
       Sample.idle).1 = inr resp ∧
    ¬ classifies_every_column resp.
Proof.
  eexists. split; [vm_compute; reflexivity|].
  intros [_ Hcover]. specialize (Hcover "Remote"). simpl in Hcover.
  destruct Hcover as [Hcover _].
  destruct Hcover as [Hin|Hin].
  - rewrite !elem_of_cons. tauto.
  - revert Hin. rewrite !elem_of_cons, elem_of_nil. intros [?|[?|[]]]; discriminate.
  - revert Hin. rewrite !elem_of_cons, elem_of_nil. intros [?|[]]; discriminate.
Qed.

(** C3, amended: for a CSV file that parses to a frame (with the distinct
    column names [read_csv] produces), [upload_csv] classifies each column
    as at most one of numeric and categorical: the two lists are disjoint,
    and their union is exactly the columns whose dtype is not [bool]. *)
Theorem upload_csv_classification (file : UploadFile) (df : DataFrame) (w : World) :
  endswith (upload_filename file) ".csv" = true →
  upload_content file = Table df →
  NoDup (columns df) →
  ∃ resp : UploadResponse,
    upload_csv file w = (inr resp, w) ∧
    up_columns resp = columns df ∧
    (∀ c, c ∈ up_numeric_columns resp → c ∉ up_categorical_columns resp) ∧
    (∀ c, c ∈ up_numeric_columns resp ∨ c ∈ up_categorical_columns resp ↔
          ∃ s, (c, s) ∈ df ∧ dtype_of s ≠ bool_).
Proof.
  intros Hname Hcontent Hnd. unfold upload_csv, try_except.
  rewrite Hname, Hcontent. simpl.
  eexists. split; [reflexivity|]. simpl. split_and!; [done| |].
  - intros c (s1 & Hin1 & Hsel1)%elem_of_columns_select
             (s2 & Hin2 & Hsel2)%elem_of_columns_select.
    rewrite (NoDup_columns_unique df c s1 s2 Hnd Hin1 Hin2) in Hsel1.
    by destruct s2.
  - intros c. rewrite !elem_of_columns_select. split.
    + intros [(s & Hin & Hsel)|(s & Hin & Hsel)]; exists s; by destruct s.
    + intros (s & Hin & Hsel). destruct s; simpl in *;
        [left|left|done|right]; eexists; (split; [exact Hin|done]).
Qed.

Lemma upload_csv_classification_witness :
  let file := {| upload_filename := "staff.csv"; upload_content := Table Sample.staff |} in
  endswith (upload_filename file) ".csv" = true ∧
  upload_content file = Table Sample.staff ∧
  NoDup (columns Sample.staff) ∧
  ∃ resp : UploadResponse,
    upload_csv file Sample.idle = (inr resp, Sample.idle) ∧
    up_columns resp = columns Sample.staff ∧
    (∀ c, c ∈ up_numeric_columns resp → c ∉ up_categorical_columns resp) ∧
    (∀ c, c ∈ up_numeric_columns resp ∨ c ∈ up_categorical_columns resp ↔
          ∃ s, (c, s) ∈ Sample.staff ∧ dtype_of s ≠ bool_).
Proof.
  assert (Hnd : NoDup (columns Sample.staff)) by (apply (bool_decide_unpack _); vm_compute; exact I).
  split_and!; [reflexivity|reflexivity|exact Hnd|].
  exact (upload_csv_classification
           {| upload_filename := "staff.csv"; upload_content := Table Sample.staff |}
           Sample.staff Sample.idle eq_refl eq_refl Hnd).
Defined.

(** ** The correlation heatmap *)

Lemma succeeds_on_current (f : Figure → Figure) : succeeds (on_current f).
Proof. intros w. by eexists _, _. Qed.

Lemma succeeds_bind {A B} (m : M A) (k : A → M B) :
  succeeds m → (∀ a, succeeds (k a)) → succeeds (m ≫= k).
Proof.
  intros Hm Hk w. rewrite bind_run.
  destruct (Hm w) as (a & w1 & ->). apply Hk.
Qed.

Lemma succeeds_for_each {A} (xs : list A) (body : A → M unit) :
  (∀ x, succeeds (body x)) → succeeds (for_each xs body).
Proof.
  intros Hb. induction xs as [|x xs IH]; simpl.
  - intros w. by eexists _, _.
  - by apply succeeds_bind.
Qed.

(** What follows [plt.imshow] in the heatmap branch draws more and never
    raises, so the matrix stays in the figure. *)
Lemma imshow_then (X : CorrMatrix) (cs aspect : string) (k : M unit) (w : World) :
  cs ∈ colormaps w → succeeds k → Respects keeps_artists k →
  ∃ w', (plt_imshow X cs aspect ≫= λ _, k) w = (inr (), w') ∧
        imshow X cs aspect ∈ artists (gcf (figures w')).
Proof.
  intros Hcs Hk Hkeep. rewrite bind_run. unfold plt_imshow. rewrite bind_run.
  unfold get_cmap. rewrite bool_decide_true by done. simpl.
  match goal with |- context [k ?w1] => destruct (Hk w1) as ([] & w' & Hrun);
    pose proof (respects_run keeps_artists k w1 w' _ Hrun) as Hpre end.
  rewrite Hrun. exists w'. split; [done|].
  unfold keeps_artists in Hpre. simpl in Hpre.
  eapply elem_of_prefix; [|exact Hpre]. apply elem_of_app. right. by left.
Qed.

Lemma render_heatmap (x : string) (y : option string) (cs : string)
    (df : DataFrame) (w : World) :
  (2 ≤ length (columns (select_dtypes [number] df)))%nat →
  cs ∈ colormaps w →
  ∃ w', render "heatmap" x y cs df w = (inr (), w') ∧
        imshow (corr (select_dtypes [number] df)) cs "auto" ∈ artists (gcf (figures w')).
Proof.
  intros Hcols Hcs. unfold render. simpl.
  destruct (Nat.ltb_spec (length (columns (select_dtypes [number] df))) 2) as [?|_]; [lia|].
  apply imshow_then; [done| |].
  - repeat (apply succeeds_bind; [apply succeeds_on_current|intros _]).
    apply succeeds_for_each. intros i. apply succeeds_for_each. intros j.
    apply succeeds_on_current.
  - repeat (respects_bind keeps_artists; [apply on_current_keeps_artists; auto|]).
    apply respects_for_each; [apply _|]. intros i.
    apply respects_for_each; [apply _|]. intros j.
    apply on_current_keeps_artists; auto.
Qed.

Lemma omap_numbers_lookup (df : DataFrame) (i : nat) :
  i < length (select_dtypes [number] df) →
  omap (λ c : string * Series, pair c.1 <$> numbers c.2) (select_dtypes [number] df) !! i
    = ((λ c, (c.1, column_numbers (select_dtypes [number] df) i))
         <$> select_dtypes [number] df) !! i.
Proof.
  unfold column_numbers, select_dtypes. revert i.
  induction df as [|c df IH]; intros i Hi; [simpl in Hi; lia|].
  revert Hi. cbn [filter list_filter].
  destruct (decide _) as [Hsel|]; [|apply IH].
  simpl in Hsel. rewrite orb_false_r in Hsel.
  destruct (numbers_of_number c Hsel) as [vs Hvs].
  simpl. rewrite Hvs. simpl. destruct i as [|i]; simpl.
  - by rewrite Hvs.
  - intros Hi. apply IH. apply Nat.succ_lt_mono. exact Hi.
Qed.




(** ** Aggregation for bar and pie charts *)

Lemma value_counts_counted (s : Series) : counted (values s) (value_counts s).
Proof.
  split; [apply value_counts_NoDup|]. intros k n. apply value_counts_spec.
Qed.

Lemma foldl_Zadd (v : Z) (vs : list Z) : foldl Z.add v vs = (v + foldr Z.add 0 vs)%Z.
Proof.
  revert v. induction vs as [|u vs IH]; intros v; simpl; [lia|].
  rewrite IH. lia.
Qed.

Lemma wrap64_in_range (z : Z) : in_int64 z → wrap64 z = z.
Proof. unfold in_int64, wrap64. intros Hz. rewrite Z.mod_small; lia. Qed.

Lemma wrap64_range (z : Z) : in_int64 (wrap64 z).
Proof.
  unfold in_int64, wrap64.
  pose proof (Z.mod_pos_bound (z + 9223372036854775808) 18446744073709551616 eq_refl). lia.
Qed.

Lemma groupby_sum_int64_keys (keys : list cell) (vals : list Z) :
  (groupby_sum_int64 keys vals).*1
    = (isort (λ a b : scalar * Z, scalar_le a.1 b.1) (aggregate Z.add (zip keys vals))).*1.
Proof. unfold groupby_sum_int64. by rewrite <- list_fmap_compose. Qed.

Lemma groupby_sum_int64_NoDup (keys : list cell) (vals : list Z) :
  NoDup (groupby_sum_int64 keys vals).*1.
Proof. rewrite groupby_sum_int64_keys, isort_perm. apply aggregate_NoDup. Qed.

(** The hash table holds, for each key of a row, the sum of its rows. *)
Lemma aggregate_int_spec (k : scalar) (s : Z) (keys : list cell) (vals : list Z) :
  (k, s) ∈ isort (λ a b : scalar * Z, scalar_le a.1 b.1) (aggregate Z.add (zip keys vals)) ↔
    contributions k (zip keys vals) ≠ [] ∧ s = group_total_int k keys vals.
Proof.
  unfold group_total_int. rewrite elem_of_isort.
  rewrite assoc_elem_of by apply aggregate_NoDup.
  rewrite assoc_aggregate.
  destruct (contributions k (zip keys vals)) as [|v vs]; simpl.
  - split; [done|by intros [? _]].
  - rewrite foldl_Zadd. split; [by intros [= <-]|by intros [_ ->]].
Qed.

(** Each group holds the sum of its rows, wrapped around. *)
Lemma groupby_sum_int64_spec (k : scalar) (t : Z) (keys : list cell) (vals : list Z) :
  (k, t) ∈ groupby_sum_int64 keys vals ↔
    contributions k (zip keys vals) ≠ [] ∧ t = wrap64 (group_total_int k keys vals).
Proof.
  unfold groupby_sum_int64. rewrite list_elem_of_fmap. split.
  - intros ([k' s] & [= -> ->] & [Hne ->]%aggregate_int_spec). done.
  - intros [Hne ->]. eexists (k, _). split; [reflexivity|]. by apply aggregate_int_spec.
Qed.

Lemma groupby_sum_of_int64_summed (keys : list cell) (vals : list Z) :
  summed_int64 keys vals
    ((λ kt : scalar * Z, (kt.1, Z2Qc kt.2)) <$> groupby_sum_int64 keys vals).
Proof.
  split.
  - rewrite <- list_fmap_compose.
    change (fst ∘ (λ kt : scalar * Z, (kt.1, Z2Qc kt.2))) with (fst : scalar * Z → scalar).
    apply groupby_sum_int64_NoDup.
  - intros k t. rewrite list_elem_of_fmap. split.
    + intros ([k' z] & [= -> ->] & [Hne ->]%groupby_sum_int64_spec). done.
    + intros [Hne ->]. eexists (k, _). split; [reflexivity|].
      by apply groupby_sum_int64_spec.
Qed.

Lemma df_getitem_inr (df : DataFrame) (name : string) (s : Series) (w w' : World) :
  df_getitem df name w = (inr s, w') → getitem df name = Some s ∧ w' = w.
Proof. unfold df_getitem. destruct (getitem df name); simpl; [by intros [= -> ->]|done]. Qed.

Lemma get_cmap_inr (name cmap : string) (w w' : World) :
  get_cmap name w = (inr cmap, w') → cmap = name ∧ name ∈ colormaps w ∧ w' = w.
Proof. unfold get_cmap. case_bool_decide; [by intros [= -> ->]|done]. Qed.

Lemma plt_pie_inr (x : list Qc) (labels : list scalar) (autopct : string)
    (colors : list Color) (w w' : World) :
  plt_pie x labels autopct colors w = (inr (), w') →
  w' = with_figures (update_current (draw (pie x labels autopct colors)) (figures w)) w.
Proof. unfold plt_pie. repeat case_bool_decide; [done..|by intros [= <-]]. Qed.

Lemma zip_fmap_same {A B C} (f : A → B) (g : A → C) (l : list A) :
  zip (f <$> l) (g <$> l) = (λ a, (f a, g a)) <$> l.
Proof. induction l as [|a l IH]; csimpl; [done|]. by rewrite IH. Qed.

(** Select the branch of [render] in a run on a given chart type. *)
Ltac pick_branch H :=
  repeat match type of H with
         | context [decide (?a = ?b)] =>
             destruct (decide (a = b)) as [?|?]; [try discriminate|try congruence]
         end.

(** The cells a count chart has a bar or a wedge for: those of the
    column that hold a value. *)
Lemma value_counts_shown (s : Series) (c : cell) :
  c ∈ Some <$> (value_counts s).*1 ↔ c ∈ values s ∧ is_Some c.
Proof.
  rewrite list_elem_of_fmap. split.
  - intros (k & -> & ([k' n] & -> & Hin%value_counts_spec)%list_elem_of_fmap).
    split; [by destruct Hin|by eexists].
  - intros [Hc [k ->]]. exists k. split; [done|].
    apply list_elem_of_fmap. exists (k, frequency k (values s)).
    split; [done|]. by apply value_counts_spec.
Qed.

(** C4 as the claim states it fails in both of its parts.
    - A cell of the x column that is missing (an empty cell, or the text
      NA) is dropped without notice: the bar chart of [Department] in the
      survey has a bar for [Eng] alone, while one of the three cells of the
      column holds no value.
    - pandas adds an integer column in int64: the three deposits of
      9223372036854775807 add up to 27670116110564327421, and the wedge drawn
      for the account is 9223372036854775805. *)
Lemma aggregation_counterexample :
  (∃ (w' : World) (s : Series) (a : Artist),
     render "bar" "Department" None "viridis" Sample.survey Sample.idle = (inr (), w') ∧
     getitem Sample.survey "Department" = Some s ∧
     last (artists (gcf (figures w'))) = Some a ∧
     shown_values a = [Some (Str "Eng")] ∧
     None ∈ values s ∧
     ¬ keeps_every_value (values s) a) ∧
  (∃ (w' : World) (s : Series) (zs : list Z) (a : Artist),
     render "pie" "Account" (Some "Amount") "viridis" Sample.vault Sample.idle = (inr (), w') ∧
     getitem Sample.vault "Account" = Some s ∧
     getitem Sample.vault "Amount" = Some (Int64 zs) ∧
     last (artists (gcf (figures w'))) = Some a ∧
     wedges a = [(Str "Gold", Z2Qc 9223372036854775805)] ∧
     group_total_int (Str "Gold") (values s) zs = 27670116110564327421%Z ∧
     ¬ plots_the_sums (values s) zs a).
Proof.
  split.
  - eexists _, _, _. split; [vm_compute; reflexivity|].
    split; [reflexivity|]. split; [reflexivity|]. split; [reflexivity|].
    assert (Hnone : None ∈ values (Object [Some (OStr "Eng"); None; Some (OStr "Eng")])).
    { simpl. rewrite !elem_of_cons. tauto. }
    split; [exact Hnone|].
    intros Hkeep. specialize (Hkeep None Hnone). simpl in Hkeep.
    apply list_elem_of_singleton in Hkeep. discriminate.
  - eexists _, _, _, _. split; [vm_compute; reflexivity|].
    split; [reflexivity|]. split; [reflexivity|]. split; [reflexivity|].
    split; [reflexivity|]. split; [reflexivity|].
    intros Hsum. specialize (Hsum (Str "Gold") (Z2Qc 9223372036854775805)).
    assert (Heq : Z2Qc 9223372036854775805 = Z2Qc 27670116110564327421).
    { apply Hsum. simpl. apply list_elem_of_singleton. reflexivity. }
    apply Z2Qc_inj in Heq. discriminate.
Qed.

(** C4, amended: when the bar or the pie branch has drawn its chart,
    - without a usable [y_column], it shows the counts of the x column
      ([shows_counts]): a bar or a wedge for every value that a cell of the
      column holds, each exactly once and with the number of cells holding
      it, and none for the missing cells, whose rows are dropped;
    - for a pie with a [y_column] of integers, it shows the int64 sums
      ([shows_sums]): a wedge for every value of the x column that keys a
      row, each exactly once and with the sum of the y values on the rows it
      keys as int64 addition leaves it, which is the sum itself whenever
      that lies in the range of an int64. *)
Theorem aggregation_is_recomputation (ct x cs : string) (y : option string)
    (df : DataFrame) (w w' : World) :
  render ct x y cs df w = (inr (), w') →
  ct = "bar" ∨ ct = "pie" →
  (usable_y y df = false → shows_counts ct x df w') ∧
  (ct = "pie" → usable_y y df = true →
     ∀ yn zs, y = Some yn → getitem df yn = Some (Int64 zs) → shows_sums x zs df w').
Proof.
  intros Hrun [->| ->]; unfold render in Hrun; pick_branch Hrun.
  - split; [|done]. intros Hy. rewrite if_y_column_usable, Hy in Hrun.
    apply bind_inr_inv in Hrun as ([] & w1 & Hrun & Hrest).
    apply bind_inr_inv in Hrun as (s & w0 & [Hs ->]%df_getitem_inr & Hrun).
    apply bind_inr_inv in Hrun as (cmap & w0 & (-> & _ & ->)%get_cmap_inr & Hrun).
    apply bind_inr_inv in Hrun as ([] & w0 & [= <-] & [= <-]).
    apply bind_inr_inv in Hrest as ([] & w0 & [= <-] & [= <-]).
    exists s, (bar (Some <$> (value_counts s).*1)
                   ((λ n : nat, Some (Num (Z2Qc (Z.of_nat n)))) <$> (value_counts s).*2)
                   (sampled cs half)), (value_counts s).
    split_and!; [done| |apply value_counts_counted| | |done].
    + cbn. apply last_snoc.
    + intros c. apply value_counts_shown.
    + intros _. cbn [bars]. rewrite <- !list_fmap_compose. apply zip_fmap_same.
  - split.
    + intros Hy. rewrite if_y_column_usable, Hy in Hrun.
      apply bind_inr_inv in Hrun as (pie_data & w1 & Hrun & Hrest).
      apply bind_inr_inv in Hrun as (s & w0 & [Hs ->]%df_getitem_inr & [= <- <-]).
      apply bind_inr_inv in Hrest as (cmap & w0 & (-> & _ & ->)%get_cmap_inr & ->%plt_pie_inr).
      eexists s, _, (value_counts s).
      split_and!; [done| |apply value_counts_counted| |done|].
      * cbn. apply last_snoc.
      * intros c. cbn [shown_values].
        replace (((λ kn : scalar * nat, (kn.1, Z2Qc (Z.of_nat kn.2))) <$> value_counts s).*1)
          with ((value_counts s).*1) by (by rewrite <- list_fmap_compose).
        apply value_counts_shown.
      * intros _. cbn [wedges]. rewrite <- !list_fmap_compose.
        rewrite (zip_fmap_same (fst ∘ _) (snd ∘ _)). done.
    + intros _ Hy yn zs -> Hzs. rewrite if_y_column_usable, Hy in Hrun.
      cbn [default from_option] in Hrun. change (Datatypes.id yn) with yn in Hrun.
      apply bind_inr_inv in Hrun as (pie_data & w1 & Hrun & Hrest).
      apply bind_inr_inv in Hrun as (s & w0 & [Hs ->]%df_getitem_inr & Hrun).
      apply bind_inr_inv in Hrun as (ys & w0 & [Hys ->]%df_getitem_inr & [= <- <-]).
      rewrite Hzs in Hys. injection Hys as <-. cbn [groupby_sum_of] in Hrest.
      apply bind_inr_inv in Hrest as (cmap & w0 & (-> & _ & ->)%get_cmap_inr & ->%plt_pie_inr).
      eexists s, _. split_and!; [done| | |].
      * cbn. apply last_snoc.
      * cbn [wedges]. rewrite zip_fst_snd. apply groupby_sum_of_int64_summed.
      * cbn [wedges]. rewrite zip_fst_snd. intros k t Hkt Hrange.
        apply groupby_sum_of_int64_summed in Hkt as [_ ->].
        by rewrite wrap64_in_range.
Qed.

Lemma aggregation_is_recomputation_witness :
  (∃ w' : World,
     render "bar" "Department" None "viridis" Sample.survey Sample.idle = (inr (), w') ∧
     usable_y None Sample.survey = false ∧
     shows_counts "bar" "Department" Sample.survey w') ∧
  (∃ w' : World,
     render "pie" "Department" (Some "Salary") "viridis" Sample.staff Sample.idle
       = (inr (), w') ∧
     usable_y (Some "Salary") Sample.staff = true ∧
     getitem Sample.staff "Salary" = Some (Int64 [100; 80; 120]%Z) ∧
     shows_sums "Department" [100; 80; 120]%Z Sample.staff w').
Proof.
  split.
  - eexists. split; [vm_compute; reflexivity|]. split; [reflexivity|].
    refine (proj1 (aggregation_is_recomputation "bar" "Department" "viridis" None
                     Sample.survey Sample.idle _ _ (or_introl eq_refl)) eq_refl).
    vm_compute; reflexivity.
  - eexists. split; [vm_compute; reflexivity|]. split; [reflexivity|].
    split; [reflexivity|].
    refine (proj2 (aggregation_is_recomputation "pie" "Department" "viridis" (Some "Salary")
                     Sample.staff Sample.idle _ _ (or_intror eq_refl))
              eq_refl eq_refl "Salary" _ eq_refl eq_refl).
    vm_compute; reflexivity.
Defined.

(** * Further properties of the code *)

(** ** The order of the aggregations *)

Section sorted_facts.
Context {A : Type} (before : A → A → bool).
Context (before_total : ∀ x y, before x y = false → before y x = true).

Lemma insert_sorted_HdRel (x a : A) (l : list A) :
  before a x = true → HdRel (λ u v, before u v = true) a l →
  HdRel (λ u v, before u v = true) a (insert_sorted before x l).
Proof.
  intros Hax Hal. destruct l as [|y l]; simpl; [by constructor|].
  destruct (before x y); constructor; [done|]. by inversion Hal.
Qed.

Lemma insert_sorted_Sorted (x : A) (l : list A) :
  Sorted (λ u v, before u v = true) l →
  Sorted (λ u v, before u v = true) (insert_sorted before x l).
Proof.
  induction 1 as [|y l Hl IH Hy]; simpl; [by repeat constructor|].
  destruct (before x y) eqn:Hxy.
  - constructor; [by constructor|by constructor].
  - constructor; [done|]. apply insert_sorted_HdRel; [by apply before_total|done].
Qed.

Lemma isort_Sorted (l : list A) : Sorted (λ u v, before u v = true) (isort before l).
Proof.
  induction l as [|x l IH]; simpl; [constructor|]. by apply insert_sorted_Sorted.
Qed.

End sorted_facts.

Lemma Sorted_weaken {A} (R S : A → A → Prop) (l : list A) :
  (∀ a b, R a b → S a b) → Sorted R l → Sorted S l.
Proof.
  intros HRS. induction 1 as [|x l _ IH Hx]; constructor; [done|].
  destruct Hx; constructor. by apply HRS.
Qed.

Lemma scalar_le_total (a b : scalar) : scalar_le a b = false → scalar_le b a = true.
Proof.
  destruct a as [p|p|p], b as [q|q|q]; simpl; try done.
  - intros Hpq%bool_decide_eq_false. apply bool_decide_eq_true.
    apply Qclt_le_weak. by apply Qcnot_le_lt.
  - by destruct p, q.
  - intros Hpq. destruct (String.leb_total p q) as [H|H]; [congruence|done].
Qed.

Lemma scalar_le_trans (a b c : scalar) :
  scalar_le a b = true → scalar_le b c = true → scalar_le a c = true.
Proof.
  destruct a as [p|p|p], b as [q|q|q], c as [r|r|r]; simpl; try done.
  - intros Hpq%bool_decide_eq_true Hqr%bool_decide_eq_true.
    apply bool_decide_eq_true. by etrans.
  - by destruct p, q, r.
  - intros Hpq%Is_true_true Hqr%Is_true_true. apply Is_true_true.
    change (String.le p r). by etrans.
Qed.

(** X1: [value_counts] lists the values by decreasing count: no entry has
    a smaller count than one that comes after it. *)
Theorem value_counts_descending (s : Series) :
  StronglySorted (λ a b : scalar * nat, (b.2 ≤ a.2)%nat) (value_counts s).
Proof.
  apply Sorted_StronglySorted; [intros a b c; lia|].
  unfold value_counts.
  eapply Sorted_weaken;
    [|apply (isort_Sorted (λ a b : scalar * nat, (b.2 <=? a.2)%nat))].
  - intros a b. apply Nat.leb_le.
  - intros a b Hab%Nat.leb_gt. apply Nat.leb_le. lia.
Qed.


(** ** The totals of the aggregations *)

Lemma sum_list_perm (l1 l2 : list nat) : l1 ≡ₚ l2 → sum_list l1 = sum_list l2.
Proof. induction 1; simpl; lia. Qed.

Lemma sum_list_upsert (k : scalar) (v : nat) (acc : list (scalar * nat)) :
  sum_list (upsert Nat.add k v acc).*2 = sum_list acc.*2 + v.
Proof.
  induction acc as [|[k0 t] acc IH]; csimpl; [lia|].
  destruct (decide (k0 = k)); csimpl; [lia|]. rewrite IH. lia.
Qed.

Lemma sum_list_foldl_step (rows : list (cell * nat)) (acc : list (scalar * nat)) :
  sum_list (foldl (step Nat.add) acc rows).*2 =
    sum_list acc.*2 + sum_list (filter (λ r : cell * nat, is_Some r.1) rows).*2.
Proof.
  revert acc. induction rows as [|[c v] rows IH]; intros acc; simpl; [lia|].
  rewrite IH, filter_cons. unfold step. simpl.
  destruct c as [k|]; csimpl.
  - rewrite sum_list_upsert. lia.
  - done.
Qed.

Lemma Zsum_perm (l1 l2 : list Z) : l1 ≡ₚ l2 → foldr Z.add 0%Z l1 = foldr Z.add 0%Z l2.
Proof. induction 1; simpl; lia. Qed.

Lemma Zsum_upsert (k : scalar) (v : Z) (acc : list (scalar * Z)) :
  foldr Z.add 0%Z (upsert Z.add k v acc).*2 = (foldr Z.add 0%Z acc.*2 + v)%Z.
Proof.
  induction acc as [|[k0 t] acc IH]; csimpl; [lia|].
  destruct (decide (k0 = k)); csimpl; [lia|]. rewrite IH. lia.
Qed.

Lemma Zsum_foldl_step (rows : list (cell * Z)) (acc : list (scalar * Z)) :
  foldr Z.add 0%Z (foldl (step Z.add) acc rows).*2 =
    (foldr Z.add 0%Z acc.*2
     + foldr Z.add 0%Z (filter (λ r : cell * Z, is_Some r.1) rows).*2)%Z.
Proof.
  revert acc. induction rows as [|[c v] rows IH]; intros acc; simpl; [lia|].
  rewrite IH, filter_cons. unfold step. simpl.
  destruct c as [k|]; csimpl.
  - rewrite Zsum_upsert. lia.
  - done.
Qed.

Lemma wrap64_add_l (a b : Z) : wrap64 (wrap64 a + b) = wrap64 (a + b).
Proof.
  unfold wrap64. f_equal.
  replace ((a + 9223372036854775808) mod 18446744073709551616 - 9223372036854775808
           + b + 9223372036854775808)%Z
    with ((a + 9223372036854775808) mod 18446744073709551616 + b)%Z by lia.
  rewrite Zplus_mod_idemp_l. f_equal. lia.
Qed.

Lemma wrap64_add_r (a b : Z) : wrap64 (a + wrap64 b) = wrap64 (a + b).
Proof. by rewrite (Z.add_comm a), wrap64_add_l, Z.add_comm. Qed.

(** Adding wrapped numbers and wrapping gives what adding the numbers and
    wrapping gives. *)
Lemma wrap64_sum (l : list Z) :
  wrap64 (foldr Z.add 0%Z (wrap64 <$> l)) = wrap64 (foldr Z.add 0%Z l).
Proof.
  induction l as [|x l IH]; csimpl; [done|].
  by rewrite wrap64_add_l, <- wrap64_add_r, IH, wrap64_add_r.
Qed.

(** X3: the counts of [value_counts] add up to the number of cells of the
    column that hold a value: every non-missing cell is counted once, and
    no missing one is counted. *)
Theorem value_counts_total (s : Series) :
  sum_list (value_counts s).*2 = length (dropna (values s)).
Proof.
  unfold value_counts. rewrite (sum_list_perm _ (tally (values s)).*2).
  2:{ apply fmap_Permutation, isort_perm. }
  unfold tally, aggregate. rewrite sum_list_foldl_step. simpl.
  unfold dropna. generalize (values s). intros xs.
  induction xs as [|[k|] xs IH]; [done|..]; rewrite fmap_cons, filter_cons; csimpl.
  - by rewrite IH.
  - done.
Qed.

(** X4: the sums that [groupby(..).sum()] lists for an integer column
    add up to the total of the column over the rows that have a key: no such
    row is left out of its group or added twice. pandas adds in int64, so
    this holds modulo 2^64, and exactly when no group's sum leaves the range
    of an int64. *)
Theorem groupby_sum_total (keys : list cell) (vals : list Z) :
  wrap64 (foldr Z.add 0%Z (groupby_sum_int64 keys vals).*2)
    = wrap64 (keyed_total_int keys vals) ∧
  ((∀ k, in_int64 (group_total_int k keys vals)) →
     foldr Z.add 0%Z (groupby_sum_int64 keys vals).*2 = keyed_total_int keys vals).
Proof.
  assert (Hsums : (groupby_sum_int64 keys vals).*2
                  = wrap64 <$> (isort (λ a b : scalar * Z, scalar_le a.1 b.1)
                                  (aggregate Z.add (zip keys vals))).*2).
  { unfold groupby_sum_int64. by rewrite <- !list_fmap_compose. }
  assert (Htotal : foldr Z.add 0%Z (isort (λ a b : scalar * Z, scalar_le a.1 b.1)
                                      (aggregate Z.add (zip keys vals))).*2
                   = keyed_total_int keys vals).
  { rewrite (Zsum_perm _ (aggregate Z.add (zip keys vals)).*2).
    2:{ apply fmap_Permutation, isort_perm. }
    unfold aggregate. rewrite Zsum_foldl_step. done. }
  rewrite Hsums. split.
  - by rewrite wrap64_sum, Htotal.
  - intros Hrange. rewrite <- Htotal. f_equal.
    rewrite <- (list_fmap_id (_.*2)) at 2. rewrite <- !list_fmap_compose.
    apply list_fmap_ext. intros i [k s] Hks%list_elem_of_lookup_2. simpl.
    apply aggregate_int_spec in Hks as [_ ->]. by apply wrap64_in_range.
Qed.

(** ** More on the correlation matrix *)

Lemma iloc_corr (df : DataFrame) (i j : nat) :
  iloc (corr df) i j =
    let cols : list (string * list (option Qc)) :=
      omap (λ c : string * Series, pair c.1 <$> numbers c.2) df in
    match cols !! i, cols !! j return fval with
    | Some ci, Some cj => pearson ci.2 cj.2
    | _, _ => NaN
    end.
Proof.
  unfold iloc, corr. simpl. rewrite list_lookup_fmap.
  destruct (omap _ df !! i) as [ci|]; simpl.
  - rewrite list_lookup_fmap. by destruct (_ !! j).
  - done.
Qed.

Lemma complete_pairs_swap (xs ys : list (option Qc)) :
  complete_pairs ys xs = (λ p, (p.2, p.1)) <$> complete_pairs xs ys.
Proof.
  revert ys. induction xs as [|[x|] xs IH]; intros [|[y|] ys]; csimpl; try done.
  all: by rewrite IH.
Qed.

Lemma codeviation_fmap (h : Qc * Qc → Qc * Qc) (ps : list (Qc * Qc)) (f g : Qc * Qc → Qc) :
  codeviation (h <$> ps) f g = codeviation ps (f ∘ h) (g ∘ h).
Proof.
  unfold codeviation. rewrite <- !list_fmap_compose. done.
Qed.

Lemma codeviation_comm (ps : list (Qc * Qc)) (f g : Qc * Qc → Qc) :
  codeviation ps f g = codeviation ps g f.
Proof.
  unfold codeviation. f_equal. apply list_fmap_ext. intros _ p _. simpl. ring.
Qed.

Lemma pearson_comm (xs ys : list (option Qc)) : pearson xs ys = pearson ys xs.
Proof.
  unfold pearson. rewrite (complete_pairs_swap xs ys).
  rewrite length_fmap, !codeviation_fmap.
  change (fst ∘ (λ p : Qc * Qc, (p.2, p.1))) with (snd : Qc * Qc → Qc).
  change (snd ∘ (λ p : Qc * Qc, (p.2, p.1))) with (fst : Qc * Qc → Qc).
  rewrite (codeviation_comm _ snd fst).
  rewrite (Qcmult_comm (codeviation _ snd snd)). done.
Qed.

(** X5: the correlation matrix is symmetric. *)
Theorem corr_symmetric (df : DataFrame) (i j : nat) :
  iloc (corr df) i j = iloc (corr df) j i.
Proof.
  rewrite !iloc_corr. simpl.
  destruct (omap _ df !! i) as [ci|], (omap _ df !! j) as [cj|]; try done.
  apply pearson_comm.
Qed.

Lemma quadratic_nonneg (qs : list (Qc * Qc)) (s t : Qc) :
  (0 ≤ total ((λ q : Qc * Qc, q.1 * q.1) <$> qs) * (s * s)
       + (1 + 1) * total ((λ q : Qc * Qc, q.1 * q.2) <$> qs) * (s * t)
       + total ((λ q : Qc * Qc, q.2 * q.2) <$> qs) * (t * t))%Qc.
Proof.
  induction qs as [|[a b] qs IH]; csimpl.
  - change (total []) with 0%Qc.
    replace (0 * (s * s) + (1 + 1) * 0 * (s * t) + 0 * (t * t))%Qc with 0%Qc by ring.
    done.
  - change (total (?x :: ?l)) with (x + total l)%Qc.
    match goal with |- (0 ≤ ?e)%Qc =>
      replace e with
        ((total ((λ q : Qc * Qc, q.1 * q.1) <$> qs) * (s * s)
          + (1 + 1) * total ((λ q : Qc * Qc, q.1 * q.2) <$> qs) * (s * t)
          + total ((λ q : Qc * Qc, q.2 * q.2) <$> qs) * (t * t))
         + (a * s + b * t) * (a * s + b * t))%Qc by ring
    end.
    apply Qcplus_nonneg_nonneg; [exact IH|apply square_nonneg].
Qed.

Lemma cauchy_schwarz (qs : list (Qc * Qc)) :
  let A := total ((λ q : Qc * Qc, q.1 * q.1)%Qc <$> qs) in
  let B := total ((λ q : Qc * Qc, q.2 * q.2)%Qc <$> qs) in
  let C := total ((λ q : Qc * Qc, q.1 * q.2)%Qc <$> qs) in
  (0 < B → C * C ≤ A * B)%Qc.
Proof.
  intros A B C HB.
  pose proof (quadratic_nonneg qs B (- C)) as Hq. fold A B C in Hq.
  apply Qcle_minus_iff.
  apply (Qcmult_lt_0_le_reg_r _ _ B HB).
  replace (0 * B)%Qc with 0%Qc by ring.
  replace ((A * B + - (C * C)) * B)%Qc
    with (A * (B * B) + (1 + 1) * C * (B * - C) + B * (- C * - C))%Qc by ring.
  exact Hq.
Qed.

Lemma codeviation_deviations (ps : list (Qc * Qc)) (f g : Qc * Qc → Qc) :
  codeviation ps f g =
    total ((λ q : Qc * Qc, q.1 * q.2)%Qc
             <$> ((λ p, (f p - mean (f <$> ps), g p - mean (g <$> ps))%Qc) <$> ps)).
Proof. unfold codeviation. by rewrite <- list_fmap_compose. Qed.

Lemma codeviation_square (ps : list (Qc * Qc)) (f g : Qc * Qc → Qc) :
  codeviation ps f f =
    total ((λ q : Qc * Qc, q.1 * q.1)%Qc
             <$> ((λ p, (f p - mean (f <$> ps), g p - mean (g <$> ps))%Qc) <$> ps)) ∧
  codeviation ps g g =
    total ((λ q : Qc * Qc, q.2 * q.2)%Qc
             <$> ((λ p, (f p - mean (f <$> ps), g p - mean (g <$> ps))%Qc) <$> ps)).
Proof. unfold codeviation. by rewrite <- !list_fmap_compose. Qed.

Lemma codeviation_nonneg (ps : list (Qc * Qc)) (f : Qc * Qc → Qc) :
  (0 ≤ codeviation ps f f)%Qc.
Proof.
  unfold codeviation. apply total_nonneg.
  apply Forall_fmap, Forall_true. intros p; simpl. apply square_nonneg.
Qed.

Lemma codeviation_cauchy_schwarz (ps : list (Qc * Qc)) (f g : Qc * Qc → Qc) :
  (codeviation ps f f * codeviation ps g g ≠ 0 →
   codeviation ps f g * codeviation ps f g ≤ codeviation ps f f * codeviation ps g g)%Qc.
Proof.
  intros Hnz.
  destruct (codeviation_square ps f g) as [Hff Hgg].
  rewrite (codeviation_deviations ps f g), Hff, Hgg.
  apply cauchy_schwarz. rewrite <- Hgg.
  pose proof (codeviation_nonneg ps g) as Hg.
  apply Qcle_lt_or_eq in Hg as [?|Heq]; [done|].
  exfalso. apply Hnz. rewrite <- Heq. ring.
Qed.

Lemma Q2R_Qcmult (x y : Qc) : Q2R (x * y)%Qc = (Q2R x * Q2R y)%R.
Proof.
  rewrite <- Qreals.Q2R_mult. apply Qreals.Qeq_eqR. simpl. apply Qred_correct.
Qed.

Lemma quotient_in_unit_range (c p : R) :
  (0 < p → c * c <= p → -1 <= c / sqrt p <= 1)%R.
Proof.
  intros Hp Hc.
  pose proof (sqrt_lt_R0 p Hp) as Hd.
  pose proof (sqrt_sqrt p (Rlt_le _ _ Hp)) as Hdd.
  set (d := sqrt p) in *.
  assert (Hq : (c / d * d = c)%R) by (field; lra).
  assert (Hb : (- d <= c <= d)%R) by nra.
  split; nra.
Qed.

Lemma pearson_in_unit_range (xs ys : list (option Qc)) : in_unit_range (pearson xs ys).
Proof.
  unfold pearson. destruct (_ <? _)%nat; [done|].
  destruct (decide _) as [|Hnz]; [done|]. simpl.
  set (ps := complete_pairs xs ys) in *.
  apply quotient_in_unit_range.
  - pose proof (codeviation_nonneg ps fst) as Hx.
    pose proof (codeviation_nonneg ps snd) as Hy.
    assert (0 < codeviation ps fst fst * codeviation ps snd snd)%Qc as Hlt.
    { pose proof (Qcmult_nonneg_nonneg _ _ Hx Hy) as H.
      apply Qcle_lt_or_eq in H as [?|Heq]; [done|by symmetry in Heq]. }
    apply Qreals.Qlt_Rlt in Hlt.
    change (Q2R (Q2Qc 0)) with (Q2R 0) in Hlt.
    by rewrite RMicromega.Q2R_0 in Hlt.
  - rewrite <- Q2R_Qcmult. apply Qreals.Qle_Rle.
    by apply codeviation_cauchy_schwarz.
Qed.

(** X6: every entry of the correlation matrix is NaN or a number between
    -1 and 1. *)
Theorem corr_in_unit_range (df : DataFrame) (i j : nat) :
  in_unit_range (iloc (corr df) i j).
Proof.
  rewrite iloc_corr. simpl.
  destruct (omap _ df !! i) as [ci|]; [|done].
  destruct (omap _ df !! j) as [cj|]; [|done].
  apply pearson_in_unit_range.
Qed.

(** ** File names *)

Lemma string_app_nil_r (s : string) : s +:+ "" = s.
Proof. induction s as [|c s IH]; [done|]. change (String c (s +:+ "") = String c s). by rewrite IH. Qed.

Lemma string_app_assoc (s t u : string) : (s +:+ t) +:+ u = s +:+ (t +:+ u).
Proof.
  induction s as [|c s IH]; [done|].
  change (String c ((s +:+ t) +:+ u) = String c (s +:+ (t +:+ u))). by rewrite IH.
Qed.

Lemma string_rev_app_spec (s acc : string) : String.rev_app s acc = String.rev s +:+ acc.
Proof.
  unfold String.rev. revert acc. induction s as [|c s IH]; intros acc; [done|].
  simpl. rewrite (IH (String c acc)), (IH (String c "")). by rewrite string_app_assoc.
Qed.

Lemma string_rev_app (s t : string) : String.rev (s +:+ t) = String.rev t +:+ String.rev s.
Proof.
  induction s as [|c s IH].
  - change ("" +:+ t) with t. by rewrite string_app_nil_r.
  - change (String c s +:+ t) with (String c (s +:+ t)). unfold String.rev at 1 3. simpl.
    rewrite !string_rev_app_spec, IH. by rewrite string_app_assoc.
Qed.

Lemma string_rev_involutive (s : string) : String.rev (String.rev s) = s.
Proof.
  induction s as [|c s IH]; [done|].
  unfold String.rev at 2. simpl. rewrite string_rev_app_spec, string_rev_app, IH. done.
Qed.

Lemma string_prefix_spec (s t : string) :
  String.prefix s t = true ↔ ∃ u, t = s +:+ u.
Proof.
  revert t. induction s as [|c s IH]; intros t.
  - split; [by exists t|]. intros _. by destruct t.
  - destruct t as [|d t]; simpl.
    + split; [done|]. by intros [u Hu].
    + destruct (Ascii.ascii_dec c d) as [->|Hne].
      * rewrite IH. split; intros [u Hu]; exists u.
        -- by rewrite Hu.
        -- by injection Hu.
      * split; [done|]. intros [u Hu]. injection Hu as Hd _. congruence.
Qed.

(** [endswith] is Python's [str.endswith]: the string is the suffix
    with something in front. *)
Lemma endswith_spec (s suffix : string) :
  endswith s suffix = true ↔ ∃ stem, s = stem +:+ suffix.
Proof.
  unfold endswith. rewrite string_prefix_spec. split.
  - intros [u Hu]. exists (String.rev u).
    rewrite <- (string_rev_involutive s), Hu, string_rev_app.
    by rewrite string_rev_involutive.
  - intros [stem ->]. exists (String.rev stem). apply string_rev_app.
Qed.

(** X7: [upload_csv] turns a file away with 400 "Only CSV files are
    allowed" exactly when its name is not some text followed by [.csv], in
    these very characters; what the file holds plays no part, and the state
    is left as it was. *)
Theorem upload_csv_rejects_other_names (file : UploadFile) (w : World) :
  upload_csv file w = (inl (HTTPException 400 (Literal "Only CSV files are allowed")), w)
  ↔ ¬ ∃ stem, upload_filename file = stem +:+ ".csv".
Proof.
  rewrite <- endswith_spec. unfold upload_csv.
  destruct (endswith (upload_filename file) ".csv"); simpl.
  - split; [|by intros []]. unfold try_except.
    destruct (upload_content file); simpl; discriminate.
  - split; [by intros _ ?|done].
Qed.

(** ** The answer of [upload_csv] *)

Lemma values_head_series (n : nat) (s : Series) :
  values (head_series n s) = take n (values s).
Proof. destruct s; simpl; by rewrite fmap_take. Qed.

Lemma len_head (n : nat) (df : DataFrame) : len (head n df) = n `min` len df.
Proof.
  destruct df as [|[name s] df]; simpl; [lia|].
  by rewrite values_head_series, length_take.
Qed.

Lemma row_head (n i : nat) (df : DataFrame) : i < n → row (head n df) i = row df i.
Proof.
  intros Hi. unfold row, head. rewrite <- list_fmap_compose.
  apply list_fmap_ext. intros k [name s] Hk. simpl.
  by rewrite values_head_series, lookup_take_lt.
Qed.

Lemma to_dict_records_head (n : nat) (df : DataFrame) :
  to_dict_records (head n df) = take n (to_dict_records df).
Proof.
  unfold to_dict_records. rewrite len_head, <- fmap_take, take_seq.
  apply list_fmap_ext. intros k i Hi%lookup_seq. apply row_head. lia.
Qed.

Lemma columns_select_sublist (include : list selector) (df : DataFrame) :
  columns (select_dtypes include df) `sublist_of` columns df.
Proof. unfold columns, select_dtypes. apply fmap_sublist, sublist_filter. Qed.

(** X8: the answer to an upload whose name ends in [.csv] and whose
    content parses to a frame. It echoes the name and the content; the
    preview is the first ten records of the frame, all of them when there
    are fewer; the row count is that of the whole frame; the column count is
    the number of listed columns; and the numeric and the categorical
    columns are listed in the order of the file. The state is untouched. *)
Theorem upload_csv_response (file : UploadFile) (df : DataFrame) (w : World) :
  endswith (upload_filename file) ".csv" = true →
  upload_content file = Table df →
  ∃ resp : UploadResponse,
    upload_csv file w = (inr resp, w) ∧
    up_filename resp = upload_filename file ∧
    up_data resp = upload_content file ∧
    up_preview resp = take 10 (to_dict_records df) ∧
    length (up_preview resp) = (10 `min` len df)%nat ∧
    up_row_count resp = len df ∧
    up_column_count resp = length (up_columns resp) ∧
    up_numeric_columns resp `sublist_of` up_columns resp ∧
    up_categorical_columns resp `sublist_of` up_columns resp.
Proof.
  intros Hname Hcontent. unfold upload_csv, try_except.
  rewrite Hname, Hcontent. cbn [negb read_csv mbind M_bind mret M_ret].
  eexists. split; [reflexivity|]. cbn [up_filename up_data up_preview up_row_count
    up_column_count up_columns up_numeric_columns up_categorical_columns].
  split_and!; try done.
  - apply to_dict_records_head.
  - rewrite to_dict_records_head, length_take. unfold to_dict_records.
    by rewrite length_fmap, length_seq.
  - apply columns_select_sublist.
  - apply columns_select_sublist.
Qed.

Lemma upload_csv_response_witness :
  let file := {| upload_filename := "staff.csv"; upload_content := Table Sample.staff |} in
  endswith (upload_filename file) ".csv" = true ∧
  upload_content file = Table Sample.staff ∧
  ∃ resp : UploadResponse,
    upload_csv file Sample.idle = (inr resp, Sample.idle) ∧
    up_filename resp = upload_filename file ∧
    up_data resp = upload_content file ∧
    up_preview resp = take 10 (to_dict_records Sample.staff) ∧
    length (up_preview resp) = (10 `min` len Sample.staff)%nat ∧
    up_row_count resp = len Sample.staff ∧
    up_column_count resp = length (up_columns resp) ∧
    up_numeric_columns resp `sublist_of` up_columns resp ∧
    up_categorical_columns resp `sublist_of` up_columns resp.
Proof.
  split_and!; [reflexivity|reflexivity|].
  exact (upload_csv_response
           {| upload_filename := "staff.csv"; upload_content := Table Sample.staff |}
           Sample.staff Sample.idle eq_refl eq_refl).
Defined.

(** X9: [upload_csv] never changes the state; it returns exactly when
    the name ends in [.csv] and the content parses; and whatever goes wrong,
    what it raises is an [HTTPException] with status 400. *)
Theorem upload_csv_outcome (file : UploadFile) (w : World) :
  (upload_csv file w).2 = w ∧
  ((∃ resp, (upload_csv file w).1 = inr resp) ↔
     endswith (upload_filename file) ".csv" = true ∧
     ∃ df, upload_content file = Table df) ∧
  (∀ e, (upload_csv file w).1 = inl e → ∃ detail, e = HTTPException 400 detail).
Proof.
  unfold upload_csv, try_except.
  destruct (endswith (upload_filename file) ".csv"); simpl.
  - destruct (upload_content file) as [why|df]; simpl.
    + split_and!; [done| |intros e [= <-]; eauto].
      split; [by intros [? ?]|]. by intros [_ [? ?]].
    + split_and!; [done| |done]. split; eauto.
  - split_and!; [done| |intros e [= <-]; eauto].
    split; [by intros [? ?]|by intros [? _]].
Qed.

(** ** Requests that [generate_chart] turns down *)

Lemma has_column_getitem (name : string) (df : DataFrame) :
  has_column name df = true ↔ is_Some (getitem df name).
Proof.
  unfold has_column, columns. rewrite bool_decide_eq_true.
  induction df as [|[n s] df IH]; csimpl.
  - split; [by intros ?%elem_of_nil|by intros [? ?]].
  - rewrite elem_of_cons, IH. destruct (decide (n = name)) as [->|Hne].
    + split; [eauto|by left].
    + split; [intros [?|?]; [congruence|done]|by right].
Qed.

Lemma usable_y_getitem (y : option string) (df : DataFrame) :
  usable_y y df = true → is_Some (getitem df (default "" y)).
Proof.
  unfold usable_y, if_y_column. destruct y as [yn|]; [|done].
  destruct (truthy _); simpl; [|done].
  destruct (has_column yn df) eqn:Hy; [|done]. intros _. by apply has_column_getitem.
Qed.

(** When the branch of a request raises, the handler answers 500 around
    the cause and leaves the state the branch left. *)
Lemma generate_chart_render_raises (req : ChartRequest) (w w1 : World)
    (df : DataFrame) (config : ConfigDict) (ct xc : string) (e : exn) :
  payload req = Some (df, config, ct, xc) →
  render ct xc (cfg_y_column config) (default "viridis" (cfg_color_scheme config)) df
    (opened config w) = (inl e, w1) →
  generate_chart req w = (inl (error_500 e), w1).
Proof.
  intros (Hdata & Hconfig & Hct & Hxc)%payload_Some Hrender.
  by apply (generate_chart_leaves_figure_on_error req w w1 df config ct xc e).
Qed.

Lemma generate_chart_no_payload (req : ChartRequest) (w : World) :
  payload req = None → ∃ e, generate_chart req w = (inl e, w).
Proof.
  unfold payload, generate_chart, try_except, mbind, M_bind. intros Hp.
  destruct (req_data req) as [[why|df]|]; simpl; [by eauto| |by eauto].
  destruct (req_config req) as [config|]; simpl; [|by eauto].
  destruct (cfg_chart_type config) as [ct|]; simpl; [|by eauto].
  destruct (cfg_x_column config) as [xc|]; [done|]. by eauto.
Qed.

(** X10: a request that lacks [data], [config], [chart_type] or
    [x_column], or whose data do not decode to a frame, is answered 500
    around the [KeyError] of the first missing key (or the decoding error)
    before any figure is opened: the state is left exactly as it was. *)
Theorem generate_chart_rejects_before_drawing (req : ChartRequest) (w : World) :
  payload req = None →
  generate_chart req w =
    (inl (error_500
            match req_data req with
            | None => KeyError "data"
            | Some (Unreadable why) => DecodeError why
            | Some (Table _) =>
                match req_config req with
                | None => KeyError "config"
                | Some config =>
                    match cfg_chart_type config with
                    | None => KeyError "chart_type"
                    | Some _ => KeyError "x_column"
                    end
                end
            end), w).
Proof.
  unfold payload, generate_chart, try_except, mbind, M_bind. intros Hp.
  destruct (req_data req) as [[why|df]|]; [done| |done]. simpl.
  destruct (req_config req) as [config|]; [|done]. simpl.
  destruct (cfg_chart_type config) as [ct|]; [|done]. simpl.
  destruct (cfg_x_column config) as [xc|]; [done|]. done.
Qed.

Lemma generate_chart_rejects_before_drawing_witness :
  let req := {| req_filename := Some "staff.csv"; req_data := Some (Table Sample.staff);
                req_config := Some {| cfg_chart_type := Some "bar"; cfg_x_column := None;
                                      cfg_y_column := None; cfg_color_scheme := None;
                                      cfg_title := None; cfg_width := None;
                                      cfg_height := None |} |} in
  payload req = None ∧
  generate_chart req Sample.idle = (inl (error_500 (KeyError "x_column")), Sample.idle).
Proof.
  split; [reflexivity|].
  exact (generate_chart_rejects_before_drawing
           {| req_filename := Some "staff.csv"; req_data := Some (Table Sample.staff);
              req_config := Some {| cfg_chart_type := Some "bar"; cfg_x_column := None;
                                    cfg_y_column := None; cfg_color_scheme := None;
                                    cfg_title := None; cfg_width := None;
                                    cfg_height := None |} |}
           Sample.idle eq_refl).
Defined.



Lemma render_scatter_unusable (x : string) (y : option string) (cs : string)
    (df : DataFrame) (w : World) :
  usable_y y df = false →
  render "scatter" x y cs df w =
    (inl (HTTPException 400 (Literal "Scatter plot requires both X and Y columns")), w).
Proof.
  intros Hy. unfold render. simpl. by rewrite if_y_column_usable, Hy.
Qed.

Lemma render_heatmap_few (x : string) (y : option string) (cs : string)
    (df : DataFrame) (w : World) :
  length (columns (select_dtypes [number] df)) < 2 →
  render "heatmap" x y cs df w =
    (inl (HTTPException 400 (Literal "Heatmap requires at least 2 numeric columns")), w).
Proof.
  intros Hlen. unfold render. simpl.
  by destruct (Nat.ltb_spec (length (columns (select_dtypes [number] df))) 2) as [_|?]; [|lia].
Qed.

Lemma render_missing_x (ct x : string) (y : option string) (cs : string)
    (df : DataFrame) (w : World) :
  ct ∈ ["bar"; "line"; "pie"; "histogram"] ∨ ct = "scatter" ∧ usable_y y df = true →
  getitem df x = None →
  render ct x y cs df w = (inl (KeyError x), w).
Proof.
  intros Hct Hx.
  rewrite !elem_of_cons, elem_of_nil in Hct.
  destruct Hct as [[->|[->|[->|[->|[]]]]]|[-> Hy]]; unfold render; simpl;
    try rewrite if_y_column_usable; try rewrite Hy; destruct (usable_y y df);
    rewrite ?bind_run; unfold df_getitem; rewrite Hx; done.
Qed.

Lemma render_unknown_cmap (ct x : string) (y : option string) (cs : string)
    (df : DataFrame) (w : World) :
  ct ∈ ["bar"; "line"; "histogram"] →
  has_column x df = true →
  cs ∉ colormaps w →
  ∃ msg, render ct x y cs df w = (inl (ValueError msg), w).
Proof.
  intros Hct [xs Hx]%has_column_getitem Hcs.
  pose proof (usable_y_getitem y df) as Hy.
  rewrite !elem_of_cons, elem_of_nil in Hct.
  destruct Hct as [->|[->|[->|[]]]]; unfold render; simpl;
    try rewrite if_y_column_usable; destruct (usable_y y df);
    try (destruct Hy as [ys Hys]; [done|]);
    unfold df_getitem, get_cmap; rewrite Hx, ?Hys;
    unfold mbind, M_bind, mret, M_ret; cbv beta iota;
    rewrite bool_decide_false by done; eauto.
Qed.

(** X12: a scatter plot whose [y_column] is absent, empty or not a
    column of the data is answered 500, never 400: the handler raises the
    400 inside its own [try], which wraps it. Nothing is stored, and the
    figure opened for the call stays open, with nothing drawn. *)
Theorem scatter_without_y_answers_500 (req : ChartRequest) (w : World)
    (df : DataFrame) (config : ConfigDict) (xc : string) :
  payload req = Some (df, config, "scatter", xc) →
  usable_y (cfg_y_column config) df = false →
  generate_chart req w =
    (inl (error_500
            (HTTPException 400 (Literal "Scatter plot requires both X and Y columns"))),
     opened config w) ∧
  status (generate_chart req w).1 = 500%Z.
Proof.
  intros Hp Hy.
  rewrite (generate_chart_render_raises req w _ df config "scatter" xc _ Hp
             (render_scatter_unusable _ _ _ _ _ Hy)).
  done.
Qed.

Lemma scatter_without_y_answers_500_witness :
  let req := Sample.chart_of Sample.staff "scatter" "Age" (Some "Bonus") in
  let config := Sample.chart_config "scatter" "Age" (Some "Bonus") in
  payload req = Some (Sample.staff, config, "scatter", "Age") ∧
  usable_y (cfg_y_column config) Sample.staff = false ∧
  generate_chart req Sample.idle =
    (inl (error_500
            (HTTPException 400 (Literal "Scatter plot requires both X and Y columns"))),
     opened config Sample.idle) ∧
  status (generate_chart req Sample.idle).1 = 500%Z.
Proof.
  split; [reflexivity|]. split; [reflexivity|].
  exact (scatter_without_y_answers_500
           (Sample.chart_of Sample.staff "scatter" "Age" (Some "Bonus")) Sample.idle
           Sample.staff (Sample.chart_config "scatter" "Age" (Some "Bonus")) "Age"
           eq_refl eq_refl).
Defined.

(** X13: a heatmap of data with fewer than two numeric columns is
    answered 500, never 400, for the same reason; nothing is stored and the
    figure opened for the call stays open. *)
Theorem heatmap_of_one_column_answers_500 (req : ChartRequest) (w : World)
    (df : DataFrame) (config : ConfigDict) (xc : string) :
  payload req = Some (df, config, "heatmap", xc) →
  length (columns (select_dtypes [number] df)) < 2 →
  generate_chart req w =
    (inl (error_500
            (HTTPException 400 (Literal "Heatmap requires at least 2 numeric columns"))),
     opened config w) ∧
  status (generate_chart req w).1 = 500%Z.
Proof.
  intros Hp Hlen.
  rewrite (generate_chart_render_raises req w _ df config "heatmap" xc _ Hp
             (render_heatmap_few _ _ _ _ _ Hlen)).
  done.
Qed.

Lemma heatmap_of_one_column_answers_500_witness :
  let req := Sample.chart_of Sample.roster "heatmap" "Salary" None in
  let config := Sample.chart_config "heatmap" "Salary" None in
  payload req = Some (Sample.roster, config, "heatmap", "Salary") ∧
  length (columns (select_dtypes [number] Sample.roster)) < 2 ∧
  generate_chart req Sample.idle =
    (inl (error_500
            (HTTPException 400 (Literal "Heatmap requires at least 2 numeric columns"))),
     opened config Sample.idle) ∧
  status (generate_chart req Sample.idle).1 = 500%Z.
Proof.
  assert (Hlen : length (columns (select_dtypes [number] Sample.roster)) < 2)
    by (vm_compute; lia).
  split; [reflexivity|]. split; [exact Hlen|].
  exact (heatmap_of_one_column_answers_500
           (Sample.chart_of Sample.roster "heatmap" "Salary" None) Sample.idle
           Sample.roster (Sample.chart_config "heatmap" "Salary" None) "Salary"
           eq_refl Hlen).
Defined.

(** X14: when [x_column] names no column of the data, a bar, line, pie
    or histogram request, and a scatter request with a usable [y_column],
    is answered 500 around the [KeyError] of the name; nothing is stored and
    the figure opened for the call stays open, with nothing drawn. *)
Theorem missing_x_column_answers_500 (req : ChartRequest) (w : World)
    (df : DataFrame) (config : ConfigDict) (ct xc : string) :
  payload req = Some (df, config, ct, xc) →
  ct ∈ ["bar"; "line"; "pie"; "histogram"] ∨
    ct = "scatter" ∧ usable_y (cfg_y_column config) df = true →
  getitem df xc = None →
  generate_chart req w = (inl (error_500 (KeyError xc)), opened config w).
Proof.
  intros Hp Hct Hx.
  apply (generate_chart_render_raises req w _ df config ct xc _ Hp).
  by apply render_missing_x.
Qed.

Lemma missing_x_column_answers_500_witness :
  let req := Sample.chart_of Sample.staff "pie" "Wage" (Some "Salary") in
  let config := Sample.chart_config "pie" "Wage" (Some "Salary") in
  payload req = Some (Sample.staff, config, "pie", "Wage") ∧
  ("pie" ∈ ["bar"; "line"; "pie"; "histogram"] ∨
     "pie" = "scatter" ∧ usable_y (cfg_y_column config) Sample.staff = true) ∧
  getitem Sample.staff "Wage" = None ∧
  generate_chart req Sample.idle = (inl (error_500 (KeyError "Wage")), opened config Sample.idle).
Proof.
  assert (Hct : "pie" ∈ ["bar"; "line"; "pie"; "histogram"] ∨
                "pie" = "scatter" ∧
                usable_y (cfg_y_column (Sample.chart_config "pie" "Wage" (Some "Salary")))
                  Sample.staff = true).
  { left. rewrite !elem_of_cons. tauto. }
  split; [reflexivity|]. split; [exact Hct|]. split; [reflexivity|].
  exact (missing_x_column_answers_500
           (Sample.chart_of Sample.staff "pie" "Wage" (Some "Salary")) Sample.idle
           Sample.staff (Sample.chart_config "pie" "Wage" (Some "Salary")) "pie" "Wage"
           eq_refl Hct eq_refl).
Defined.

(** X15: a colour scheme that matplotlib has not registered makes a bar,
    line or histogram request on an existing column fail with 500 around
    the [ValueError] of [get_cmap]; the colour is looked up before anything
    is drawn, so the figure left open has nothing drawn on it. *)
Theorem unknown_color_scheme_answers_500 (req : ChartRequest) (w : World)
    (df : DataFrame) (config : ConfigDict) (ct xc : string) :
  payload req = Some (df, config, ct, xc) →
  ct ∈ ["bar"; "line"; "histogram"] →
  has_column xc df = true →
  default "viridis" (cfg_color_scheme config) ∉ colormaps w →
  ∃ msg, generate_chart req w = (inl (error_500 (ValueError msg)), opened config w).
Proof.
  intros Hp Hct Hx Hcs.
  destruct (render_unknown_cmap ct xc (cfg_y_column config)
              (default "viridis" (cfg_color_scheme config)) df (opened config w) Hct Hx Hcs)
    as [msg Hrender].
  exists msg. by apply (generate_chart_render_raises req w _ df config ct xc _ Hp).
Qed.

Lemma unknown_color_scheme_answers_500_witness :
  let req := {| req_filename := Some "staff.csv"; req_data := Some (Table Sample.staff);
                req_config := Some Sample.garish |} in
  payload req = Some (Sample.staff, Sample.garish, "bar", "Department") ∧
  "bar" ∈ ["bar"; "line"; "histogram"] ∧
  has_column "Department" Sample.staff = true ∧
  (default "viridis" (cfg_color_scheme Sample.garish) ∉ colormaps Sample.idle) ∧
  ∃ msg, generate_chart req Sample.idle
           = (inl (error_500 (ValueError msg)), opened Sample.garish Sample.idle).
Proof.
  assert (Hct : "bar" ∈ ["bar"; "line"; "histogram"]) by (rewrite !elem_of_cons; tauto).
  assert (Hcs : default "viridis" (cfg_color_scheme Sample.garish) ∉ colormaps Sample.idle).
  { simpl. rewrite !elem_of_cons, elem_of_nil. intros [?|[?|[?|[]]]]; discriminate. }
  split; [reflexivity|]. split; [exact Hct|]. split; [reflexivity|]. split; [exact Hcs|].
  exact (unknown_color_scheme_answers_500
           {| req_filename := Some "staff.csv"; req_data := Some (Table Sample.staff);
              req_config := Some Sample.garish |}
           Sample.idle Sample.staff Sample.garish "bar" "Department"
           eq_refl Hct eq_refl Hcs).
Defined.

Lemma render_pie_negative (x yn cs : string) (df : DataFrame) (xs : Series)
    (zs : list Z) (w : World) :
  usable_y (Some yn) df = true →
  getitem df x = Some xs → getitem df yn = Some (Int64 zs) →
  cs ∈ colormaps w →
  Exists (λ t, (t < 0)%Z) (groupby_sum_int64 (values xs) zs).*2 →
  render "pie" x (Some yn) cs df w
    = (inl (ValueError "Wedge sizes 'x' must be non negative values"), w).
Proof.
  intros Hy Hxs Hys Hcs Hneg. unfold render.
  repeat (destruct (decide ("pie" = _)) as [?|_]; [discriminate|]).
  destruct (decide ("pie" = "pie")) as [_|?]; [|done].
  rewrite if_y_column_usable, Hy. cbn [default from_option].
  change (Datatypes.id yn) with yn.
  unfold df_getitem, get_cmap, plt_pie. rewrite Hxs, Hys.
  unfold mbind, M_bind, mret, M_ret. cbv beta iota. cbn [groupby_sum_of].
  rewrite bool_decide_true by done. cbv beta iota.
  rewrite bool_decide_true; [done|].
  rewrite <- list_fmap_compose.
  change (snd ∘ (λ kt : scalar * Z, (kt.1, Z2Qc kt.2))) with (Z2Qc ∘ (snd : scalar * Z → Z)).
  rewrite list_fmap_compose. apply Exists_fmap.
  eapply Exists_impl; [exact Hneg|]. intros t Ht. simpl.
  by apply (Z2Qc_inj_lt t 0).
Qed.

(** X16: a pie chart of an integer [y_column] whose sum, as int64
    addition leaves it, is negative in some group cannot be drawn: [plt.pie]
    refuses the negative wedge, and the request is answered 500 around its
    [ValueError]. Nothing is stored, and the figure opened for the call
    stays open, with nothing drawn. *)
Theorem pie_of_negative_sum_answers_500 (req : ChartRequest) (w : World)
    (df : DataFrame) (config : ConfigDict) (xc yn : string) (xs : Series) (zs : list Z) :
  payload req = Some (df, config, "pie", xc) →
  cfg_y_column config = Some yn →
  usable_y (Some yn) df = true →
  getitem df xc = Some xs → getitem df yn = Some (Int64 zs) →
  default "viridis" (cfg_color_scheme config) ∈ colormaps w →
  Exists (λ t, (t < 0)%Z) (groupby_sum_int64 (values xs) zs).*2 →
  generate_chart req w
    = (inl (error_500 (ValueError "Wedge sizes 'x' must be non negative values")),
       opened config w).
Proof.
  intros Hp Hyn Hy Hxs Hys Hcs Hneg.
  apply (generate_chart_render_raises req w _ df config "pie" xc _ Hp).
  rewrite Hyn. by apply (render_pie_negative xc yn _ df xs zs).
Qed.

Lemma pie_of_negative_sum_answers_500_witness :
  let req := Sample.chart_of Sample.ledger "pie" "Account" (Some "Amount") in
  let config := Sample.chart_config "pie" "Account" (Some "Amount") in
  let xs := Object [Some (OStr "Rent"); Some (OStr "Sales"); Some (OStr "Rent")] in
  let zs := [-50; 20; 10]%Z in
  payload req = Some (Sample.ledger, config, "pie", "Account") ∧
  cfg_y_column config = Some "Amount" ∧
  usable_y (Some "Amount") Sample.ledger = true ∧
  getitem Sample.ledger "Account" = Some xs ∧
  getitem Sample.ledger "Amount" = Some (Int64 zs) ∧
  default "viridis" (cfg_color_scheme config) ∈ colormaps Sample.idle ∧
  Exists (λ t, (t < 0)%Z) (groupby_sum_int64 (values xs) zs).*2 ∧
  generate_chart req Sample.idle
    = (inl (error_500 (ValueError "Wedge sizes 'x' must be non negative values")),
       opened config Sample.idle).
Proof.
  assert (Hcs : default "viridis"
                  (cfg_color_scheme (Sample.chart_config "pie" "Account" (Some "Amount")))
                ∈ colormaps Sample.idle)
    by (simpl; rewrite !elem_of_cons; tauto).
  assert (Hneg : Exists (λ t, (t < 0)%Z)
                   (groupby_sum_int64
                      (values (Object [Some (OStr "Rent"); Some (OStr "Sales");
                                       Some (OStr "Rent")]))
                      [-50; 20; 10]%Z).*2).
  { apply (bool_decide_unpack _). vm_compute. exact I. }
  do 5 (split; [reflexivity|]). split; [exact Hcs|]. split; [exact Hneg|].
  exact (pie_of_negative_sum_answers_500
           (Sample.chart_of Sample.ledger "pie" "Account" (Some "Amount")) Sample.idle
           Sample.ledger (Sample.chart_config "pie" "Account" (Some "Amount"))
           "Account" "Amount" _ _ eq_refl eq_refl eq_refl eq_refl eq_refl Hcs Hneg).
Defined.

(** ** What a successful call stores *)

(** X17: the configuration stored with a chart is the request's with the
    defaults filled in: where the request has no [color_scheme], [title],
    [width] or [height], the record holds [viridis], [Chart], 800 and 600,
    never a null. *)
Theorem generate_chart_stores_defaults (req : ChartRequest) (w w' : World)
    (resp : ChartResponse) :
  generate_chart req w = (inr resp, w') →
  ∃ df config ct xc (stored stored_config : Document),
    payload req = Some (df, config, ct, xc) ∧
    last (charts w') = Some stored ∧
    stored !! "id" = Some (PyStr (resp_id resp)) ∧
    stored !! "config" = Some (PyDict stored_config) ∧
    stored_config !! "chart_type" = Some (PyStr ct) ∧
    stored_config !! "x_column" = Some (PyStr xc) ∧
    stored_config !! "y_column" = Some (opt_str (cfg_y_column config)) ∧
    stored_config !! "color_scheme"
      = Some (PyStr (default "viridis" (cfg_color_scheme config))) ∧
    stored_config !! "title" = Some (PyStr (default "Chart" (cfg_title config))) ∧
    stored_config !! "width" = Some (PyInt (Z.pos (default 800%positive (cfg_width config)))) ∧
    stored_config !! "height" = Some (PyInt (Z.pos (default 600%positive (cfg_height config)))).
Proof.
  intros H. apply generate_chart_inr in H
    as (df & config & ct & xc & fn & config' & w1 & Hdata & Hconfig & Hct & Hxc & _ & Hinit
        & _ & _ & H).
  cbv zeta in H. destruct H as [-> ->].
  apply ChartConfig_init_inr in Hinit as [_ (ct' & xc' & Hct' & Hxc' & ->)].
  rewrite Hct in Hct'. rewrite Hxc in Hxc'. simplify_eq.
  match goal with
  | |- context [chart_document ?oid ?c] =>
      destruct (chart_document_lookup oid c) as (_ & Hid & _ & _ & Hcfg & _);
      destruct (ChartConfig_dict_lookup (Server.config c))
        as (K1 & K2 & K3 & K4 & K5 & K6 & K7)
  end.
  eexists df, config, ct', xc', _, _. split_and!.
  - apply payload_Some. by split_and!.
  - apply last_snoc.
  - exact Hid.
  - exact Hcfg.
  - exact K1.
  - exact K2.
  - exact K3.
  - exact K4.
  - exact K5.
  - exact K6.
  - exact K7.
Qed.

Lemma generate_chart_stores_defaults_witness :
  ∃ (resp : ChartResponse) (w' : World),
    generate_chart (Sample.chart_of Sample.staff "bar" "Department" (Some "Salary")) Sample.idle
      = (inr resp, w') ∧
    ∃ df config ct xc (stored stored_config : Document),
      payload (Sample.chart_of Sample.staff "bar" "Department" (Some "Salary"))
        = Some (df, config, ct, xc) ∧
      last (charts w') = Some stored ∧
      stored !! "id" = Some (PyStr (resp_id resp)) ∧
      stored !! "config" = Some (PyDict stored_config) ∧
      stored_config !! "chart_type" = Some (PyStr ct) ∧
      stored_config !! "x_column" = Some (PyStr xc) ∧
      stored_config !! "y_column" = Some (opt_str (cfg_y_column config)) ∧
      stored_config !! "color_scheme"
        = Some (PyStr (default "viridis" (cfg_color_scheme config))) ∧
      stored_config !! "title" = Some (PyStr (default "Chart" (cfg_title config))) ∧
      stored_config !! "width"
        = Some (PyInt (Z.pos (default 800%positive (cfg_width config)))) ∧
      stored_config !! "height"
        = Some (PyInt (Z.pos (default 600%positive (cfg_height config)))).
Proof.
  eexists _, _. split; [vm_compute; reflexivity|].
  eapply (generate_chart_stores_defaults _ Sample.idle). vm_compute; reflexivity.
Defined.

(** ** The footprint of a failed call *)

(** X18: however [generate_chart] fails, it answers 500 and changes
    nothing but pyplot's registry, where it leaves at most one figure more:
    the state is as it was, or as it was with the figure of the call left
    open on top. No record is stored, and no identifier or time is drawn. *)
Theorem generate_chart_failure_footprint (req : ChartRequest) (w w' : World) (e : exn) :
  generate_chart req w = (inl e, w') →
  (∃ cause, e = error_500 cause) ∧
  (w' = w ∨ ∃ fig, w' = with_figures (fig :: figures w) w).
Proof.
  intros H. split; [by apply generate_chart_inl in H as [_ ?]|].
  destruct (payload req) as [[[[df config] ct] xc]|] eqn:Hp.
  - destruct (render ct xc (cfg_y_column config)
                (default "viridis" (cfg_color_scheme config)) df (opened config w))
      as [[e1|[]] w1] eqn:Hrender.
    + rewrite (generate_chart_render_raises _ _ _ _ _ _ _ _ Hp Hrender) in H.
      injection H as _ <-. right. by eapply render_leaves.
    + rewrite (generate_chart_after_render _ _ _ _ _ _ _ Hp Hrender) in H.
      cbv zeta in H. destruct (too_large 100 (gcf (figures w1))).
      * injection H as _ <-. right. by eexists.
      * destruct (req_filename req); [done|]. injection H as _ <-. by left.
  - destruct (generate_chart_no_payload req w Hp) as [e0 He0].
    rewrite He0 in H. injection H as _ <-. by left.
Qed.

Lemma generate_chart_failure_footprint_witness :
  let req := Sample.chart_of Sample.staff "scatter" "Age" None in
  ∃ (e : exn) (w' : World),
    generate_chart req Sample.idle = (inl e, w') ∧
    (∃ cause, e = error_500 cause) ∧
    (w' = Sample.idle ∨ ∃ fig, w' = with_figures (fig :: figures Sample.idle) Sample.idle).
Proof.
  eexists _, _. split; [vm_compute; reflexivity|].
  apply (generate_chart_failure_footprint
           (Sample.chart_of Sample.staff "scatter" "Age" None) Sample.idle).
  vm_compute; reflexivity.
Defined.

(** ** What the heatmap branch draws *)

Lemma for_each_on_figure {A} (xs : list A) (body : A → M unit) (h : A → Figure → Figure)
    (cur : Figure) (rest : list Figure) (w : World) :
  (∀ x fig, body x (with_figures (fig :: rest) w)
            = (inr (), with_figures (h x fig :: rest) w)) →
  for_each xs body (with_figures (cur :: rest) w)
    = (inr (), with_figures (foldl (λ fig x, h x fig) cur xs :: rest) w).
Proof.
  intros Hbody. revert cur. induction xs as [|x xs IH]; intros cur; [done|].
  simpl. rewrite bind_run, Hbody. apply IH.
Qed.

Lemma artists_foldl_draw {A} (a : A → Artist) (xs : list A) (fig : Figure) :
  artists (foldl (λ fig x, draw (a x) fig) fig xs) = artists fig ++ (a <$> xs) ∧
  xticks (foldl (λ fig x, draw (a x) fig) fig xs) = xticks fig ∧
  yticks (foldl (λ fig x, draw (a x) fig) fig xs) = yticks fig.
Proof.
  revert fig. induction xs as [|x xs IH]; intros fig; simpl.
  - by rewrite app_nil_r.
  - destruct (IH (draw (a x) fig)) as (-> & -> & ->). simpl.
    by rewrite <- app_assoc.
Qed.

Lemma artists_foldl_rows {A B} (a : A → B → Artist) (xs : list A) (ys : list B)
    (fig : Figure) :
  let rows := foldl (λ fig x, foldl (λ fig y, draw (a x y) fig) fig ys) fig xs in
  artists rows = artists fig ++ flat_map (λ x, a x <$> ys) xs ∧
  xticks rows = xticks fig ∧ yticks rows = yticks fig.
Proof.
  revert fig. induction xs as [|x xs IH]; intros fig; simpl.
  - by rewrite app_nil_r.
  - destruct (IH (foldl (λ fig y, draw (a x y) fig) fig ys)) as (-> & -> & ->).
    destruct (artists_foldl_draw (a x) ys fig) as (-> & -> & ->).
    by rewrite <- app_assoc.
Qed.

Lemma length_flat_map_const {A B} (f : A → list B) (n : nat) (xs : list A) :
  (∀ x, length (f x) = n) → length (flat_map f xs) = length xs * n.
Proof.
  intros Hf. induction xs as [|x xs IH]; simpl; [done|].
  by rewrite length_app, Hf, IH.
Qed.

(** X19: what the heatmap branch draws on data with at least two numeric
    columns, in a registered colour scheme. It never fails and adds to the
    current figure, in this order, the image of the correlation matrix, the
    colour bar, and one text per cell, row by row: the text at column [j] and
    row [i] is the entry [i, j], white when its absolute value exceeds 0.5
    and black otherwise. Both axes are ticked with the names of the numeric
    columns. [x_column] and [y_column] play no part. *)
Theorem heatmap_overlays_every_cell (x : string) (y : option string) (cs : string)
    (df : DataFrame) (w : World) :
  (2 ≤ length (columns (select_dtypes [number] df)))%nat →
  cs ∈ colormaps w →
  let m := corr (select_dtypes [number] df) in
  let n := length (columns (select_dtypes [number] df)) in
  ∃ fig : Figure,
    render "heatmap" x y cs df w = (inr (), with_figures (fig :: tail (figures w)) w) ∧
    artists fig
      = artists (gcf (figures w)) ++ imshow m cs "auto" :: colorbar :: cell_texts m ∧
    length (cell_texts m) = (n * n)%nat ∧
    xticks fig = Some {| locs := Some (seq 0 n, columns (select_dtypes [number] df));
                         rotation := Some 45%Z; ha := Some "right" |} ∧
    yticks fig = Some {| locs := Some (seq 0 n, columns (select_dtypes [number] df));
                         rotation := None; ha := None |}.
Proof.
  intros Hcols Hcs m n. unfold render.
  repeat (destruct (decide ("heatmap" = _)) as [?|_]; [discriminate|]).
  destruct (decide ("heatmap" = "heatmap")) as [_|?]; [|done]. cbv zeta.
  destruct (Nat.ltb_spec (length (columns (select_dtypes [number] df))) 2) as [?|_]; [lia|].
  assert (Hl : labels m = columns (select_dtypes [number] df)) by apply corr_labels.
  fold m. rewrite Hl. fold n.
  unfold plt_imshow, get_cmap. rewrite !bind_run.
  rewrite bool_decide_true by done. cbn [mret M_ret].
  unfold on_current at 1, update_current at 1.
  unfold plt_colorbar, plt_xticks, plt_yticks, on_current, update_current.
  cbn [figures with_figures gcf tail].
  unfold mbind, M_bind. cbv beta iota. cbn [figures with_figures gcf tail].
  set (base := set_yticks _ _).
  erewrite (for_each_on_figure (seq 0 n) _
              (λ i fig, foldl (λ fig j, draw (text j i (iloc m i j) "center" "center"
                                                 (text_color (iloc m i j))) fig)
                              fig (seq 0 n))).
  2:{ intros i fig.
      apply (for_each_on_figure (seq 0 n) _
               (λ j fig, draw (text j i (iloc m i j) "center" "center"
                                  (text_color (iloc m i j))) fig)).
      intros j fig'. done. }
  eexists. split; [reflexivity|].
  destruct (artists_foldl_rows
              (λ i j, text j i (iloc m i j) "center" "center" (text_color (iloc m i j)))
              (seq 0 n) (seq 0 n) base) as (Ha & Hx & Hy).
  cbv zeta in Ha, Hx, Hy. rewrite Ha, Hx, Hy.
  unfold cell_texts. rewrite Hl. fold n.
  split_and!; try done.
  - unfold base. simpl. by rewrite <- !app_assoc.
  - rewrite (length_flat_map_const _ n); [by rewrite length_seq|].
    intros i. by rewrite length_fmap, length_seq.
Qed.

Lemma heatmap_overlays_every_cell_witness :
  let m := corr (select_dtypes [number] Sample.staff) in
  let n := length (columns (select_dtypes [number] Sample.staff)) in
  (2 ≤ n)%nat ∧
  "plasma" ∈ colormaps Sample.idle ∧
  ∃ fig : Figure,
    render "heatmap" "Salary" None "plasma" Sample.staff Sample.idle
      = (inr (), with_figures (fig :: tail (figures Sample.idle)) Sample.idle) ∧
    artists fig
      = artists (gcf (figures Sample.idle)) ++ imshow m "plasma" "auto" :: colorbar :: cell_texts m ∧
    length (cell_texts m) = (n * n)%nat ∧
    xticks fig = Some {| locs := Some (seq 0 n, columns (select_dtypes [number] Sample.staff));
                         rotation := Some 45%Z; ha := Some "right" |} ∧
    yticks fig = Some {| locs := Some (seq 0 n, columns (select_dtypes [number] Sample.staff));
                         rotation := None; ha := None |}.
Proof.
  assert (Hcols : (2 ≤ length (columns (select_dtypes [number] Sample.staff)))%nat)
    by (simpl; lia).
  assert (Hcs : "plasma" ∈ colormaps Sample.idle)
    by (simpl; rewrite !elem_of_cons; tauto).
  split; [exact Hcols|]. split; [exact Hcs|].
  exact (heatmap_overlays_every_cell "Salary" None "plasma" Sample.staff Sample.idle Hcols Hcs).
Defined.

(** ** What the other branches draw *)

(** X20: when the bar or the pie branch has drawn for a request whose
    [y_column] is absent, empty or not a column of the data, what it added
    to the figure is the count chart of [x_column]: one bar, or one wedge,
    per entry of [value_counts], in its order, with the count as height or
    size; the wedges take the first colours of the colour scheme by index.
    A bar chart is labelled with the column's name and "Count". *)
Theorem count_charts_draw_value_counts (ct x : string) (y : option string) (cs : string)
    (df : DataFrame) (w w' : World) :
  ct ∈ ["bar"; "pie"] →
  usable_y y df = false →
  render ct x y cs df w = (inr (), w') →
  ∃ s : Series,
    getitem df x = Some s ∧
    artists (gcf (figures w'))
      = artists (gcf (figures w))
          ++ [if decide (ct = "bar")
              then bar (Some <$> (value_counts s).*1)
                       (count_cell <$> (value_counts s).*2) (sampled cs half)
              else pie ((λ n : nat, Z2Qc (Z.of_nat n)) <$> (value_counts s).*2)
                       (value_counts s).*1 "%1.1f%%"
                       (indexed cs <$> seq 0 (length (value_counts s)))] ∧
    (ct = "bar" → xlabel (gcf (figures w')) = Some x ∧
                  ylabel (gcf (figures w')) = Some "Count").
Proof.
  intros Hct Hy Hrun. rewrite !elem_of_cons, elem_of_nil in Hct.
  destruct Hct as [->|[->|[]]]; unfold render in Hrun; pick_branch Hrun;
    rewrite if_y_column_usable, Hy in Hrun.
  - apply bind_inr_inv in Hrun as ([] & w1 & Hrun & Hrest).
    apply bind_inr_inv in Hrun as (s & w0 & [Hs ->]%df_getitem_inr & Hrun).
    apply bind_inr_inv in Hrun as (cmap & w0 & (-> & _ & ->)%get_cmap_inr & Hrun).
    apply bind_inr_inv in Hrun as ([] & w0 & [= <-] & [= <-]).
    apply bind_inr_inv in Hrest as ([] & w0 & [= <-] & [= <-]).
    exists s. by split_and!.
  - apply bind_inr_inv in Hrun as (pie_data & w1 & Hrun & Hrest).
    apply bind_inr_inv in Hrun as (s & w0 & [Hs ->]%df_getitem_inr & [= <- <-]).
    apply bind_inr_inv in Hrest as (cmap & w0 & (-> & _ & ->)%get_cmap_inr & ->%plt_pie_inr).
    exists s. split_and!; [done| |done].
    cbn [figures with_figures update_current gcf artists draw].
    rewrite length_fmap, <- !list_fmap_compose. done.
Qed.

Lemma count_charts_draw_value_counts_witness :
  "pie" ∈ ["bar"; "pie"] ∧
  usable_y (Some "Bonus") Sample.staff = false ∧
  ∃ w' : World,
    render "pie" "Department" (Some "Bonus") "viridis" Sample.staff Sample.idle
      = (inr (), w') ∧
    ∃ s : Series,
      getitem Sample.staff "Department" = Some s ∧
      artists (gcf (figures w'))
        = artists (gcf (figures Sample.idle))
            ++ [if decide ("pie" = "bar")
                then bar (Some <$> (value_counts s).*1)
                         (count_cell <$> (value_counts s).*2) (sampled "viridis" half)
                else pie ((λ n : nat, Z2Qc (Z.of_nat n)) <$> (value_counts s).*2)
                         (value_counts s).*1 "%1.1f%%"
                         (indexed "viridis" <$> seq 0 (length (value_counts s)))] ∧
      ("pie" = "bar" → xlabel (gcf (figures w')) = Some "Department" ∧
                       ylabel (gcf (figures w')) = Some "Count").
Proof.
  assert (Hct : "pie" ∈ ["bar"; "pie"]) by (rewrite !elem_of_cons; tauto).
  split; [exact Hct|]. split; [reflexivity|].
  eexists. split; [vm_compute; reflexivity|].
  apply (count_charts_draw_value_counts "pie" "Department" (Some "Bonus") "viridis"
           Sample.staff Sample.idle _ Hct eq_refl).
  vm_compute; reflexivity.
Defined.

Lemma dropna_filter (xs : list cell) :
  Some <$> dropna xs = filter (λ c : cell, is_Some c) xs.
Proof.
  unfold dropna. induction xs as [|[v|] xs IH]; [done|..]; rewrite filter_cons; csimpl.
  - by rewrite IH.
  - done.
Qed.

(** X21: when the histogram branch has drawn, what it added to the
    figure is one histogram of 30 bins over the cells of [x_column] that
    hold a value, in the order of the rows and without the missing ones,
    labelled with the column's name and "Frequency". [y_column] plays no
    part. *)
Theorem histogram_draws_present_values (x : string) (y : option string) (cs : string)
    (df : DataFrame) (w w' : World) :
  render "histogram" x y cs df w = (inr (), w') →
  ∃ (s : Series) (shown : list scalar),
    getitem df x = Some s ∧
    artists (gcf (figures w'))
      = artists (gcf (figures w)) ++ [hist shown 30 (sampled cs half) (Q2Qc (7 # 10))] ∧
    Some <$> shown = filter (λ c : cell, is_Some c) (values s) ∧
    xlabel (gcf (figures w')) = Some x ∧
    ylabel (gcf (figures w')) = Some "Frequency".
Proof.
  unfold render. simpl. intros Hrun.
  apply bind_inr_inv in Hrun as (s & w0 & [Hs ->]%df_getitem_inr & Hrun).
  apply bind_inr_inv in Hrun as (cmap & w0 & (-> & _ & ->)%get_cmap_inr & Hrun).
  apply bind_inr_inv in Hrun as ([] & w0 & [= <-] & Hrun).
  apply bind_inr_inv in Hrun as ([] & w0 & [= <-] & [= <-]).
  exists s, (dropna (values s)). split_and!; try done. apply dropna_filter.
Qed.

Lemma histogram_draws_present_values_witness :
  ∃ w' : World,
    render "histogram" "Age" None "Blues" Sample.staff Sample.idle = (inr (), w') ∧
    ∃ (s : Series) (shown : list scalar),
      getitem Sample.staff "Age" = Some s ∧
      artists (gcf (figures w'))
        = artists (gcf (figures Sample.idle))
            ++ [hist shown 30 (sampled "Blues" half) (Q2Qc (7 # 10))] ∧
      Some <$> shown = filter (λ c : cell, is_Some c) (values s) ∧
      xlabel (gcf (figures w')) = Some "Age" ∧
      ylabel (gcf (figures w')) = Some "Frequency".
Proof.
  eexists. split; [vm_compute; reflexivity|].
  apply (histogram_draws_present_values "Age" None "Blues" Sample.staff Sample.idle).
  vm_compute; reflexivity.
Defined.

(** X22: when a bar, line or scatter branch has drawn with a usable
    [y_column], what it added to the figure is one plot of the cells of
    [y_column] against the cells of [x_column], row by row, and the two
    axes are labelled with the names of the two columns. *)
Theorem two_column_charts (ct x : string) (y : option string) (cs : string)
    (df : DataFrame) (w w' : World) :
  ct ∈ ["bar"; "line"; "scatter"] →
  usable_y y df = true →
  render ct x y cs df w = (inr (), w') →
  ∃ (yn : string) (xs ys : Series),
    y = Some yn ∧ getitem df x = Some xs ∧ getitem df yn = Some ys ∧
    artists (gcf (figures w'))
      = artists (gcf (figures w))
          ++ [if decide (ct = "bar") then bar (values xs) (values ys) (sampled cs half)
              else if decide (ct = "line")
                   then plot (values xs) (values ys) (sampled cs half) "o"
                   else scatter (values xs) (values ys) (sampled cs half) (Q2Qc (7 # 10))] ∧
    xlabel (gcf (figures w')) = Some x ∧
    ylabel (gcf (figures w')) = Some yn.
Proof.
  intros Hct Hy Hrun.
  assert (∃ yn, y = Some yn ∧ truthy y = true) as (yn & -> & Htruthy).
  { unfold usable_y, if_y_column in Hy. destruct y as [yn|]; [|done].
    exists yn. split; [done|]. by destruct (truthy (Some yn)). }
  exists yn.
  assert (Hc : truthy (Some yn) && has_column yn df = true).
  { unfold usable_y, if_y_column in Hy. by destruct (_ && _). }
  simpl in Hc, Htruthy.
  rewrite !elem_of_cons, elem_of_nil in Hct.
  destruct Hct as [->|[->|[->|[]]]]; unfold render in Hrun; simpl in Hrun;
    rewrite Hc in Hrun.
  - apply bind_inr_inv in Hrun as ([] & w1 & Hrun & Hrest).
    apply bind_inr_inv in Hrun as (xs & w0 & [Hxs ->]%df_getitem_inr & Hrun).
    apply bind_inr_inv in Hrun as (ys & w0 & [Hys ->]%df_getitem_inr & Hrun).
    apply bind_inr_inv in Hrun as (cmap & w0 & (-> & _ & ->)%get_cmap_inr & Hrun).
    apply bind_inr_inv in Hrun as ([] & w0 & [= <-] & [= <-]).
    apply bind_inr_inv in Hrest as ([] & w0 & [= <-] & [= <-]).
    exists xs, ys. by split_and!.
  - apply bind_inr_inv in Hrun as ([] & w1 & Hrun & Hrest).
    apply bind_inr_inv in Hrun as (xs & w0 & [Hxs ->]%df_getitem_inr & Hrun).
    apply bind_inr_inv in Hrun as (ys & w0 & [Hys ->]%df_getitem_inr & Hrun).
    apply bind_inr_inv in Hrun as (cmap & w0 & (-> & _ & ->)%get_cmap_inr & Hrun).
    apply bind_inr_inv in Hrun as ([] & w0 & [= <-] & [= <-]).
    rewrite Htruthy in Hrest. injection Hrest as <-.
    exists xs, ys. by split_and!.
  - apply bind_inr_inv in Hrun as (xs & w0 & [Hxs ->]%df_getitem_inr & Hrun).
    apply bind_inr_inv in Hrun as (ys & w0 & [Hys ->]%df_getitem_inr & Hrun).
    apply bind_inr_inv in Hrun as (cmap & w0 & (-> & _ & ->)%get_cmap_inr & Hrun).
    apply bind_inr_inv in Hrun as ([] & w0 & [= <-] & Hrun).
    apply bind_inr_inv in Hrun as ([] & w0 & [= <-] & [= <-]).
    exists xs, ys. by split_and!.
Qed.

Lemma two_column_charts_witness :
  "scatter" ∈ ["bar"; "line"; "scatter"] ∧
  usable_y (Some "Salary") Sample.staff = true ∧
  ∃ w' : World,
    render "scatter" "Age" (Some "Salary") "plasma" Sample.staff Sample.idle = (inr (), w') ∧
    ∃ (yn : string) (xs ys : Series),
      Some "Salary" = Some yn ∧
      getitem Sample.staff "Age" = Some xs ∧ getitem Sample.staff yn = Some ys ∧
      artists (gcf (figures w'))
        = artists (gcf (figures Sample.idle))
            ++ [if decide ("scatter" = "bar")
                then bar (values xs) (values ys) (sampled "plasma" half)
                else if decide ("scatter" = "line")
                     then plot (values xs) (values ys) (sampled "plasma" half) "o"
                     else scatter (values xs) (values ys) (sampled "plasma" half)
                            (Q2Qc (7 # 10))] ∧
      xlabel (gcf (figures w')) = Some "Age" ∧
      ylabel (gcf (figures w')) = Some yn.
Proof.
  assert (Hct : "scatter" ∈ ["bar"; "line"; "scatter"]) by (rewrite !elem_of_cons; tauto).
  split; [exact Hct|]. split; [reflexivity|].
  eexists. split; [vm_compute; reflexivity|].
  apply (two_column_charts "scatter" "Age" (Some "Salary") "plasma" Sample.staff Sample.idle
           _ Hct eq_refl).
  vm_compute; reflexivity.
Defined.

(** X23: when the line branch has drawn for a request whose [y_column]
    is absent or empty, what it added to the figure is one line of the cells
    of [x_column] against the row numbers 0, 1, 2, ..., with the x axis
    labelled "Index" and the y axis labelled with the column's name. *)
Theorem line_chart_of_the_rows (x : string) (y : option string) (cs : string)
    (df : DataFrame) (w w' : World) :
  truthy y = false →
  render "line" x y cs df w = (inr (), w') →
  ∃ xs : Series,
    getitem df x = Some xs ∧
    artists (gcf (figures w'))
      = artists (gcf (figures w))
          ++ [plot ((λ i : nat, Some (Num (Z2Qc (Z.of_nat i)))) <$> seq 0 (len df))
                   (values xs) (sampled cs half) "o"] ∧
    xlabel (gcf (figures w')) = Some "Index" ∧
    ylabel (gcf (figures w')) = Some x.
Proof.
  intros Hy Hrun. unfold render in Hrun.
  destruct (decide ("line" = "bar")) as [?|_]; [discriminate|].
  destruct (decide ("line" = "line")) as [_|?]; [|done].
  assert (Hu : usable_y y df = false).
  { unfold usable_y, if_y_column. destruct y; [|done]. by rewrite Hy. }
  rewrite if_y_column_usable, Hu, Hy in Hrun. cbv zeta in Hrun.
  apply bind_inr_inv in Hrun as ([] & w1 & Hrun & [= <-]).
  apply bind_inr_inv in Hrun as (xs & w0 & [Hxs ->]%df_getitem_inr & Hrun).
  apply bind_inr_inv in Hrun as (cmap & w0 & (-> & _ & ->)%get_cmap_inr & Hrun).
  apply bind_inr_inv in Hrun as ([] & w0 & [= <-] & Hrun).
  apply bind_inr_inv in Hrun as ([] & w0 & [= <-] & [= <-]).
  exists xs. by split_and!.
Qed.

Lemma line_chart_of_the_rows_witness :
  truthy (Some "") = false ∧
  ∃ w' : World,
    render "line" "Salary" (Some "") "viridis" Sample.staff Sample.idle = (inr (), w') ∧
    ∃ xs : Series,
      getitem Sample.staff "Salary" = Some xs ∧
      artists (gcf (figures w'))
        = artists (gcf (figures Sample.idle))
            ++ [plot ((λ i : nat, Some (Num (Z2Qc (Z.of_nat i))))
                        <$> seq 0 (len Sample.staff))
                     (values xs) (sampled "viridis" half) "o"] ∧
      xlabel (gcf (figures w')) = Some "Index" ∧
      ylabel (gcf (figures w')) = Some "Salary".
Proof.
  split; [reflexivity|].
  eexists. split; [vm_compute; reflexivity|].
  apply (line_chart_of_the_rows "Salary" (Some "") "viridis" Sample.staff Sample.idle
           _ eq_refl).
  vm_compute; reflexivity.
Defined.

(** ** Listing and fetching what was stored *)

(** X24: a chart that was just generated is the last of the listing as
    long as fewer than 1000 charts were stored before it; from the 1000th
    stored chart on, the listing is the same before and after the call: the
    new chart is not in it. *)
Theorem get_charts_after_generate_chart (req : ChartRequest) (w w' : World)
    (resp : ChartResponse) :
  generate_chart req w = (inr resp, w') →
  ∃ chart_data : ChartData,
    id chart_data = resp_id resp ∧
    chart_image chart_data = Some (resp_chart_image resp) ∧
    (length (charts w) < 1000 →
       (get_charts w').1
         = inr ((delete "_id" <$> charts w) ++ [ChartData_dict chart_data])) ∧
    ((1000 ≤ length (charts w))%nat → (get_charts w').1 = (get_charts w).1).
Proof.
  intros H. apply generate_chart_inr in H
    as (df & config & ct & xc & fn & config' & w1 & _ & _ & _ & _ & _ & _ & _ & _ & H).
  cbv zeta in H. destruct H as [-> ->].
  match goal with
  | |- context [chart_document _ ?c] => exists (chart_as_stored c)
  end.
  split; [reflexivity|]. split; [reflexivity|].
  rewrite !get_charts_run. unfold after_success, chart_document. cbn [fst charts]. split.
  - intros Hlen. rewrite take_ge by (rewrite length_app; simpl; lia).
    rewrite fmap_app. cbn [fmap list_fmap].
    rewrite delete_insert_id by apply ChartData_dict_no_oid. done.
  - intros Hlen. by rewrite take_app_le by lia.
Qed.

Lemma get_charts_after_generate_chart_witness :
  ∃ (resp : ChartResponse) (w' : World),
    generate_chart (Sample.chart_of Sample.staff "bar" "Department" (Some "Salary")) Sample.idle
      = (inr resp, w') ∧
    ∃ chart_data : ChartData,
      id chart_data = resp_id resp ∧
      chart_image chart_data = Some (resp_chart_image resp) ∧
      (length (charts Sample.idle) < 1000 →
         (get_charts w').1
           = inr ((delete "_id" <$> charts Sample.idle) ++ [ChartData_dict chart_data])) ∧
      ((1000 ≤ length (charts Sample.idle))%nat →
         (get_charts w').1 = (get_charts Sample.idle).1).
Proof.
  eexists _, _. split; [vm_compute; reflexivity|].
  apply (get_charts_after_generate_chart
           (Sample.chart_of Sample.staff "bar" "Department" (Some "Salary")) Sample.idle).
  vm_compute; reflexivity.
Defined.

Lemma find_Some_first {A} (f : A → bool) (l : list A) (x : A) :
  List.find f l = Some x →
  f x = true ∧ ∃ older newer, l = older ++ x :: newer ∧ ∀ y, y ∈ older → f y = false.
Proof.
  induction l as [|y l IH]; simpl; [done|].
  destruct (f y) eqn:Hy.
  - intros [= ->]. split; [done|]. exists [], l. split; [done|]. by intros ? ?%elem_of_nil.
  - intros [Hx (older & newer & -> & Hold)]%IH. split; [done|].
    exists (y :: older), newer. split; [done|].
    intros z [->|Hz]%elem_of_cons; [done|by apply Hold].
Qed.

Lemma find_None_all {A} (f : A → bool) (l : list A) :
  List.find f l = None → ∀ y, y ∈ l → f y = false.
Proof.
  induction l as [|y l IH]; simpl; [by intros _ ? ?%elem_of_nil|].
  destruct (f y) eqn:Hy; [done|].
  intros Hl z [->|Hz]%elem_of_cons; [done|by apply IH].
Qed.

Lemma field_is_true (key value : string) (doc : Document) :
  field_is key value doc = true ↔ doc !! key = Some (PyStr value).
Proof.
  unfold field_is. destruct (doc !! key) as [[]|]; try (split; [done|by intros [=]]).
  rewrite bool_decide_eq_true. split; [by intros ->|by intros [= ->]].
Qed.

(** X25: [get_chart] reads and never writes. It answers 404 "Chart not
    found" exactly when no stored chart has the id; otherwise it returns the
    oldest stored chart with that id, without its [_id] and with every other
    key as stored. *)
Theorem get_chart_outcome (chart_id : string) (w : World) :
  (get_chart chart_id w).2 = w ∧
  match (get_chart chart_id w).1 with
  | inr doc =>
      ∃ (older : list Document) (stored : Document) (newer : list Document),
        charts w = older ++ stored :: newer ∧
        (∀ d, d ∈ older → d !! "id" ≠ Some (PyStr chart_id)) ∧
        stored !! "id" = Some (PyStr chart_id) ∧
        doc = delete "_id" stored
  | inl e =>
      e = HTTPException 404 (Literal "Chart not found") ∧
      ∀ d, d ∈ charts w → d !! "id" ≠ Some (PyStr chart_id)
  end.
Proof.
  unfold get_chart, find_one. rewrite bind_run.
  destruct (List.find (field_is "id" chart_id) (charts w)) as [chart|] eqn:Hfind.
  - apply find_Some_first in Hfind as [Hid%field_is_true (older & newer & Hcharts & Hold)].
    rewrite bool_decide_false.
    2:{ intros ->. by rewrite lookup_empty in Hid. }
    split; [done|]. simpl. exists older, chart, newer. split_and!; [done| |done|].
    + intros d Hd Hd'%field_is_true. by rewrite (Hold d Hd) in Hd'.
    + apply strip_id_delete.
  - split; [done|]. simpl. split; [done|].
    intros d Hd Hd'%field_is_true.
    by rewrite (find_None_all _ _ Hfind d Hd) in Hd'.
Qed.

(** ** Status checks *)

Lemma sm_bind_run {A B} (m : SM A) (k : A → SM B) (s : Service) :
  (m ≫= k) s =
    match m s with
    | (inr a, s') => k a s'
    | (inl e, s') => (inl e, s')
    end.
Proof. reflexivity. Qed.

(** Keys that name no field are ignored, and a dictionary that has the
    three fields draws nothing from the default factories. *)
Lemma StatusCheck_init_complete (kwargs : Document) (i n : string) (t : Z) (w : World) :
  kwargs !! "id" = Some (PyStr i) →
  kwargs !! "client_name" = Some (PyStr n) →
  kwargs !! "timestamp" = Some (PyDatetime t) →
  StatusCheck_init kwargs w
    = (inr {| status_id := i; client_name := n; status_timestamp := t |}, w).
Proof. intros Hi Hn Ht. unfold StatusCheck_init. by rewrite Hi, Hn, Ht. Qed.

(** X26: reading a stored status check back gives the object that was
    stored: [StatusCheck] built from the dictionary of a status check, with
    the [_id] the database added, is that status check, and no identifier or
    time is drawn for it. *)
Theorem status_check_round_trip (c : StatusCheck) (oid : pyval) (w : World) :
  StatusCheck_init (<["_id" := oid]> (StatusCheck_dict c)) w = (inr c, w).
Proof.
  destruct c as [i n t].
  apply StatusCheck_init_complete; unfold StatusCheck_dict; by simplify_map_eq.
Qed.

Lemma StatusCheck_init_status_document (oid : nat) (c : StatusCheck) (w : World) :
  StatusCheck_init (status_document oid c) w = (inr c, w).
Proof.
  destruct c as [i n t].
  apply StatusCheck_init_complete; unfold status_document, StatusCheck_dict;
    by simplify_map_eq.
Qed.

Lemma mapM_status_documents (docs : list Document) (w : World) :
  written_by_service docs →
  ∃ cs, mapM StatusCheck_init docs w = (inr cs, w) ∧
        Forall2 (λ d c, ∃ oid, d = status_document oid c) docs cs.
Proof.
  induction 1 as [|d docs (oid & c & ->) _ (cs & IH & Hcs)].
  - exists []. split; [done|constructor].
  - exists (c :: cs). split.
    + cbn [mapM]. rewrite bind_run, StatusCheck_init_status_document.
      rewrite bind_run, IH. done.
    + constructor; [by exists oid|done].
Qed.

Lemma bson_status_document (oid : nat) (c : StatusCheck) :
  bson_value <$> (<["_id" := PyObjectId oid]> (StatusCheck_dict c))
    = status_document oid (as_stored c).
Proof.
  unfold status_document, StatusCheck_dict, as_stored. simpl.
  by rewrite !fmap_insert, fmap_empty.
Qed.

Lemma create_status_check_run (input : StatusCheckCreate) (s : Service) :
  let w := process s in
  let c := {| status_id := uuid4 w (reads w);
              client_name := create_client_name input;
              status_timestamp := utcnow w (S (reads w)) |} in
  create_status_check input s =
    (inr c, {| process := next_object_id (advance (advance w));
               status_checks :=
                 status_checks s ++ [status_document (next_oid w) (as_stored c)] |}).
Proof.
  intros w c.
  assert (Hoid : StatusCheck_dict c !! "_id" = None)
    by (unfold StatusCheck_dict; by simplify_map_eq).
  unfold create_status_check, StatusCheckCreate_dict, lift, StatusCheck_init.
  rewrite sm_bind_run. simplify_map_eq.
  unfold new_uuid, now, mbind, M_bind, mret, M_ret, SM_bind, SM_ret,
    status_checks_insert_one.
  cbn -[StatusCheck_dict fmap]. fold w. fold c.
  rewrite Hoid. by rewrite bson_status_document.
Qed.

(** X27: [create_status_check] never fails. It returns a status check
    with the client's name, a fresh id and the time of the call; it stores
    that object, under a new [ObjectId] and with its time cut to the
    millisecond (so less than a millisecond short), behind the status
    checks stored before; and it leaves the charts and the open figures
    alone. *)
Theorem create_status_check_appends_what_it_returns (input : StatusCheckCreate)
    (s : Service) :
  ∃ (c : StatusCheck) (s' : Service),
    create_status_check input s = (inr c, s') ∧
    client_name c = create_client_name input ∧
    status_id c = uuid4 (process s) (reads (process s)) ∧
    status_timestamp c = utcnow (process s) (S (reads (process s))) ∧
    status_checks s'
      = status_checks s
          ++ [<["_id" := PyObjectId (next_oid (process s))]> (StatusCheck_dict (as_stored c))] ∧
    status_id (as_stored c) = status_id c ∧
    client_name (as_stored c) = client_name c ∧
    (status_timestamp (as_stored c) ≤ status_timestamp c
       < status_timestamp (as_stored c) + 1000)%Z ∧
    charts (process s') = charts (process s) ∧
    figures (process s') = figures (process s).
Proof.
  eexists _, _. split; [apply create_status_check_run|].
  split_and!; try done; apply bson_datetime_bounds.
Qed.

Lemma get_status_checks_run (s : Service) :
  get_status_checks s = lift (mapM StatusCheck_init (take 1000 (status_checks s))) s.
Proof. reflexivity. Qed.

Lemma written_by_service_take (n : nat) (docs : list Document) :
  written_by_service docs → written_by_service (take n docs).
Proof. apply Forall_take. Qed.

(** X28: on a collection that only [create_status_check] wrote,
    [get_status_checks] never fails and changes nothing; it returns the
    status checks of the first 1000 documents, oldest first, each as it was
    stored. *)
Theorem get_status_checks_lists_oldest_thousand (s : Service) :
  written_by_service (status_checks s) →
  ∃ cs : list StatusCheck,
    get_status_checks s = (inr cs, s) ∧
    length cs = (1000 `min` length (status_checks s))%nat ∧
    ∀ i c, cs !! i = Some c →
      ∃ oid, status_checks s !! i = Some (status_document oid c).
Proof.
  intros Hs.
  destruct (mapM_status_documents (take 1000 (status_checks s)) (process s)
              (written_by_service_take _ _ Hs)) as (cs & Hrun & Hcs).
  exists cs. split_and!.
  - rewrite get_status_checks_run. unfold lift. rewrite Hrun. by destruct s.
  - rewrite <- (Forall2_length _ _ _ Hcs). apply length_take.
  - intros i c Hc.
    destruct (Forall2_lookup_r _ _ _ _ _ Hcs Hc) as (d & Hd & oid & ->).
    exists oid. by apply lookup_take_Some in Hd as [Hd _].
Qed.

Lemma get_status_checks_lists_oldest_thousand_witness :
  written_by_service (status_checks Sample.probed) ∧
  ∃ cs : list StatusCheck,
    get_status_checks Sample.probed = (inr cs, Sample.probed) ∧
    length cs = (1000 `min` length (status_checks Sample.probed))%nat ∧
    ∀ i c, cs !! i = Some c →
      ∃ oid, status_checks Sample.probed !! i = Some (status_document oid c).
Proof.
  assert (Hs : written_by_service (status_checks Sample.probed)).
  { repeat constructor. by eexists _, _. }
  split; [exact Hs|].
  exact (get_status_checks_lists_oldest_thousand Sample.probed Hs).
Defined.

Lemma mapM_status_documents_app (docs : list Document) (cs : list StatusCheck)
    (oid : nat) (c : StatusCheck) (w : World) :
  written_by_service docs →
  mapM StatusCheck_init docs w = (inr cs, w) →
  mapM StatusCheck_init (docs ++ [status_document oid c]) w = (inr (cs ++ [c]), w).
Proof.
  intros Hdocs. revert cs.
  induction Hdocs as [|d docs (oid' & c' & ->) _ IH]; intros cs.
  - intros [= <-]. cbn [app mapM]. by rewrite bind_run, StatusCheck_init_status_document.
  - cbn [app mapM]. rewrite !bind_run, !StatusCheck_init_status_document, !bind_run.
    destruct (mapM StatusCheck_init docs w) as [[e|cs0] w0] eqn:Hdocs; [done|].
    intros [= <- ->]. by rewrite (IH cs0 eq_refl).
Qed.

(** X29: a status check that was just created is the last of the listing
    as long as fewer than 1000 were stored before it, the others being
    listed as before: what [get_status_checks] returns after
    [create_status_check] is what it returned before, followed by the object
    that [create_status_check] returned with its time cut to the
    millisecond. *)
Theorem get_status_checks_after_create (input : StatusCheckCreate) (s : Service) :
  written_by_service (status_checks s) →
  length (status_checks s) < 1000 →
  ∃ (c : StatusCheck) (s' : Service) (olds : list StatusCheck),
    create_status_check input s = (inr c, s') ∧
    client_name c = create_client_name input ∧
    get_status_checks s = (inr olds, s) ∧
    get_status_checks s' = (inr (olds ++ [as_stored c]), s').
Proof.
  intros Hs Hlen.
  destruct (mapM_status_documents (status_checks s) (process s) Hs) as (olds & Holds & _).
  eexists _, _, olds. split; [apply create_status_check_run|]. split; [done|].
  rewrite !get_status_checks_run. unfold lift. cbn [process status_checks].
  rewrite !take_ge by (rewrite ?length_app; simpl; lia).
  rewrite Holds. split; [by destruct s|].
  erewrite mapM_status_documents_app; [done|done|].
  destruct (mapM_status_documents (status_checks s)
              (next_object_id (advance (advance (process s)))) Hs) as (olds' & Holds' & _).
  rewrite Holds'. do 2 f_equal.
  clear -Hs Holds Holds'. revert olds olds' Holds Holds'.
  induction Hs as [|d docs (oid' & c' & ->) _ IH]; intros olds olds'.
  - by intros [= <-] [= <-].
  - cbn [mapM]. rewrite !bind_run, !StatusCheck_init_status_document, !bind_run.
    destruct (mapM StatusCheck_init docs (process s)) as [[e|cs0] w0] eqn:Hdocs; [done|].
    destruct (mapM StatusCheck_init docs _) as [[e|cs1] w1] eqn:Hdocs' in |- *; [done|].
    intros [= <- ->] [= <- ->]. f_equal. by apply IH.
Qed.

Lemma get_status_checks_after_create_witness :
  written_by_service (status_checks Sample.probed) ∧
  length (status_checks Sample.probed) < 1000 ∧
  ∃ (c : StatusCheck) (s' : Service) (olds : list StatusCheck),
    create_status_check {| create_client_name := "dashboard" |} Sample.probed = (inr c, s') ∧
    client_name c = "dashboard" ∧
    get_status_checks Sample.probed = (inr olds, Sample.probed) ∧
    get_status_checks s' = (inr (olds ++ [as_stored c]), s').
Proof.
  assert (Hs : written_by_service (status_checks Sample.probed)).
  { repeat constructor. by eexists _, _. }
  assert (Hlen : length (status_checks Sample.probed) < 1000) by (simpl; lia).
  split; [exact Hs|]. split; [exact Hlen|].
  exact (get_status_checks_after_create {| create_client_name := "dashboard" |}
           Sample.probed Hs Hlen).
Defined.

Lemma StatusCheck_init_raises (kwargs : Document) (w w' : World) (e : exn) :
  StatusCheck_init kwargs w = (inl e, w') → ∃ field, e = ValidationError field.
Proof.
  unfold StatusCheck_init. rewrite !bind_run.
  destruct (kwargs !! "id") as [[]|]; simpl;
    destruct (kwargs !! "timestamp") as [[]|]; simpl;
    destruct (kwargs !! "client_name") as [[]|]; simpl;
    intros [= <- _]; eauto.
Qed.

Lemma StatusCheck_init_needs_client_name (kwargs : Document) (w : World) :
  kwargs !! "client_name" = None → ∃ e w', StatusCheck_init kwargs w = (inl e, w').
Proof.
  intros Hn. unfold StatusCheck_init. rewrite !bind_run, Hn.
  destruct (kwargs !! "id") as [[]|]; simpl;
    destruct (kwargs !! "timestamp") as [[]|]; simpl; eauto.
Qed.

Lemma mapM_StatusCheck_init_raises (docs : list Document) (d : Document) (w : World) :
  d ∈ docs → d !! "client_name" = None →
  ∃ field w', mapM StatusCheck_init docs w = (inl (ValidationError field), w').
Proof.
  intros Hd Hn. revert w. induction docs as [|d0 docs IH]; intros w.
  - by apply elem_of_nil in Hd.
  - cbn [mapM]. rewrite bind_run.
    destruct (StatusCheck_init d0 w) as [[e|c] w0] eqn:Hd0.
    + destruct (StatusCheck_init_raises _ _ _ _ Hd0) as [field ->]. eauto.
    + apply elem_of_cons in Hd as [->|Hd].
      * destruct (StatusCheck_init_needs_client_name d0 w Hn) as (e & w' & He). congruence.
      * rewrite bind_run. destruct (IH Hd w0) as (field & w' & ->). eauto.
Qed.

(** X30: one document without [client_name] among the first 1000 makes
    the whole listing fail: [get_status_checks] raises a validation error,
    which the client sees as a 500, and returns none of the other status
    checks. The collection is left as it was. *)
Theorem get_status_checks_fails_on_incomplete_document (s : Service) (d : Document) :
  d ∈ take 1000 (status_checks s) →
  d !! "client_name" = None →
  ∃ field s',
    get_status_checks s = (inl (ValidationError field), s') ∧
    status_checks s' = status_checks s ∧
    status (get_status_checks s).1 = 500%Z.
Proof.
  intros Hd Hn. rewrite get_status_checks_run. unfold lift.
  destruct (mapM_StatusCheck_init_raises _ d (process s) Hd Hn) as (field & w' & ->).
  by eexists _, _.
Qed.

Lemma get_status_checks_fails_on_incomplete_document_witness :
  let d : Document := {["id" := PyStr "e5f6a7b8"]} in
  d ∈ take 1000 (status_checks Sample.tampered) ∧
  d !! "client_name" = None ∧
  ∃ field s',
    get_status_checks Sample.tampered = (inl (ValidationError field), s') ∧
    status_checks s' = status_checks Sample.tampered ∧
    status (get_status_checks Sample.tampered).1 = 500%Z.
Proof.
  assert (Hd : ({["id" := PyStr "e5f6a7b8"]} : Document)
                 ∈ take 1000 (status_checks Sample.tampered)).
  { cbn. rewrite !elem_of_cons. tauto. }
  split; [exact Hd|]. split; [reflexivity|].
  exact (get_status_checks_fails_on_incomplete_document Sample.tampered _ Hd eq_refl).
Defined.
